(** * AzureAI-Proxy-Function: conversation orchestration core

    A shallow embedding of the Python sources
      - [data/chunk_data.py]        (streaming-delta accumulator),
      - [proxy/completions_proxy.py] (step loop, compaction, publishing),
      - [proxy/abstract_proxy.py], [data/chat_context.py],
        [function_registry.py]      (tool dispatch),
      - [proxy/assistant_processor.py] (multi-agent fan-out / merge),
    together with the properties stated about them.

    Conventions.  Python [None]-able attributes are [option]s; a Python
    [dict] with string keys is a [gmap string _]; an object mutated in
    place is threaded explicitly; a call that may raise returns an
    [outcome]; [time()] is read from a clock indexed by the number of
    readings taken so far. *)

From Stdlib Require Import ZArith QArith String Ascii List.
From stdpp Require Import gmap strings list.

Set Warnings "-register-all".

Local Open Scope string_scope.
Local Open Scope list_scope.
Local Open Scope Z_scope.

(** ** Python exceptions and outcomes *)

Inductive exn : Type :=
| ValueError (msg : string)
| TypeError (msg : string)
| AttributeError (msg : string)
| KeyError (key : string)
| IndexError (msg : string)
| JSONDecodeError
| TimeoutError (msg : string)
| UnboundLocalError (var : string)
| ToolError (msg : string).

Inductive outcome (A : Type) : Type :=
| Ret (a : A)
| Raise (e : exn).
Arguments Ret {A} a.
Arguments Raise {A} e.

Definition bind {A B : Type} (m : outcome A) (k : A -> outcome B) : outcome B :=
  match m with
  | Ret a => k a
  | Raise e => Raise e
  end.

Notation "'let*' x ':=' m 'in' k" := (bind m (fun x => k))
  (at level 10, x name, m at level 100, k at level 200).

(** [acc = piece if acc is None else acc + piece] *)
Definition cat (acc : option string) (piece : string) : option string :=
  Some (match acc with None => piece | Some a => a +:+ piece end).

(** [str(x)] of an optional string, as an f-string prints it. *)
Definition str_opt (o : option string) : string := default "None" o.

Definition is_function (t : option string) : bool :=
  match t with
  | Some s => String.eqb s "function"
  | None => false
  end.

(** ** Python values and [json.loads]

    [json] is Python's standard library, not part of the repository.  The
    functions that call it take the decoder as a parameter; [Json.loads] is
    a reference decoder for the JSON grammar (RFC 8259, plus the three
    constants Python accepts), used where a concrete text is evaluated.
    [None] stands for [json.JSONDecodeError]. *)

Module Json.

Inductive pyval : Type :=
| PNone
| PBool (b : bool)
| PInt (z : Z)
| PFloat (literal : string)
| PStr (s : string)
| PList (items : list pyval)
| PDict (members : list (string * pyval)).

(** [d.get(key)] on a decoded object: the last binding of a repeated key
    is the one Python keeps. *)
Fixpoint dict_get (key : string) (members : list (string * pyval)) : option pyval :=
  match members with
  | [] => None
  | (k, v) :: rest =>
      match dict_get key rest with
      | Some v' => Some v'
      | None => if String.eqb k key then Some v else None
      end
  end.

Definition quote : ascii := "034"%char.
Definition backslash : ascii := "092"%char.

Definition is_ws (c : ascii) : bool :=
  Ascii.eqb c " "%char || Ascii.eqb c "009"%char
  || Ascii.eqb c "010"%char || Ascii.eqb c "013"%char.

Definition is_digit (c : ascii) : bool :=
  let n := N_of_ascii c in (48 <=? n)%N && (n <=? 57)%N.

Definition digit_val (c : ascii) : Z := Z.of_N (N_of_ascii c) - 48.

Definition hex_val (c : ascii) : option Z :=
  let n := Z.of_N (N_of_ascii c) in
  if (48 <=? n) && (n <=? 57) then Some (n - 48)
  else if (65 <=? n) && (n <=? 70) then Some (n - 55)
  else if (97 <=? n) && (n <=? 102) then Some (n - 87)
  else None.

Fixpoint skip_ws (s : list ascii) : list ascii :=
  match s with
  | c :: rest => if is_ws c then skip_ws rest else s
  | [] => []
  end.

Fixpoint take_digits (s : list ascii) : list ascii * list ascii :=
  match s with
  | c :: rest =>
      if is_digit c then let '(ds, r) := take_digits rest in (c :: ds, r)
      else ([], s)
  | [] => ([], [])
  end.

Definition digits_val (ds : list ascii) : Z :=
  fold_left (fun acc c => 10 * acc + digit_val c) ds 0.

Definition byte (z : Z) : ascii := ascii_of_N (Z.to_N z).

(** UTF-8 bytes of a code point of the basic plane. *)
Definition utf8 (cp : Z) : list ascii :=
  if cp <? 128 then [byte cp]
  else if cp <? 2048 then [byte (192 + cp / 64); byte (128 + cp mod 64)]
  else [byte (224 + cp / 4096); byte (128 + (cp / 64) mod 64); byte (128 + cp mod 64)].

(** The characters after an opening quote, up to the closing one. *)
Fixpoint parse_string (s : list ascii) (acc : list ascii)
  : option (string * list ascii) :=
  match s with
  | [] => None
  | c :: rest =>
      if Ascii.eqb c quote then Some (string_of_list_ascii (rev acc), rest)
      else if Ascii.eqb c backslash then
        match rest with
        | e :: rest' =>
            if Ascii.eqb e quote then parse_string rest' (quote :: acc)
            else if Ascii.eqb e backslash then parse_string rest' (backslash :: acc)
            else if Ascii.eqb e "/"%char then parse_string rest' ("/"%char :: acc)
            else if Ascii.eqb e "b"%char then parse_string rest' ("008"%char :: acc)
            else if Ascii.eqb e "f"%char then parse_string rest' ("012"%char :: acc)
            else if Ascii.eqb e "n"%char then parse_string rest' ("010"%char :: acc)
            else if Ascii.eqb e "r"%char then parse_string rest' ("013"%char :: acc)
            else if Ascii.eqb e "t"%char then parse_string rest' ("009"%char :: acc)
            else if Ascii.eqb e "u"%char then
              match rest' with
              | h1 :: h2 :: h3 :: h4 :: rest'' =>
                  match hex_val h1, hex_val h2, hex_val h3, hex_val h4 with
                  | Some a, Some b, Some c', Some d =>
                      parse_string rest''
                        (rev (utf8 (4096 * a + 256 * b + 16 * c' + d)) ++ acc)
                  | _, _, _, _ => None
                  end
              | _ => None
              end
            else None
        | [] => None
        end
      else if (N_of_ascii c <? 32)%N then None
      else parse_string rest (c :: acc)
  end.

Fixpoint strip_prefix (p s : list ascii) : option (list ascii) :=
  match p, s with
  | [], _ => Some s
  | a :: p', b :: s' => if Ascii.eqb a b then strip_prefix p' s' else None
  | _ :: _, [] => None
  end.

(** A number: an optional minus sign, an integer part without leading
    zeros, an optional fraction and an optional exponent; without the last
    two it is an [int], otherwise a [float] kept as its literal. *)
Definition parse_number (s : list ascii) : option (pyval * list ascii) :=
  let '(neg, s1) :=
    match s with
    | c :: rest => if Ascii.eqb c "-"%char then (true, rest) else (false, s)
    | [] => (false, s)
    end in
  let int_part :=
    match s1 with
    | c :: rest =>
        if Ascii.eqb c "0"%char then Some ([c], rest)
        else if is_digit c then Some (take_digits s1)
        else None
    | [] => None
    end in
  match int_part with
  | None => None
  | Some (ds, r1) =>
      let '(frac, r2) :=
        match r1 with
        | c :: rest =>
            if Ascii.eqb c "."%char then
              match take_digits rest with
              | ([], _) => ([], r1)
              | (fs, r) => (c :: fs, r)
              end
            else ([], r1)
        | [] => ([], r1)
        end in
      let '(ex, r3) :=
        match r2 with
        | c :: rest =>
            if Ascii.eqb c "e"%char || Ascii.eqb c "E"%char then
              let '(sign, rest1) :=
                match rest with
                | g :: rest' =>
                    if Ascii.eqb g "+"%char || Ascii.eqb g "-"%char
                    then ([g], rest') else ([], rest)
                | [] => ([], rest)
                end in
              match take_digits rest1 with
              | ([], _) => ([], r2)
              | (es, r) => (c :: sign ++ es, r)
              end
            else ([], r2)
        | [] => ([], r2)
        end in
      match frac, ex with
      | [], [] =>
          Some (PInt (if neg then - digits_val ds else digits_val ds), r3)
      | _, _ =>
          Some (PFloat (string_of_list_ascii
                          ((if neg then ["-"%char] else []) ++ ds ++ frac ++ ex)), r3)
      end
  end.

Definition parse_constant (s : list ascii) : option (pyval * list ascii) :=
  match strip_prefix (list_ascii_of_string "null") s with
  | Some r => Some (PNone, r)
  | None =>
  match strip_prefix (list_ascii_of_string "true") s with
  | Some r => Some (PBool true, r)
  | None =>
  match strip_prefix (list_ascii_of_string "false") s with
  | Some r => Some (PBool false, r)
  | None =>
  match strip_prefix (list_ascii_of_string "NaN") s with
  | Some r => Some (PFloat "NaN", r)
  | None =>
  match strip_prefix (list_ascii_of_string "Infinity") s with
  | Some r => Some (PFloat "Infinity", r)
  | None =>
  match strip_prefix (list_ascii_of_string "-Infinity") s with
  | Some r => Some (PFloat "-Infinity", r)
  | None => parse_number s
  end end end end end end.

Fixpoint parse_value (fuel : nat) (s : list ascii) {struct fuel}
  : option (pyval * list ascii) :=
  match fuel with
  | O => None
  | S f =>
      match skip_ws s with
      | [] => None
      | c :: rest =>
          if Ascii.eqb c "{"%char then
            match skip_ws rest with
            | c' :: rest' =>
                if Ascii.eqb c' "}"%char then Some (PDict [], rest')
                else parse_members f rest []
            | [] => None
            end
          else if Ascii.eqb c "["%char then
            match skip_ws rest with
            | c' :: rest' =>
                if Ascii.eqb c' "]"%char then Some (PList [], rest')
                else parse_elements f rest []
            | [] => None
            end
          else if Ascii.eqb c quote then
            match parse_string rest [] with
            | Some (str, r) => Some (PStr str, r)
            | None => None
            end
          else parse_constant (c :: rest)
      end
  end
with parse_elements (fuel : nat) (s : list ascii) (acc : list pyval) {struct fuel}
  : option (pyval * list ascii) :=
  match fuel with
  | O => None
  | S f =>
      match parse_value f s with
      | None => None
      | Some (v, r) =>
          match skip_ws r with
          | c :: rest =>
              if Ascii.eqb c ","%char then parse_elements f rest (v :: acc)
              else if Ascii.eqb c "]"%char then Some (PList (rev (v :: acc)), rest)
              else None
          | [] => None
          end
      end
  end
with parse_members (fuel : nat) (s : list ascii) (acc : list (string * pyval))
    {struct fuel} : option (pyval * list ascii) :=
  match fuel with
  | O => None
  | S f =>
      match skip_ws s with
      | c :: rest =>
          if Ascii.eqb c quote then
            match parse_string rest [] with
            | None => None
            | Some (k, r1) =>
                match skip_ws r1 with
                | c1 :: r2 =>
                    if Ascii.eqb c1 ":"%char then
                      match parse_value f r2 with
                      | None => None
                      | Some (v, r3) =>
                          match skip_ws r3 with
                          | c3 :: r4 =>
                              if Ascii.eqb c3 ","%char
                              then parse_members f r4 ((k, v) :: acc)
                              else if Ascii.eqb c3 "}"%char
                              then Some (PDict (rev ((k, v) :: acc)), r4)
                              else None
                          | [] => None
                          end
                      end
                    else None
                | [] => None
                end
            end
          else None
      | [] => None
      end
  end.

(** [json.loads(text)]: one value, then nothing but white space. *)
Definition loads (text : string) : option pyval :=
  let s := list_ascii_of_string text in
  match parse_value (2 * length s + 2) s with
  | Some (v, r) => match skip_ws r with [] => Some v | _ :: _ => None end
  | None => None
  end.

(** A text in double quotes, for writing JSON examples. *)
Definition q (s : string) : string :=
  String quote (s +:+ String quote EmptyString).

End Json.

(** ** data/chunk_data.py *)

Module Chunk.
Import Json.

(** [openai.types.chat.chat_completion_chunk]: the fragments received. *)
Record ChoiceDeltaToolCallFunction : Type := {
  fn_arguments : option string;
  fn_name : option string
}.

Record ChoiceDeltaToolCall : Type := {
  dt_index : Z;
  dt_id : option string;
  dt_function : option ChoiceDeltaToolCallFunction;
  dt_type : option string
}.

Record ChoiceDelta : Type := {
  d_content : option string;
  d_role : option string;
  d_tool_calls : option (list ChoiceDeltaToolCall)
}.

(** [class ChunkToolCallFunction], [class ChunkToolCallData] *)
Record ChunkToolCallFunction : Type := {
  name : option string;
  arguments : option string
}.

Record ChunkToolCallData : Type := {
  index : Z;
  tc_id : option string;
  tc_type : option string;
  function : ChunkToolCallFunction
}.

(** [ChunkToolCallData()]: the class defaults. *)
Definition new_tool_call : ChunkToolCallData :=
  {| index := 0; tc_id := None; tc_type := None;
     function := {| name := None; arguments := None |} |}.

(** [class ChunkData] *)
Record ChunkData : Type := {
  content : option string;
  role : option string;
  tool_calls : option (list ChunkToolCallData);
  accumulated_delta : option string;
  last_stream_publish : Q;
  tool_content : option string
}.

(** [ChunkData()] *)
Definition new_chunk : ChunkData :=
  {| content := None; role := None; tool_calls := None;
     accumulated_delta := None; last_stream_publish := 0%Q;
     tool_content := None |}.

(** The search loop of [add_chunk_delta]: position of the first
    accumulator whose index equals the fragment's. *)
Fixpoint find_tool_call (i : Z) (tcs : list ChunkToolCallData) : option nat :=
  match tcs with
  | [] => None
  | tc :: rest =>
      if Z.eqb (index tc) i then Some O
      else S <$> find_tool_call i rest
  end.

(** The three assignments made before the fragment's [function] is read. *)
Definition set_header (tc : ChunkToolCallData) (dt : ChoiceDeltaToolCall)
  : ChunkToolCallData :=
  {| index := dt_index dt;
     tc_id := match dt_id dt with Some i => Some i | None => tc_id tc end;
     tc_type := match dt_type dt with Some t => Some t | None => tc_type tc end;
     function := function tc |}.

(** The assignments to [tool_call.function]. *)
Definition set_function (tc : ChunkToolCallData) (fn : ChoiceDeltaToolCallFunction)
  : ChunkToolCallData :=
  {| index := index tc; tc_id := tc_id tc; tc_type := tc_type tc;
     function :=
       {| name := match fn_name fn with
                  | Some n => Some n
                  | None => name (function tc)
                  end;
          arguments := match fn_arguments fn with
                       | Some a => cat (arguments (function tc)) a
                       | None => arguments (function tc)
                       end |} |}.

(** The whole body of the ["function"] branch for one fragment. *)
Definition absorb (tc : ChunkToolCallData) (dt : ChoiceDeltaToolCall)
    (fn : ChoiceDeltaToolCallFunction) : ChunkToolCallData :=
  set_function (set_header tc dt) fn.

(** One iteration of [for delta_tool in delta.tool_calls].  The
    accumulator is mutated in place, so the list returned alongside an
    exception is the list as the exception leaves it. *)
Definition merge_tool_call (tcs : list ChunkToolCallData) (dt : ChoiceDeltaToolCall)
  : list ChunkToolCallData * outcome unit :=
  let '(tcs1, k) :=
    match find_tool_call (dt_index dt) tcs with
    | Some k => (tcs, k)
    | None => (tcs ++ [new_tool_call], length tcs)
    end in
  match tcs1 !! k with
  | None => (tcs1, Raise (IndexError "tool_calls"))
  | Some tc =>
      if is_function (tc_type tc) || is_function (dt_type dt) then
        match dt_function dt with
        | Some fn => (<[k := absorb tc dt fn]> tcs1, Ret tt)
        | None =>
            (<[k := set_header tc dt]> tcs1,
             Raise (AttributeError "'NoneType' object has no attribute 'name'"))
        end
      else
        (tcs1, Raise (ValueError ("Unknown tool call type: " +:+ str_opt (dt_type dt))))
  end.

Fixpoint merge_tool_calls (tcs : list ChunkToolCallData) (dts : list ChoiceDeltaToolCall)
  : list ChunkToolCallData * outcome unit :=
  match dts with
  | [] => (tcs, Ret tt)
  | dt :: rest =>
      match merge_tool_call tcs dt with
      | (tcs', Ret _) => merge_tool_calls tcs' rest
      | (tcs', Raise e) => (tcs', Raise e)
      end
  end.

Definition add_chunk_delta (cd : ChunkData) (delta : ChoiceDelta)
  : ChunkData * outcome unit :=
  let role1 := match d_role delta with Some r => Some r | None => role cd end in
  let content1 := match d_content delta with
                  | Some c => cat (content cd) c
                  | None => content cd
                  end in
  let acc1 := match d_content delta with
              | Some c => cat (accumulated_delta cd) c
              | None => accumulated_delta cd
              end in
  match d_tool_calls delta with
  | None =>
      ({| content := content1; role := role1; tool_calls := tool_calls cd;
          accumulated_delta := acc1;
          last_stream_publish := last_stream_publish cd;
          tool_content := tool_content cd |}, Ret tt)
  | Some dts =>
      let '(tcs, r) := merge_tool_calls (default [] (tool_calls cd)) dts in
      ({| content := content1; role := role1; tool_calls := Some tcs;
          accumulated_delta := acc1;
          last_stream_publish := last_stream_publish cd;
          tool_content := tool_content cd |}, r)
  end.

(** Fragments applied in arrival order; an exception ends the stream. *)
Fixpoint add_chunk_deltas (cd : ChunkData) (deltas : list ChoiceDelta)
  : ChunkData * outcome unit :=
  match deltas with
  | [] => (cd, Ret tt)
  | d :: rest =>
      match add_chunk_delta cd d with
      | (cd', Ret _) => add_chunk_deltas cd' rest
      | (cd', Raise e) => (cd', Raise e)
      end
  end.

(** *** The data-source ("extensions") delta format *)

(** One entry of [choice.model_extra['messages']]. *)
Record DataSourceDelta : Type := {
  ds_role : option string;
  ds_content : option string
}.

Record DataSourceMsg : Type := {
  ds_delta : option DataSourceDelta;
  ds_end_turn : bool          (* [msg.get('end_turn', False)] *)
}.

(** The loop of [add_data_source_delta], carrying the two flags.  A
    message skipped by [continue] does not reach the assignment of
    [end_turn]; the error branch fails while formatting its message,
    because [msg] is a [dict] and has no attribute [role]. *)
Fixpoint add_data_source_loop (cd : ChunkData) (end_turn content_accumulated : bool)
    (msgs : list DataSourceMsg) : ChunkData * outcome (bool * bool) :=
  match msgs with
  | [] => (cd, Ret (end_turn, content_accumulated))
  | msg :: rest =>
      match ds_delta msg with
      | None => add_data_source_loop cd end_turn content_accumulated rest
      | Some delta =>
          match ds_role delta with
          | None =>
              match ds_content delta with
              | None => add_data_source_loop cd end_turn content_accumulated rest
              | Some c =>
                  add_data_source_loop
                    {| content := cat (content cd) c; role := role cd;
                       tool_calls := tool_calls cd;
                       accumulated_delta := cat (accumulated_delta cd) c;
                       last_stream_publish := last_stream_publish cd;
                       tool_content := tool_content cd |}
                    (ds_end_turn msg) true rest
              end
          | Some r =>
              if String.eqb r "tool" then
                match ds_content delta with
                | None => add_data_source_loop cd end_turn content_accumulated rest
                | Some c =>
                    add_data_source_loop
                      {| content := content cd; role := role cd;
                         tool_calls := tool_calls cd;
                         accumulated_delta := accumulated_delta cd;
                         last_stream_publish := last_stream_publish cd;
                         tool_content := cat (tool_content cd) c |}
                      (ds_end_turn msg) content_accumulated rest
                end
              else if String.eqb r "assistant" then
                add_data_source_loop cd (ds_end_turn msg) content_accumulated rest
              else
                (cd, Raise (AttributeError "'dict' object has no attribute 'role'"))
          end
      end
  end.

(** Returns [(end_turn, content_accumulated)]. *)
Definition add_data_source_delta (cd : ChunkData) (msgs : list DataSourceMsg)
  : ChunkData * outcome (bool * bool) :=
  add_data_source_loop cd false false msgs.

(** *** Citations carried on the tool channel *)

(** [class ChatCitation] of [data/chat_response.py]; [PNone] is an unset
    attribute. *)
Record ChatCitation : Type := {
  c_id : pyval;
  c_text : pyval;
  c_url : pyval;
  c_title : pyval;
  c_start : pyval;
  c_end : pyval;
  c_replace_part : pyval
}.

Definition new_citation : ChatCitation :=
  {| c_id := PNone; c_text := PNone; c_url := PNone; c_title := PNone;
     c_start := PNone; c_end := PNone; c_replace_part := PNone |}.

Definition is_none (v : pyval) : bool :=
  match v with PNone => true | _ => false end.

(** [ChatCitation.to_api_response] *)
Definition to_api_response (c : ChatCitation) : pyval :=
  let field (k : string) (v : pyval) := if is_none v then [] else [(k, v)] in
  PDict (field "id" (c_id c) ++ field "content" (c_text c) ++ field "url" (c_url c)
         ++ field "title" (c_title c) ++ field "start" (c_start c)
         ++ field "end" (c_end c) ++ field "replace_part" (c_replace_part c)).

Fixpoint is_substring (p s : string) : bool :=
  String.prefix p s
  || match s with
     | EmptyString => false
     | String _ s' => is_substring p s'
     end.

Definition pyval_is_str (key : string) (v : pyval) : bool :=
  match v with PStr s => String.eqb s key | _ => false end.

(** [key in v] *)
Definition py_in (key : string) (v : pyval) : outcome bool :=
  match v with
  | PDict members => Ret (bool_decide (is_Some (dict_get key members)))
  | PStr s => Ret (is_substring key s)
  | PList items => Ret (existsb (pyval_is_str key) items)
  | _ => Raise (TypeError "argument is not iterable")
  end.

(** [v.get(key, None)] *)
Definition py_get (key : string) (v : pyval) : outcome pyval :=
  match v with
  | PDict members => Ret (default PNone (dict_get key members))
  | _ => Raise (AttributeError "object has no attribute 'get'")
  end.

(** [if key in c: <field> = c.get(key, None)] *)
Definition read_field (key : string) (c : pyval) (old : pyval) : outcome pyval :=
  let* present := py_in key c in
  if (present : bool) then py_get key c else Ret old.

(** The body of the loop of [get_tool_citations]. *)
Definition citation_of (tc_citation : pyval) : outcome ChatCitation :=
  let* i := read_field "id" tc_citation PNone in
  let* t := read_field "content" tc_citation PNone in
  let* ti := read_field "title" tc_citation PNone in
  let* u := read_field "url" tc_citation PNone in
  let* u' := (if is_none u then read_field "filepath" tc_citation u else Ret u) in
  let* e := read_field "end" tc_citation PNone in
  let* st := read_field "start" tc_citation PNone in
  Ret {| c_id := i; c_text := t; c_url := u'; c_title := ti;
         c_start := st; c_end := e; c_replace_part := PNone |}.

Fixpoint citations_of (items : list pyval) : outcome (list ChatCitation) :=
  match items with
  | [] => Ret []
  | it :: rest =>
      let* c := citation_of it in
      let* cs := citations_of rest in
      Ret (c :: cs)
  end.

(** What [for x in v] iterates over. *)
Definition py_iter (v : pyval) : outcome (list pyval) :=
  match v with
  | PList items => Ret items
  | PDict members => Ret (map (fun kv => PStr (fst kv)) members)
  | PStr s => Ret (map (fun c => PStr (String c EmptyString)) (list_ascii_of_string s))
  | _ => Raise (TypeError "object is not iterable")
  end.

Section Citations.
(** [json.loads] *)
Variable json_loads : string -> option pyval.

(** [has_tool_citations]: falls off the end, returning [None], when there
    is no tool content; [false] stands for that falsy result too. *)
Definition has_tool_citations (cd : ChunkData) : outcome bool :=
  match tool_content cd with
  | None => Ret false
  | Some text =>
      match json_loads text with
      | None => Raise JSONDecodeError
      | Some tc =>
          let* v := py_get "citations" tc in
          Ret (negb (is_none v))
      end
  end.

(** [get_tool_citations]; [None] is the Python [None] it returns without
    tool content. *)
Definition get_tool_citations (cd : ChunkData) : outcome (option (list ChatCitation)) :=
  match tool_content cd with
  | None => Ret None
  | Some text =>
      match json_loads text with
      | None => Raise JSONDecodeError
      | Some tc =>
          let* v := match tc with
                    | PDict members => Ret (default (PList []) (dict_get "citations" members))
                    | _ => Raise (AttributeError "object has no attribute 'get'")
                    end in
          let* items := py_iter v in
          let* cs := citations_of items in
          Ret (Some cs)
      end
  end.
End Citations.

End Chunk.


(** ** proxy/completions_proxy.py *)

Module Completions.
Import Json Chunk.

(** A history item: the Python [dict] appended to [history['messages']]. *)
Abbreviation Message := (gmap string pyval).

(** [data/stream_message.py] *)
Inductive StreamContent : Type :=
| Text (message : string)
| Delta (delta : string).

Record StreamMessage : Type := {
  sm_content : StreamContent;
  message_type : string;
  timestamp : Q
}.

Definition INTERIM_RESULT : string := "interim".
Definition PROGRESS_UPDATE : string := "progress".

(** [class ChatResponse] of [data/chat_response.py], the attributes the
    completion flow writes. *)
Record ChatResponse : Type := {
  r_thread_id : option string;
  r_message : option string;
  r_citations : option (list ChatCitation);
  r_intent : option string
}.

(** One choice of a non-streaming completion result. *)
Record Choice : Type := {
  ch_content : option string;
  ch_role : string
}.

(** The proxy with the part of its [ChatContext] used here.  [history] is
    [self.history['messages']]; [outbox] is what has been sent to the
    notification channel, oldest first; [ticks] counts the clock readings
    taken so far.  [stream_chunk] is the accumulator that
    [__handle_stream_result] creates before the first chunk. *)
Record Proxy : Type := {
  stream_id : option string;
  stream_chunk : ChunkData;
  system_prompt : option string;
  max_history : Z;
  history : option (list Message);
  outbox : list (string * StreamMessage);
  ticks : nat
}.

Definition set_stream_chunk (cd : ChunkData) (p : Proxy) : Proxy :=
  {| stream_id := stream_id p; stream_chunk := cd;
     system_prompt := system_prompt p; max_history := max_history p;
     history := history p; outbox := outbox p; ticks := ticks p |}.

Definition set_history (h : option (list Message)) (p : Proxy) : Proxy :=
  {| stream_id := stream_id p; stream_chunk := stream_chunk p;
     system_prompt := system_prompt p; max_history := max_history p;
     history := h; outbox := outbox p; ticks := ticks p |}.

Definition set_outbox (o : list (string * StreamMessage)) (p : Proxy) : Proxy :=
  {| stream_id := stream_id p; stream_chunk := stream_chunk p;
     system_prompt := system_prompt p; max_history := max_history p;
     history := history p; outbox := o; ticks := ticks p |}.

Definition set_ticks (n : nat) (p : Proxy) : Proxy :=
  {| stream_id := stream_id p; stream_chunk := stream_chunk p;
     system_prompt := system_prompt p; max_history := max_history p;
     history := history p; outbox := outbox p; ticks := n |}.

(** [int(x)]: truncation towards zero. *)
Definition int_of_Q (x : Q) : Z := Z.quot (Qnum x) (Z.pos (Qden x)).

(** [int(time()*1000.0)] *)
Definition millis (t : Q) : Z := int_of_Q (t * 1000)%Q.

Definition newline : string := String "010"%char EmptyString.

(** [a if b is None else b + "\n" + a], with the [TypeError] of adding
    [None] to a [str]. *)
Definition append_line (old : option string) (piece : option string)
  : outcome (option string) :=
  match old, piece with
  | None, _ => Ret piece
  | Some o, Some c => Ret (Some (o +:+ newline +:+ c))
  | Some _, None => Raise (TypeError "can only concatenate str (not 'NoneType') to str")
  end.

Definition of_opt (o : option string) : pyval :=
  match o with Some s => PStr s | None => PNone end.

(** A computation that mutates the proxy and may raise; the proxy handed
    back alongside an exception is the proxy as the exception leaves it. *)
Definition M (A : Type) : Type := Proxy -> Proxy * outcome A.

Definition ret {A : Type} (a : A) : M A := fun p => (p, Ret a).
Definition raise {A : Type} (e : exn) : M A := fun p => (p, Raise e).
Definition bindM {A B : Type} (m : M A) (k : A -> M B) : M B :=
  fun p => match m p with
           | (p', Ret a) => k a p'
           | (p', Raise e) => (p', Raise e)
           end.
Definition modify (f : Proxy -> Proxy) : M unit := fun p => (f p, Ret tt).
Definition read {A : Type} (f : Proxy -> A) : M A := fun p => (p, Ret (f p)).

Notation "'do' x '<-' m ';' k" := (bindM m (fun x => k))
  (at level 10, x name, m at level 100, k at level 200).
Notation "'run' m ';' k" := (bindM m (fun _ => k))
  (at level 10, m at level 100, k at level 200).

Section Flow.
(** The wall clock: the [n]-th reading taken by the request, in seconds. *)
Variable clock : nat -> Q.
(** [json.loads] *)
Variable json_loads : string -> option pyval.
(** [get_item("history", thread_id)]: the stored message list. *)
Variable retrieve_thread : string -> option (list Message).
(** [self._client.chat.completions.create(messages=..., tool_choice="none")]
    of [__summarise_thread]: the choices of the result. *)
Variable create_summary : list Message -> outcome (list Choice).

(** [time()] *)
Definition time : M Q :=
  fun p => (set_ticks (S (ticks p)) p, Ret (clock (ticks p))).

(** [self._context.push_update_to_stream(StreamMessage(content, type))]:
    the constructor stamps the message; it is sent only when the request
    has a stream. *)
Definition push_update_to_stream (c : StreamContent) (type : string) : M unit :=
  do t <- time;
  modify (fun p =>
    match stream_id p with
    | Some sid =>
        set_outbox (outbox p ++ [(sid, {| sm_content := c; message_type := type;
                                          timestamp := (t * 1000)%Q |})]) p
    | None => p
    end).

(** [_publish_interim_result] *)
Definition publish_interim_result (force_publish : bool) (publish_frequency : Q)
  : M unit :=
  do due <- (if force_publish then ret true
             else do now <- time;
                  do last <- read (fun p => last_stream_publish (stream_chunk p));
                  ret (negb (Qle_bool (now - last) publish_frequency)));
  if (due : bool) then
    do acc <- read (fun p => accumulated_delta (stream_chunk p));
    match acc with
    | Some text =>
        if (0 <? String.length text)%nat then
          run push_update_to_stream (Delta text) INTERIM_RESULT;
          do now <- time;
          modify (fun p =>
            let cd := stream_chunk p in
            set_stream_chunk
              {| content := content cd; role := role cd;
                 tool_calls := tool_calls cd; accumulated_delta := None;
                 last_stream_publish := now;
                 tool_content := tool_content cd |} p)
        else ret tt
    | None => ret tt
    end
  else ret tt.

Definition default_publish_frequency : Q := 4 # 10.

(** [self.history.get('messages', [])] *)
Definition messages_of_history : M (list Message) :=
  do h <- read history;
  match h with
  | Some ms => ret ms
  | None => raise (AttributeError "'NoneType' object has no attribute 'get'")
  end.

(** [_add_message_to_thread]: stamps the message it is given, then
    appends it. *)
Definition add_message_to_thread (message : Message) : M unit :=
  do t <- time;
  do ms <- messages_of_history;
  modify (set_history (Some (ms ++ [<["ts" := PInt (millis t)]> message]))).

Definition get_system_prompt (p : Proxy) : string :=
  default "You are a smart assistant who is here to answer user questions as best you can."
          (system_prompt p).

(** [_init_history] *)
Definition init_history : M unit :=
  do h <- read history;
  match h with
  | Some _ => ret tt
  | None =>
      do sp <- read get_system_prompt;
      do t <- time;
      modify (set_history
                (Some [ {[ "ts" := PInt (millis t); "content" := PStr sp;
                           "role" := PStr "system" ]} ]))
  end.

(** [_add_user_prompt_to_thread] *)
Definition add_user_prompt_to_thread (message : string) (role : string)
    (thread_id : string) : M unit :=
  do h <- read history;
  run (match h with
       | Some _ => ret tt
       | None =>
           if String.eqb thread_id ""
           then raise (ValueError "Either thread_id or thread_history must be provided")
           else
             run modify (set_history (retrieve_thread thread_id));
             init_history
       end);
  do ms <- read history;
  match ms with
  | None => raise (TypeError "'NoneType' object is not subscriptable")
  | Some ms =>
      do t <- time;
      modify (set_history
                (Some (ms ++ [ {[ "ts" := PInt (millis t); "content" := PStr message;
                                  "role" := PStr role ]} ])))
  end.

(** [messages.pop()] on the history list *)
Definition pop_message : M Message :=
  do ms <- messages_of_history;
  match last ms with
  | Some m => run modify (set_history (Some (removelast ms))); ret m
  | None => raise (IndexError "pop from empty list")
  end.

Definition summary_request : Message :=
  {[ "content" := PStr "Summarize the key points from this whole conversation, keeping track of important information that may be needed to continue the conversation at a later point. Be as consise as possible, but don't stinge out on the details either";
     "role" := PStr "user" ]}.

(** The loop over [result.choices] of [__summarise_thread]. *)
Fixpoint add_summaries (choices : list Choice) : M unit :=
  match choices with
  | [] => ret tt
  | choice :: rest =>
      match ch_content choice with
      | None => raise (TypeError "can only concatenate str (not 'NoneType') to str")
      | Some text =>
          run add_message_to_thread
                {[ "content" := PStr ("Here is a summary of the conversation up to this point: " +:+ text);
                   "role" := PStr (ch_role choice) ]};
          add_summaries rest
      end
  end.

(** [__summarise_thread] *)
Definition summarise_thread : M unit :=
  run push_update_to_stream (Text "I'm just summarising the conversation so far")
        PROGRESS_UPDATE;
  do most_recent_message <- pop_message;
  do second_most_recent_message <- pop_message;
  run add_message_to_thread summary_request;
  do ms <- messages_of_history;
  do choices <- (fun p => (p, create_summary (map (delete "ts") ms)));
  do sp <- read get_system_prompt;
  run modify (set_history (Some []));
  run add_message_to_thread {[ "content" := PStr sp; "role" := PStr "system" ]};
  run add_summaries choices;
  run add_message_to_thread second_most_recent_message;
  add_message_to_thread most_recent_message.

(** [send_message], from the progress update to the compaction test:
    what happens to the history before the step loop starts. *)
Definition send_message_prepare (message : string) (thread_id : string) : M unit :=
  run push_update_to_stream (Text "Recalling our conversation so far") PROGRESS_UPDATE;
  run add_user_prompt_to_thread message "user" thread_id;
  do ms <- messages_of_history;
  do limit <- read max_history;
  if (limit <=? Z.of_nat (length ms)) then summarise_thread else ret tt.

(** [__process_stream_chunk_from_data_extensions_api]: the value returned
    is what [__process_stream_chunk] hands back as [more_steps]. *)
Definition process_stream_chunk_from_data_extensions_api
    (messages : list DataSourceMsg) (response : ChatResponse)
  : Proxy -> (Proxy * ChatResponse) * outcome bool :=
  fun p =>
  match add_data_source_delta (stream_chunk p) messages with
  | (cd1, Raise e) => ((set_stream_chunk cd1 p, response), Raise e)
  | (cd1, Ret (end_turn, content_updated)) =>
      let p1 := set_stream_chunk cd1 p in
      let p2 := if (content_updated : bool)
                then fst (publish_interim_result false default_publish_frequency p1)
                else p1 in
      if (end_turn : bool) then
        let cites : outcome (option (list ChatCitation)) :=
          let* has := has_tool_citations json_loads (stream_chunk p2) in
          if (has : bool) then
            let* got := get_tool_citations json_loads (stream_chunk p2) in
            match r_citations response with
            | Some cs =>
                match got with
                | Some more => Ret (Some (cs ++ more))
                | None => Raise (TypeError "'NoneType' object is not iterable")
                end
            | None => Ret got
            end
          else Ret (r_citations response) in
        match cites with
        | Raise e => ((p2, response), Raise e)
        | Ret cs =>
            let response1 :=
              {| r_thread_id := r_thread_id response; r_message := r_message response;
                 r_citations := cs; r_intent := r_intent response |} in
            let p3 := fst (publish_interim_result true default_publish_frequency p2) in
            match cs with
            | None =>
                ((p3, response1), Raise (TypeError "'NoneType' object is not iterable"))
            | Some cl =>
                let cd := stream_chunk p3 in
                match add_message_to_thread
                        {[ "content" := of_opt (content cd);
                           "role" := of_opt (role cd);
                           "citations" := PList (map to_api_response cl) ]} p3 with
                | (p4, Raise e) => ((p4, response1), Raise e)
                | (p4, Ret _) =>
                    match append_line (r_message response1) (content cd) with
                    | Raise e => ((p4, response1), Raise e)
                    | Ret m =>
                        ((p4, {| r_thread_id := r_thread_id response1;
                                 r_message := m;
                                 r_citations := r_citations response1;
                                 r_intent := r_intent response1 |}),
                         Ret true)
                    end
                end
            end
        end
      else ((p2, response), Ret false)
  end.

End Flow.

End Completions.

(** ** Tool dispatch: proxy/abstract_proxy.py, data/chat_context.py,
       function_registry.py and the two [__invoke_function_tool] wrappers *)

Module Dispatch.
Import Json.

(** Keyword arguments of a call. *)
Abbreviation kwargs := (gmap string pyval).

(** A registered callable, applied to keyword arguments. *)
Definition tool : Type := kwargs -> outcome pyval.

(** [class ChatFunctionConfig]; [args] defaults to [None]. *)
Record ChatFunctionConfig : Type := {
  name : string;
  function : string;
  description : string;
  args : option kwargs
}.

(** [class ChatConfig], the attribute read by the dispatcher. *)
Record ChatConfig : Type := {
  functions : option (list ChatFunctionConfig)
}.

(** What [get_function_config] hands back: a configuration entry, [None],
    or the Python constant [False]. *)
Inductive config_lookup : Type :=
| Found (f : ChatFunctionConfig)
| PyNone
| PyFalse.

Fixpoint first_named (function_name : string) (fs : list ChatFunctionConfig)
  : config_lookup :=
  match fs with
  | [] => PyNone
  | f :: rest =>
      if String.eqb (name f) function_name then Found f
      else first_named function_name rest
  end.

(** [ChatContext.get_function_config] *)
Definition get_function_config (config : option ChatConfig) (function_name : string)
  : config_lookup :=
  match config with
  | None => PyFalse
  | Some c =>
      match functions c with
      | None => PyFalse
      | Some fs => first_named function_name fs
      end
  end.

(** [ToolOutput] of the assistants API. *)
Record ToolOutput : Type := {
  output : string;
  tool_call_id : string
}.

Section Proxy.
(** [self._context.config] *)
Variable config : option ChatConfig.
(** [self._func_registry.functions], the callable of each entry *)
Variable registry : gmap string tool.
(** [json.loads], [json.dumps(_, indent=4)] and [str] *)
Variable json_loads : string -> option pyval.
Variable json_dumps : pyval -> string.
Variable py_str : pyval -> string.

(** [FunctionRegistry.__getitem__] *)
Definition registry_getitem (fname : string) : outcome tool :=
  match registry !! fname with
  | Some f => Ret f
  | None => Raise (KeyError fname)
  end.

(** [FunctionRegistry.__contains__] *)
Definition registry_contains (fname : string) : bool :=
  bool_decide (is_Some (registry !! fname)).

(** [AbstractProxy._invoke_function_tool], called with keyword
    arguments only.  [kwargs.update(args)] lets the configured
    arguments win: the union of maps is left-biased. *)
Definition invoke_function_tool (function_name : string) (kw : kwargs)
  : outcome pyval :=
  match get_function_config config function_name with
  | Found matched_function =>
      match args matched_function with
      | None => Raise (TypeError "'NoneType' object is not iterable")
      | Some fixed =>
          let* f := registry_getitem (function matched_function) in
          f (fixed ∪ kw)
      end
  | PyFalse => Raise (AttributeError "'bool' object has no attribute 'args'")
  | PyNone =>
      if registry_contains function_name then
        let* f := registry_getitem function_name in
        f kw
      else
        Raise (ValueError ("No function tool registered with the name: "
                           +:+ function_name))
  end.

(** [self._invoke_function_tool(function_name, **args)]: the decoded
    arguments must be a mapping, and none of them may be named like a
    parameter that the call already binds. *)
Definition unpack (decoded : pyval) : outcome kwargs :=
  match decoded with
  | PDict members =>
      let kw : kwargs := list_to_map (rev members) in
      if bool_decide (is_Some (kw !! "self"))
         || bool_decide (is_Some (kw !! "function_name"))
      then Raise (TypeError "got multiple values for argument")
      else Ret kw
  | _ => Raise (TypeError "argument after ** must be a mapping")
  end.

(** "Ensure response is a string" *)
Definition normalise (result : pyval) : string :=
  match result with
  | PStr s => s
  | PDict _ | PList _ => json_dumps result
  | PBool b => if b then "true" else "false"
  | _ => py_str result
  end.

(** [args = {} if function_args is None else json.loads(function_args)] *)
Definition decode_args (function_args : option string) : outcome pyval :=
  match function_args with
  | None => Ret (PDict [])
  | Some text =>
      match json_loads text with
      | Some v => Ret v
      | None => Raise JSONDecodeError
      end
  end.

(** The [try] block shared by the two wrappers, with its
    [except Exception] handler. *)
Definition guarded_call (function_name : string) (decoded : pyval) : string :=
  match (let* kw := unpack decoded in
         let* result := invoke_function_tool function_name kw in
         Ret (normalise result)) with
  | Ret s => s
  | Raise _ => "Failed"
  end.

(** [CompletionsProxy.__invoke_function_tool] *)
Definition completions_invoke_function_tool (function_name : string)
    (function_args : option string) : outcome string :=
  let* decoded := decode_args function_args in
  Ret (guarded_call function_name decoded).

(** [AssistantsProxy.__invoke_function_tool] *)
Definition assistants_invoke_function_tool (function_name : string)
    (function_args : option string) (call_id : string) : outcome ToolOutput :=
  let* decoded := decode_args function_args in
  Ret {| output := guarded_call function_name decoded; tool_call_id := call_id |}.

End Proxy.

End Dispatch.

(** ** proxy/assistant_processor.py *)

Module MultiAgent.

(** [openai.types.beta.assistant.Assistant], the attributes read *)
Record Assistant : Type := {
  a_id : string;
  a_name : string
}.

(** A content part of a thread message; [text_printed] is what
    [f"{content.text}"] prints for the text object. *)
Inductive Content : Type :=
| TextContent (value : string) (text_printed : string)
| ImageContent (file_id : string).

(** [openai.types.beta.threads.Message], the attributes read *)
Record Message : Type := {
  assistant_id : string;
  created_at : option Z;
  run_id : option string;
  content : list Content
}.

(** The value bound to [timeout_secs]: a number, or the pair that the
    fan-out passes. *)
Inductive timeout_arg : Type :=
| Seconds (t : Q)
| Pair (t : Q) (metadata : option (gmap string string)).

(** [AssistantProcessor] with the part of its [ChatContext] used here. *)
Record Processor : Type := {
  assistants : list string;
  linked_threads : option (gmap string string);
  thread_id : option string;
  created : nat;       (* threads created so far *)
  ticks : nat          (* clock readings taken by the orchestrating call *)
}.

Section Remote.
(** The assistants known to the service, as [__lookup_assistant] finds
    them by lower-cased name or id (the lookup table is a cache of
    [list_assistants]). *)
Variable known_assistants : list Assistant.
(** [AssistantsProxy.send_message], [run_assistant],
    [await_run_complete_or_fail] (the status of the run it returns) and
    [list_messages(filter_role="assistant", count=30)], as the remote
    service makes them behave. *)
Variable send_message : string -> string -> Q -> outcome unit.
Variable run_assistant : string -> string -> outcome string.
Variable await_run_complete_or_fail : string -> string -> Q -> outcome string.
Variable list_messages : string -> outcome (list Message).
(** The id of the [n]-th thread created. *)
Variable new_thread_id : nat -> string.
(** The clock of the orchestrating call, and the clock as read inside the
    call made for a given thread. *)
Variable clock : nat -> Q.
Variable thread_clock : string -> nat -> Q.
(** ASCII lower-casing, [str.lower] *)
Variable lower : string -> string.
(** [__messages_to_response], applied to a message list *)
Variable Response : Type.
Variable messages_to_response : list Message -> outcome (list Response).

(** [__lookup_assistant] *)
Definition lookup_assistant (assistant : string) : outcome Assistant :=
  match find (fun a => String.eqb (lower (a_name a)) (lower assistant)
                       || String.eqb (lower (a_id a)) (lower assistant))
             (rev known_assistants) with
  | Some a => Ret a
  | None => Raise (ValueError ("Assistant '" +:+ assistant +:+ "' not found"))
  end.

(** The filter over the listed messages of [__process_prompt_in_thread]. *)
Definition keep_message (start_time : Q) (rid : string) (msg : Message) : bool :=
  let stale :=
    match created_at msg with
    | Some c => (0 <? c) && negb (Qle_bool start_time (inject_Z c))
    | None => false
    end in
  negb stale
  && match run_id msg with
     | None => true
     | Some r => String.eqb r rid
     end.

(** [__process_prompt_in_thread].  The sum [start_time + timeout_secs]
    is computed before the [try]; the handler of [TimeoutError] formats
    [run_id], which is unbound when the time-out came from
    [send_message]. *)
Definition process_prompt_in_thread (prompt assistant thread : string)
    (timeout_secs : timeout_arg) : outcome (bool * option (list Message)) :=
  let now := thread_clock thread in
  let start_time := now O in
  match timeout_secs with
  | Pair _ _ =>
      Raise (TypeError "unsupported operand type(s) for +: 'float' and 'tuple'")
  | Seconds t =>
      let expiry := (start_time + t)%Q in
      match send_message prompt thread (expiry - now 1%nat)%Q with
      | Raise (TimeoutError _) => Raise (UnboundLocalError "run_id")
      | Raise e => Raise e
      | Ret _ =>
          match run_assistant assistant thread with
          | Raise (TimeoutError _) => Raise (UnboundLocalError "run_id")
          | Raise e => Raise e
          | Ret rid =>
              match await_run_complete_or_fail thread rid (expiry - now 2%nat)%Q with
              | Raise (TimeoutError _) => Ret (false, None)
              | Raise e => Raise e
              | Ret status =>
                  if String.eqb status "completed" then
                    let* msgs := list_messages thread in
                    Ret (true, Some (filter (fun m => keep_message start_time rid m = true) msgs))
                  else Ret (false, None)
              end
          end
      end
  end.

Definition content_line (c : Content) : string :=
  match c with
  | TextContent _ printed => printed +:+ String "010"%char (String "009"%char EmptyString)
  | ImageContent file_id =>
      "Image Response at path: " +:+ file_id
      +:+ String "010"%char (String "009"%char EmptyString)
  end.

Definition nl : string := String "010"%char EmptyString.

(** The body of the loop of [__build_interpreter_prompt] for one worker. *)
Definition assistant_section (assistant_res : list Message) : string :=
  match assistant_res with
  | [] => ""
  | first :: _ =>
      let assistant_name :=
        match lookup_assistant (assistant_id first) with
        | Ret a => a_name a
        | Raise _ => assistant_id first
        end in
      ">> Assistant: " +:+ assistant_name +:+ ":" +:+ nl
      +:+ String.concat "" (map content_line (concat (map content assistant_res)))
      +:+ nl +:+ nl
  end.

(** [__build_interpreter_prompt] *)
Definition build_interpreter_prompt (res : list (list Message)) (trigger_prompt : string)
  : string :=
  "The following question has been posed:" +:+ nl
  +:+ trigger_prompt +:+ nl +:+ nl
  +:+ "The  following responses have been provided by the other assistants:" +:+ nl
  +:+ String.concat "" (map assistant_section res)
  +:+ "Please consider the responses from these assistants in relation to your understanding of the question and provide a suitable response to the question."
  +:+ nl
  +:+ "Some assistants may not have have the data or context needed to provide a suitable answer, or may not have understood the question. Please consider this in your response.".

(** A submitted call: its result, or the exception that
    [future.result()] raises again. *)
Definition future : Type := outcome (bool * option (list Message)).

(** Step 2 of [__orchestrate_prompt_with_assistants]: one call is
    submitted per worker, each with the pair
    [(timeout - (time() - start_time), metadata)] as its fourth
    argument.  Returns the futures in submission order. *)
Fixpoint submit_workers (prompt : string) (timeout start_time : Q)
    (workers : list string) (s : Processor) : Processor * outcome (list future) :=
  match workers with
  | [] => (s, Ret [])
  | assistant :: rest =>
      match lookup_assistant assistant with
      | Raise e => (s, Raise e)
      | Ret a =>
          let linked := match linked_threads s with
                        | None => None
                        | Some lt => lt !! a_id a
                        end in
          let '(thread, s1) :=
            match linked with
            | Some t => (t, s)
            | None =>
                let t := new_thread_id (created s) in
                (t, {| assistants := assistants s;
                       linked_threads :=
                         Some (<[a_id a := t]> (default ∅ (linked_threads s)));
                       thread_id := thread_id s;
                       created := S (created s); ticks := ticks s |})
            end in
          let remaining := (timeout - (clock (ticks s1) - start_time))%Q in
          let s2 := {| assistants := assistants s1;
                       linked_threads := linked_threads s1;
                       thread_id := thread_id s1;
                       created := created s1; ticks := S (ticks s1) |} in
          let fut := process_prompt_in_thread prompt (a_id a) thread (Pair remaining None) in
          match submit_workers prompt timeout start_time rest s2 with
          | (s3, Ret futs) => (s3, Ret (fut :: futs))
          | (s3, Raise e) => (s3, Raise e)
          end
      end
  end.

(** [[future.result() for future in ...]]: the first exception met is
    raised.  [as_completed] yields the futures in the order they finish;
    they are taken here in the order given. *)
Fixpoint collect (futs : list future) : outcome (list (bool * option (list Message))) :=
  match futs with
  | [] => Ret []
  | f :: rest =>
      let* r := f in
      let* rs := collect rest in
      Ret (r :: rs)
  end.

(** [[messages for _, messages in results if messages]] *)
Definition truthy_messages (results : list (bool * option (list Message)))
  : list (list Message) :=
  omap (fun r => match snd r with
                 | Some (m :: ms) => Some (m :: ms)
                 | _ => None
                 end) results.

Definition Qmax (a b : Q) : Q := if Qle_bool a b then b else a.

(** [__orchestrate_prompt_with_assistants]: the responses of the
    interpreter with the success and failure counts. *)
Definition orchestrate_prompt_with_assistants (prompt : string) (timeout : Q)
    (s : Processor) : Processor * outcome (list Response * Z * Z) :=
  let start_time := clock (ticks s) in
  let s0 := {| assistants := assistants s; linked_threads := linked_threads s;
               thread_id := thread_id s; created := created s;
               ticks := S (ticks s) |} in
  match last (assistants s0) with
  | None => (s0, Raise (IndexError "pop from empty list"))
  | Some interpreter =>
      let s1 := {| assistants := removelast (assistants s0);
                   linked_threads := linked_threads s0;
                   thread_id := thread_id s0; created := created s0;
                   ticks := ticks s0 |} in
      match lookup_assistant interpreter with
      | Raise e => (s1, Raise e)
      | Ret interpretation_assistant =>
          match submit_workers prompt timeout start_time (assistants s1) s1 with
          | (s2, Raise e) => (s2, Raise e)
          | (s2, Ret worker_threads) =>
              match collect worker_threads with
              | Raise e => (s2, Raise e)
              | Ret results =>
                  let success_count :=
                    Z.of_nat (length (filter (fun r => fst r = true) results)) in
                  let failure_count := Z.of_nat (length results) - success_count in
                  let res := truthy_messages results in
                  let final_prompt := build_interpreter_prompt res prompt in
                  let '(main_thread, s3) :=
                    match thread_id s2 with
                    | Some t => (t, s2)
                    | None =>
                        let t := new_thread_id (created s2) in
                        (t, {| assistants := assistants s2;
                               linked_threads := linked_threads s2;
                               thread_id := Some t;
                               created := S (created s2); ticks := ticks s2 |})
                    end in
                  let budget := Qmax 20 (timeout - (clock (ticks s3) - start_time))%Q in
                  let s4 := {| assistants := assistants s3;
                               linked_threads := linked_threads s3;
                               thread_id := thread_id s3;
                               created := created s3; ticks := S (ticks s3) |} in
                  match process_prompt_in_thread final_prompt
                          (a_id interpretation_assistant) main_thread (Seconds budget) with
                  | Raise e => (s4, Raise e)
                  | Ret (success, messages) =>
                      let success_count' :=
                        if (success : bool) then success_count + 1 else success_count in
                      let failure_count' :=
                        if success then failure_count else failure_count + 1 in
                      match messages with
                      | None =>
                          (s4, Raise (TypeError "'NoneType' object is not iterable"))
                      | Some ms =>
                          match messages_to_response ms with
                          | Raise e => (s4, Raise e)
                          | Ret rs => (s4, Ret (rs, success_count', failure_count'))
                          end
                      end
                  end
              end
          end
      end
  end.

(** [process_prompt]: one configured assistant is prompted in the
    conversation's own thread, more are orchestrated.  The messages of the
    single run go to [__messages_to_response] as they come, [None]
    included. *)
Definition process_prompt (prompt : string) (timeout_secs : Q) (s : Processor)
  : Processor * outcome (list Response * Z * Z) :=
  match assistants s with
  | [assistant] =>
      match lookup_assistant assistant with
      | Raise e => (s, Raise e)
      | Ret a =>
          let '(thread, s1) :=
            match thread_id s with
            | Some t => (t, s)
            | None =>
                let t := new_thread_id (created s) in
                (t, {| assistants := assistants s;
                       linked_threads := linked_threads s;
                       thread_id := Some t;
                       created := S (created s); ticks := ticks s |})
            end in
          match process_prompt_in_thread prompt (a_id a) thread (Seconds timeout_secs) with
          | Raise e => (s1, Raise e)
          | Ret (success, messages) =>
              match messages with
              | None => (s1, Raise (TypeError "'NoneType' object is not iterable"))
              | Some ms =>
                  match messages_to_response ms with
                  | Raise e => (s1, Raise e)
                  | Ret rs =>
                      (s1, Ret (rs, if (success : bool) then 1 else 0,
                                if success then 0 else 1))
                  end
              end
          end
      end
  | _ => orchestrate_prompt_with_assistants prompt timeout_secs s
  end.

End Remote.

End MultiAgent.

(** ** proxy/assistant_proxy.py, with the thread resolution of
    proxy/abstract_proxy.py *)

Module Assistants.
Import Json Dispatch MultiAgent.

(** *** Thread resolution *)

(** [ChatContext.get_linked_thread] *)
Definition get_linked_thread (assistant_id : string) (s : Processor) : option string :=
  match linked_threads s with
  | None => None
  | Some lt => lt !! assistant_id
  end.

(** [ChatContext.add_linked_thread] *)
Definition add_linked_thread (assistant thread : string) (s : Processor) : Processor :=
  {| assistants := assistants s;
     linked_threads := Some (<[assistant := thread]> (default ∅ (linked_threads s)));
     thread_id := thread_id s; created := created s; ticks := ticks s |}.

(** [ChatContext.has_thread] *)
Definition has_thread (s : Processor) : bool :=
  match thread_id s with
  | Some _ => true
  | None => false
  end.

Section Threads.
(** The id of the [n]-th thread that [_create_thread] makes. *)
Variable new_thread_id : nat -> string.

(** [AbstractProxy._determine_thread_id] *)
Definition determine_thread_id (override_thread for_assistant : option string)
    (s : Processor) : Processor * outcome string :=
  let '(thread, s') :=
    match override_thread with
    | Some t => (Some t, s)
    | None =>
        let linked :=
          match for_assistant with
          | Some a => get_linked_thread a s
          | None => None
          end in
        let '(thread, s1) :=
          match linked with
          | None =>
              if negb (has_thread s) then
                let t := new_thread_id (created s) in
                (Some t, {| assistants := assistants s;
                            linked_threads := linked_threads s;
                            thread_id := Some t;
                            created := S (created s); ticks := ticks s |})
              else (None, s)
          | Some t => (Some t, s)
          end in
        match thread with
        | None => (thread_id s1, s1)
        | Some t => (Some t, s1)
        end
    end in
  match thread with
  | None => (s', Raise (ValueError "No thread ID available"))
  | Some t => (s', Ret t)
  end.

End Threads.

(** *** Listings *)

(** A listing of the service as the pages of its cursor: [res.data] of
    the page in hand and, when [res.has_next_page()], the page that
    [res.get_next_page()] fetches. *)
Inductive Pages (A : Type) : Type :=
| LastPage (page : list A)
| MorePages (page : list A) (next : Pages A).

Arguments LastPage {A} page.
Arguments MorePages {A} page next.

Definition data {A : Type} (res : Pages A) : list A :=
  match res with
  | LastPage page | MorePages page _ => page
  end.

Definition has_next_page {A : Type} (res : Pages A) : bool :=
  match res with
  | LastPage _ => false
  | MorePages _ _ => true
  end.

(** [res = res.get_next_page()] under [if res.has_next_page()] *)
Definition next_page_if {A : Type} (wanted : bool) (res : Pages A) : Pages A :=
  match res with
  | MorePages _ next => if wanted then next else res
  | LastPage _ => res
  end.

(** The truth value of a list *)
Definition nonempty {A : Type} (l : list A) : bool :=
  match l with
  | [] => false
  | _ :: _ => true
  end.

Section Listing.
Context {A : Type}.
(** [data.role] *)
Variable role : A -> string.

Definition has_role (filter_role : option string) (m : A) : bool :=
  match filter_role with
  | None => true
  | Some r => String.eqb (role m) r
  end.

(** The loop of [list_messages]; the fuel bounds its iterations. *)
Fixpoint list_messages_loop (fuel : nat) (count : Z) (filter_role : option string)
    (messages : list A) (res : Pages A) : option (list A) :=
  match fuel with
  | O => None
  | S fuel' =>
      if (Z.of_nat (length messages) <? count) && nonempty (data res) then
        let filtered_messages :=
          filter (fun m => has_role filter_role m = true) (data res) in
        let messages' :=
          messages
          ++ take (Z.to_nat (count - Z.of_nat (length messages))) filtered_messages in
        list_messages_loop fuel' count filter_role messages'
          (next_page_if (Z.of_nat (length messages') <? count) res)
      else Some messages
  end.

(** [list_messages], on the listing that the service answers *)
Definition list_messages (fuel : nat) (count : Z) (filter_role : option string)
    (res : Pages A) : option (list A) :=
  list_messages_loop fuel count filter_role [] res.

(** The loop of [get_runs_on_thread] *)
Fixpoint get_runs_loop (fuel : nat) (max_count : Z) (runs : list A) (res : Pages A)
  : option (list A) :=
  match fuel with
  | O => None
  | S fuel' =>
      if (Z.of_nat (length runs) <? max_count) && nonempty (data res) then
        let runs' := runs ++ data res in
        get_runs_loop fuel' max_count runs'
          (next_page_if (Z.of_nat (length runs') <? max_count) res)
      else Some runs
  end.

(** [get_runs_on_thread] *)
Definition get_runs_on_thread (fuel : nat) (max_count : Z) (res : Pages A)
  : option (list A) :=
  get_runs_loop fuel max_count [] res.

(** The [while res.has_next_page()] loop of [list_assistants] *)
Fixpoint following_pages (res : Pages A) : list A :=
  match res with
  | LastPage _ => []
  | MorePages _ next => data next ++ following_pages next
  end.

(** [list_assistants] *)
Definition list_assistants (res : Pages A) : list A :=
  if nonempty (data res) then data res ++ following_pages res else [].

(** [list_data_sources] *)
Definition list_data_sources (res : Pages A) : list A :=
  data res
  ++ match res with
     | MorePages _ next => data next
     | LastPage _ => []
     end.

End Listing.

(** *** Tool calls of a run *)

(** A tool call of [required_action.submit_tool_outputs.tool_calls] *)
Record RequiredToolCall : Type := {
  call_id : string;
  call_type : string;
  call_name : string;
  call_arguments : option string
}.

Record RequiredAction : Type := {
  action_type : string;
  action_tool_calls : list RequiredToolCall
}.

(** [openai.types.beta.threads.Run], the attributes read *)
Record Run : Type := {
  run_ident : string;
  status : string;
  required_action : option RequiredAction
}.

(** The proxy: [active_tool_runs], and the tool outputs that the service
    has accepted, by thread and run. *)
Record AssistantsProxy : Type := {
  active_tool_runs : gmap string bool;
  submitted : list (string * string * list ToolOutput)
}.

(** [_are_run_tools_active] *)
Definition are_run_tools_active (run_id : string) (p : AssistantsProxy) : bool :=
  bool_decide (is_Some (active_tool_runs p !! run_id)).

(** [_set_active_tool_run] *)
Definition set_active_tool_run (run_id : string) (p : AssistantsProxy) : AssistantsProxy :=
  {| active_tool_runs := <[run_id := true]> (active_tool_runs p);
     submitted := submitted p |}.

(** [_clear_active_tool_run] *)
Definition clear_active_tool_run (run_id : string) (p : AssistantsProxy) : AssistantsProxy :=
  if are_run_tools_active run_id p
  then {| active_tool_runs := delete run_id (active_tool_runs p);
          submitted := submitted p |}
  else p.

Section Actions.
Variable config : option ChatConfig.
Variable registry : gmap string tool.
Variable json_loads : string -> option pyval.
Variable json_dumps : pyval -> string.
Variable py_str : pyval -> string.
(** [self._client.beta.threads.runs.submit_tool_outputs] *)
Variable submit_tool_outputs : string -> string -> list ToolOutput -> outcome unit.

(** The calls handed to the executor: one per tool call of type
    ["function"]; the others need no action. *)
Definition call_futures (tool_calls : list RequiredToolCall)
  : list (outcome ToolOutput) :=
  omap (fun tool_call =>
          if String.eqb (call_type tool_call) "function" then
            Some (assistants_invoke_function_tool config registry json_loads json_dumps
                    py_str (call_name tool_call) (call_arguments tool_call)
                    (call_id tool_call))
          else None)
       tool_calls.

(** [[future.result() for future in as_completed(call_futures) ...]]: the
    first exception met is raised.  The futures are taken here in the
    order submitted; no result is [None]. *)
Fixpoint call_results (futures : list (outcome ToolOutput)) : outcome (list ToolOutput) :=
  match futures with
  | [] => Ret []
  | f :: rest =>
      let* r := f in
      let* rs := call_results rest in
      Ret (r :: rs)
  end.

(** The body of the [try] of [__handle_run_actions]: the outputs it has
    submitted, if any. *)
Definition run_actions (run : Run) (thread : string) : outcome (option (list ToolOutput)) :=
  match required_action run with
  | Some action =>
      if String.eqb (action_type action) "submit_tool_outputs" then
        let* results := call_results (call_futures (action_tool_calls action)) in
        let* _ := submit_tool_outputs thread (run_ident run) results in
        Ret (Some results)
      else Ret None
  | None => Ret None
  end.

(** [__handle_run_actions], run on its own: every exception of the body
    is logged and dropped, and the mark is cleared on the way out. *)
Definition handle_run_actions (run : Run) (thread : string) (p : AssistantsProxy)
  : AssistantsProxy :=
  if are_run_tools_active (run_ident run) p then p
  else
    let p1 := set_active_tool_run (run_ident run) p in
    let p2 :=
      match run_actions run thread with
      | Ret (Some results) =>
          {| active_tool_runs := active_tool_runs p1;
             submitted := submitted p1 ++ [(thread, run_ident run, results)] |}
      | Ret None | Raise _ => p1
      end in
    clear_active_tool_run (run_ident run) p2.

End Actions.

End Assistants.

(** ** proxy/completions_proxy.py: the step loop of [send_message] *)

Module Turn.
Import Json Chunk Completions.

(** *** Tool calls *)

(** A tool call as [__process_tool_calls] reads it: a
    [ChatCompletionMessageToolCall] of a completion, or the accumulator of
    a streamed call. *)
Record FunctionCall : Type := {
  f_name : option string;
  f_arguments : option string
}.

Record ToolCall : Type := {
  tool_id : option string;
  tool_function : option FunctionCall
}.

Definition of_accumulator (tc : ChunkToolCallData) : ToolCall :=
  {| tool_id := tc_id tc;
     tool_function := Some {| f_name := Chunk.name (Chunk.function tc);
                              f_arguments := Chunk.arguments (Chunk.function tc) |} |}.

(** One item of the list comprehension under ["tool_calls"]:
    [tool.function.arguments] is read from every call. *)
Definition tool_call_entry (tool : ToolCall) : outcome pyval :=
  match tool_function tool with
  | None => Raise (AttributeError "'NoneType' object has no attribute 'arguments'")
  | Some f =>
      Ret (PDict [ ("id", of_opt (tool_id tool));
                   ("function", PDict [ ("arguments", of_opt (f_arguments f));
                                        ("name", of_opt (f_name f)) ]);
                   ("type", PStr "function") ])
  end.

Fixpoint tool_call_entries (tools : list ToolCall) : outcome (list pyval) :=
  match tools with
  | [] => Ret []
  | tool :: rest =>
      let* entry := tool_call_entry tool in
      let* entries := tool_call_entries rest in
      Ret (entry :: entries)
  end.

(** *** Results of the completion service *)

(** [choice.message] of a completion *)
Record CompletionMessage : Type := {
  m_content : option string;
  m_role : string;
  m_tool_calls : option (list ToolCall)
}.

(** A choice of a completion that is not streamed; [c_messages] is
    [choice.model_extra.get('messages')], the decoded messages of the
    data-source API. *)
Record CompletionChoice : Type := {
  c_index : option Z;
  c_messages : option pyval;
  c_message : option CompletionMessage
}.

(** A choice of a chunk of a streamed completion; [s_messages] is
    [choice.model_extra.get('messages')]. *)
Record StreamChoice : Type := {
  s_index : option Z;
  s_finish_reason : option string;
  s_delta : option ChoiceDelta;
  s_messages : option (list DataSourceMsg)
}.

(** [sorted(choices, key=lambda x: x.index if x.index else 0)]: a stable
    sort, done when there is more than one choice. *)
Fixpoint insert_by {A : Type} (key : A -> Z) (x : A) (l : list A) : list A :=
  match l with
  | [] => [x]
  | y :: rest => if key x <=? key y then x :: y :: rest else y :: insert_by key x rest
  end.

Definition sorted_by {A : Type} (key : A -> Z) (l : list A) : list A :=
  foldr (insert_by key) [] l.

Definition sort_choices {A : Type} (index_of : A -> option Z) (choices : list A) : list A :=
  if (1 <? length choices)%nat then sorted_by (fun x => default 0 (index_of x)) choices
  else choices.

(** *** The response of a completion that is not streamed *)

(** [ChatResponse] as the path without a stream fills it: the message and
    the intent hold whatever the decoded messages carry, and the citation
    list holds the dicts that [to_api_response] made.  [p_shared] lists
    the positions of the history messages whose ["citations"] is this
    very list, so that an append shows in them too. *)
Record PlainResponse : Type := {
  p_thread_id : option string;
  p_message : pyval;
  p_citations : option (list pyval);
  p_intent : pyval;
  p_shared : list nat
}.

(** [ChatResponse()] with [thread_id] set *)
Definition new_plain_response (thread_id : string) : PlainResponse :=
  {| p_thread_id := Some thread_id; p_message := PNone; p_citations := None;
     p_intent := PNone; p_shared := [] |}.

Definition new_chat_response (thread_id : string) : ChatResponse :=
  {| r_thread_id := Some thread_id; r_message := None; r_citations := None;
     r_intent := None |}.

(** [piece if old is None else old + "\n" + piece] *)
Definition py_append_line (old piece : pyval) : outcome pyval :=
  match old with
  | PNone => Ret piece
  | PStr o =>
      match piece with
      | PStr c => Ret (PStr (o +:+ newline +:+ c))
      | _ => Raise (TypeError "can only concatenate str to str")
      end
  | _ => Raise (TypeError "unsupported operand type(s) for +")
  end.

(** [v.get(key, default)] *)
Definition py_get_or (key : string) (dflt : pyval) (v : pyval) : outcome pyval :=
  match v with
  | PDict members => Ret (default dflt (dict_get key members))
  | _ => Raise (AttributeError "object has no attribute 'get'")
  end.

(** [v[key]] *)
Definition py_getitem (key : string) (v : pyval) : outcome pyval :=
  match v with
  | PDict members =>
      match dict_get key members with
      | Some x => Ret x
      | None => Raise (KeyError key)
      end
  | _ => Raise (TypeError "indices must be integers")
  end.

(** [ChatResponse.to_api_response] for a response of the completion
    flow, which sets neither id, assistant id nor metadata.  [render] is
    [c.to_api_response()] on an element of the citation list. *)
Definition response_to_api {C : Type} (render : C -> outcome pyval)
    (message : pyval) (citations : option (list C)) (intent : pyval) : outcome pyval :=
  let* rendered :=
    match citations with
    | None => Ret []
    | Some cs =>
        let* items :=
          (fix each (cs : list C) : outcome (list pyval) :=
             match cs with
             | [] => Ret []
             | c :: rest =>
                 let* item := render c in
                 let* items := each rest in
                 Ret (item :: items)
             end) cs in
        Ret [("citations", PList items)]
    end in
  Ret (PDict ((if is_none message then [] else [("message", message)])
              ++ rendered
              ++ (if is_none intent then [] else [("intent", intent)]))).

(** On a response of the streamed path the citations are [ChatCitation]
    objects; on a response of the other path they are dicts, which have
    no method [to_api_response]. *)
Definition chat_response_to_api (response : ChatResponse) : outcome pyval :=
  response_to_api (fun c => Ret (to_api_response c))
    (of_opt (r_message response)) (r_citations response) (of_opt (r_intent response)).

Definition plain_response_to_api (response : PlainResponse) : outcome pyval :=
  response_to_api
    (fun _ : pyval =>
       Raise (AttributeError "'dict' object has no attribute 'to_api_response'"))
    (p_message response) (p_citations response) (p_intent response).

(** *** The requests made and the session *)

(** A call of [chat.completions.create]: the arguments that change from
    call to call.  [req_tool_choice] is [None] when the data sources are
    passed instead of the tools. *)
Record Request : Type := {
  req_messages : list Message;
  req_tool_choice : option string;
  req_stream : bool
}.

(** The state of a turn: the proxy, the response under construction, the
    requests made so far and the histories written to the store. *)
Record Session (R : Type) : Type := {
  proxy : Proxy;
  response : R;
  requests : list Request;
  saved : list (list Message)
}.

Arguments proxy {R} _.
Arguments response {R} _.
Arguments requests {R} _.
Arguments saved {R} _.

(** The history item without the keys ['ts'] and ['citations'] *)
Definition strip (history_item : Message) : Message :=
  delete "citations" (delete "ts" history_item).

Section Flow.
(** The wall clock *)
Variable clock : nat -> Q.
(** [json.loads], [json.dumps(_, indent=4)], [str] *)
Variable json_loads : string -> option pyval.
Variable json_dumps : pyval -> string.
Variable py_str : pyval -> string.
(** Whether a float literal denotes 1.0 *)
Variable float_is_one : string -> bool.
(** [self._context.config], [self._func_registry] *)
Variable config : option Dispatch.ChatConfig.
Variable registry : gmap string Dispatch.tool.
(** [self._context.max_steps]; whether [self.completions_data_sources] is
    set *)
Variable max_steps : Z.
Variable data_sources : bool.

(** [CompletionsProxy.__invoke_function_tool].  A call without a name
    matches no entry and no registered function: once its arguments are
    decoded, the answer is ["Failed"]. *)
Definition invoke_function_tool (function_name function_args : option string)
  : outcome string :=
  match function_name with
  | Some n =>
      Dispatch.completions_invoke_function_tool config registry json_loads json_dumps
        py_str n function_args
  | None =>
      let* _ := Dispatch.decode_args json_loads function_args in
      Ret "Failed"
  end.

(** [__process_tool_calls] *)
Fixpoint process_tool_calls (tool_calls : list ToolCall) : M unit :=
  match tool_calls with
  | [] => ret tt
  | tool :: rest =>
      match tool_function tool with
      | None => process_tool_calls rest
      | Some f =>
          do result <- (fun p => (p, invoke_function_tool (f_name f) (f_arguments f)));
          run add_message_to_thread clock
                {[ "tool_call_id" := of_opt (tool_id tool);
                   "role" := PStr "tool";
                   "name" := of_opt (f_name f);
                   "content" := PStr result ]};
          process_tool_calls rest
      end
  end.

(** *** A completion that is not streamed *)

(** The variables of the loop of [__process_data_source_api_response] *)
Record Scan : Type := {
  more_steps : bool;
  msg_content : pyval;
  msg_citations : list pyval;
  intent : pyval
}.

(** [x == True] *)
Definition py_eq_true (v : pyval) : bool :=
  match v with
  | PBool b => b
  | PInt z => z =? 1
  | PFloat literal => float_is_one literal
  | _ => false
  end.

(** The body of the loop *)
Definition scan_message (message : pyval) (sc : Scan) : outcome Scan :=
  let* role := py_get "role" message in
  let* sc1 :=
    (if pyval_is_str "assistant" role then
       let* c := py_get_or "content" (PStr "") message in
       Ret {| more_steps := more_steps sc; msg_content := c;
              msg_citations := msg_citations sc; intent := intent sc |}
     else if pyval_is_str "tool" role then
       let* tool_content := py_get_or "content" (PStr "") message in
       match tool_content with
       | PNone => Ret sc
       | PStr text =>
           if String.prefix "{" text then
             match json_loads text with
             | None => Raise JSONDecodeError
             | Some decoded =>
                 let* present := py_in "citations" decoded in
                 if (present : bool) then
                   let* listed := py_getitem "citations" decoded in
                   let* items := py_iter listed in
                   Ret {| more_steps := more_steps sc; msg_content := msg_content sc;
                          msg_citations := msg_citations sc ++ items;
                          intent := intent sc |}
                 else Ret sc
             end
           else Ret sc
       | _ => Raise (AttributeError "object has no attribute 'startswith'")
       end
     else Ret sc) in
  let* end_turn := py_get "end_turn" message in
  let sc2 :=
    if py_eq_true end_turn
    then {| more_steps := false; msg_content := msg_content sc1;
            msg_citations := msg_citations sc1; intent := intent sc1 |}
    else sc1 in
  let* user_intent := py_get "intent" message in
  if is_none user_intent then Ret sc2
  else
    let* joined := py_append_line (intent sc2) user_intent in
    Ret {| more_steps := more_steps sc2; msg_content := msg_content sc2;
           msg_citations := msg_citations sc2; intent := joined |}.

Fixpoint scan_messages (messages : list pyval) (sc : Scan) : outcome Scan :=
  match messages with
  | [] => Ret sc
  | message :: rest =>
      let* sc' := scan_message message sc in
      scan_messages rest sc'
  end.

(** The history after the shared citation list has grown: the messages
    that hold it show the list as it is now. *)
Definition refresh (citations : list pyval) (shared : list nat) (ms : list Message)
  : list Message :=
  foldr (fun i ms => alter (insert "citations" (PList citations)) i ms) ms shared.

(** [response.citations.append(ChatCitation.from_data_source_citation(m)
    .to_api_response())] for each collected citation: the list as the
    loop leaves it, with the error that stopped it, if any. *)
Fixpoint append_citations (collected : list pyval) (citations : list pyval)
  : list pyval * outcome unit :=
  match collected with
  | [] => (citations, Ret tt)
  | m_citation :: rest =>
      match citation_of m_citation with
      | Raise e => (citations, Raise e)
      | Ret c => append_citations rest (citations ++ [to_api_response c])
      end
  end.

(** [__process_data_source_api_response].  An exception leaves
    [send_message], so the response is given back as it was. *)
Definition process_data_source_api_response (messages : pyval) (response : PlainResponse)
  : Proxy -> (Proxy * PlainResponse) * outcome bool :=
  fun p =>
  match (let* items := py_iter messages in
         scan_messages items {| more_steps := true; msg_content := PNone;
                                msg_citations := []; intent := p_intent response |}) with
  | Raise e => ((p, response), Raise e)
  | Ret sc =>
      let response1 :=
        {| p_thread_id := p_thread_id response; p_message := p_message response;
           p_citations := p_citations response; p_intent := intent sc;
           p_shared := p_shared response |} in
      if is_none (msg_content sc) then ((p, response1), Ret (more_steps sc))
      else
        match py_append_line (p_message response1) (msg_content sc) with
        | Raise e => ((p, response), Raise e)
        | Ret joined =>
            let '(citations, appended) :=
              match msg_citations sc with
              | [] => (p_citations response1, Ret tt)
              | _ :: _ =>
                  let '(cs, r) := append_citations (msg_citations sc)
                                    (default [] (p_citations response1)) in
                  (Some cs, r)
              end in
            let p1 :=
              match citations, history p with
              | Some cs, Some ms =>
                  set_history (Some (refresh cs (p_shared response1) ms)) p
              | _, _ => p
              end in
            match appended with
            | Raise e => ((p1, response), Raise e)
            | Ret _ =>
                let position := length (default [] (history p1)) in
                match add_message_to_thread clock
                        {[ "content" := msg_content sc;
                           "role" := PStr "assistant";
                           "citations" := match citations with
                                          | Some cs => PList cs
                                          | None => PNone
                                          end ]} p1 with
                | (p2, Raise e) => ((p2, response), Raise e)
                | (p2, Ret _) =>
                    ((p2, {| p_thread_id := p_thread_id response1;
                             p_message := joined;
                             p_citations := citations;
                             p_intent := p_intent response1;
                             p_shared := match citations with
                                         | Some _ => p_shared response1 ++ [position]
                                         | None => p_shared response1
                                         end |}),
                     Ret (more_steps sc))
                end
            end
        end
  end.

(** The body of the loop of [__process_choices] for a choice of a
    completion that is not streamed: the new value of [more_steps]. *)
Definition process_choice (choice : CompletionChoice) (more : bool)
    (response : PlainResponse) : Proxy -> (Proxy * PlainResponse) * outcome bool :=
  fun p =>
  match c_messages choice with
  | Some messages =>
      match process_data_source_api_response messages response p with
      | (pr, Raise e) => (pr, Raise e)
      | (pr, Ret _) => (pr, Ret more)
      end
  | None =>
      match c_message choice with
      | None => ((p, response), Ret more)
      | Some message =>
          match m_tool_calls message with
          | Some (tool :: tools) =>
              match tool_call_entries (tool :: tools) with
              | Raise e => ((p, response), Raise e)
              | Ret entries =>
                  match (run add_message_to_thread clock
                               {[ "tool_calls" := PList entries;
                                  "role" := PStr (m_role message) ]};
                         process_tool_calls (tool :: tools)) p with
                  | (p1, Raise e) => ((p1, response), Raise e)
                  | (p1, Ret _) => ((p1, response), Ret more)
                  end
              end
          | _ =>
              match add_message_to_thread clock
                      {[ "content" := of_opt (m_content message);
                         "role" := PStr (m_role message) ]} p with
              | (p1, Raise e) => ((p1, response), Raise e)
              | (p1, Ret _) =>
                  match py_append_line (p_message response) (of_opt (m_content message)) with
                  | Raise e => ((p1, response), Raise e)
                  | Ret joined =>
                      ((p1, {| p_thread_id := p_thread_id response;
                               p_message := joined;
                               p_citations := p_citations response;
                               p_intent := p_intent response;
                               p_shared := p_shared response |}),
                       Ret false)
                  end
              end
          end
      end
  end.

(** The [for] loop of [__process_choices] over a list of choices, for a
    body [step]. *)
Fixpoint each_choice {C R : Type}
    (step : C -> bool -> R -> Proxy -> (Proxy * R) * outcome bool)
    (choices : list C) (more : bool) (response : R)
  : Proxy -> (Proxy * R) * outcome bool :=
  fun p =>
  match choices with
  | [] => ((p, response), Ret more)
  | choice :: rest =>
      match step choice more response p with
      | (pr, Raise e) => (pr, Raise e)
      | ((p1, response1), Ret more1) => each_choice step rest more1 response1 p1
      end
  end.

(** [__process_choices] on a completion that is not streamed *)
Definition process_choices (choices : list CompletionChoice) (response : PlainResponse)
  : Proxy -> (Proxy * PlainResponse) * outcome bool :=
  each_choice process_choice (sort_choices c_index choices) true response.

(** *** A streamed completion *)

(** [__process_finished_stream_chunk] *)
Definition process_finished_stream_chunk (finish_reason : string) (response : ChatResponse)
  : Proxy -> (Proxy * ChatResponse) * outcome bool :=
  fun p =>
  if String.eqb finish_reason "tool_calls" then
    match (do ms <- messages_of_history;
           do t <- time clock;
           do accumulators <- read (fun p => Chunk.tool_calls (stream_chunk p));
           match accumulators with
           | None => raise (TypeError "'NoneType' object is not iterable")
           | Some accumulators =>
               let tools := map of_accumulator accumulators in
               do entries <- (fun p => (p, tool_call_entries tools));
               do role <- read (fun p => Chunk.role (stream_chunk p));
               run modify (set_history
                             (Some (ms ++ [ {[ "ts" := PInt (millis t);
                                               "tool_calls" := PList entries;
                                               "role" := of_opt role ]} ])));
               run process_tool_calls tools;
               modify (fun p =>
                 let cd := stream_chunk p in
                 set_stream_chunk
                   {| content := content cd; role := Chunk.role cd; tool_calls := None;
                      accumulated_delta := accumulated_delta cd;
                      last_stream_publish := last_stream_publish cd;
                      tool_content := tool_content cd |} p)
           end) p with
    | (p1, Raise e) => ((p1, response), Raise e)
    | (p1, Ret _) => ((p1, response), Ret true)
    end
  else if String.eqb finish_reason "content_filter" then ((p, response), Ret true)
  else if String.eqb finish_reason "function_call" then ((p, response), Ret true)
  else if String.eqb finish_reason "stop" then
    match (run (do acc <- read (fun p => accumulated_delta (stream_chunk p));
                match acc with
                | Some text =>
                    if (0 <? String.length text)%nat
                    then push_update_to_stream clock (Delta text) INTERIM_RESULT
                    else ret tt
                | None => ret tt
                end);
           do ms <- messages_of_history;
           do t <- time clock;
           do cd <- read stream_chunk;
           run modify (set_history
                         (Some (ms ++ [ {[ "ts" := PInt (millis t);
                                           "content" := of_opt (content cd);
                                           "role" := of_opt (Chunk.role cd) ]} ])));
           ret (content cd)) p with
    | (p1, Raise e) => ((p1, response), Raise e)
    | (p1, Ret text) =>
        match append_line (r_message response) text with
        | Raise e => ((p1, response), Raise e)
        | Ret joined =>
            ((p1, {| r_thread_id := r_thread_id response; r_message := joined;
                     r_citations := r_citations response;
                     r_intent := r_intent response |}),
             Ret false)
        end
    end
  else ((p, response), Ret true).

(** [__process_stream_chunk]; iterating [None] where the messages of the
    data-source API are expected raises before anything is accumulated. *)
Definition process_stream_chunk (choice : StreamChoice) (response : ChatResponse)
  : Proxy -> (Proxy * ChatResponse) * outcome bool :=
  fun p =>
  match s_finish_reason choice with
  | Some finish_reason => process_finished_stream_chunk finish_reason response p
  | None =>
      match s_delta choice with
      | None =>
          match s_messages choice with
          | None => ((p, response), Raise (TypeError "'NoneType' object is not iterable"))
          | Some messages =>
              process_stream_chunk_from_data_extensions_api clock json_loads messages
                response p
          end
      | Some delta =>
          match add_chunk_delta (stream_chunk p) delta with
          | (cd, Raise e) => ((set_stream_chunk cd p, response), Raise e)
          | (cd, Ret _) =>
              match publish_interim_result clock false default_publish_frequency
                      (set_stream_chunk cd p) with
              | (p1, Raise e) => ((p1, response), Raise e)
              | (p1, Ret _) => ((p1, response), Ret true)
              end
          end
      end
  end.

(** [__process_choices] on a chunk of a streamed completion *)
Definition process_chunk (choices : list StreamChoice) (response : ChatResponse)
  : Proxy -> (Proxy * ChatResponse) * outcome bool :=
  each_choice (fun choice _ => process_stream_chunk choice)
    (sort_choices s_index choices) true response.

(** [__handle_stream_result] *)
Definition handle_stream_result (result : list (list StreamChoice)) (response : ChatResponse)
  : Proxy -> (Proxy * ChatResponse) * outcome bool :=
  fun p =>
  each_choice (fun chunk _ => process_chunk chunk) result true response
    (set_stream_chunk new_chunk p).

(** *** The loop *)

Section Loop.
(** The result type of the service and the response type of the path;
    [create n request] is the answer to the request that follows [n]
    earlier ones, and [handle] is [__process_choices] or
    [__handle_stream_result]: the client answers a stream exactly when it
    is asked for one. *)
Context {Result R : Type}.
Variable create : nat -> Request -> outcome Result.
Variable handle : Result -> R -> Proxy -> (Proxy * R) * outcome bool.

Definition progress_text (step_count : Z) : string :=
  if step_count =? 1 then "Thinking about what you said"
  else "Analysing the data I've collected so far".

(** [tool_choice] of the request of a step *)
Definition tool_choice (step_count : Z) : option string :=
  if data_sources then None
  else Some (if step_count <? max_steps - 1 then "auto" else "none").

(** The [while] loop of [send_message].  It runs at most [max_steps]
    times, which is what the fuel is set to. *)
Fixpoint step_loop (fuel : nat) (more : bool) (step_count : Z) (s : Session R)
  : Session R * outcome unit :=
  match fuel with
  | O => (s, Ret tt)
  | S fuel' =>
      if more && (step_count <? max_steps) then
        let step_count := step_count + 1 in
        match (do ms <- messages_of_history;
               run push_update_to_stream clock (Text (progress_text step_count))
                     PROGRESS_UPDATE;
               ret (map strip ms)) (proxy s) with
        | (p1, Raise e) =>
            ({| proxy := p1; response := response s; requests := requests s;
                saved := saved s |}, Raise e)
        | (p1, Ret messages) =>
            let request :=
              {| req_messages := messages; req_tool_choice := tool_choice step_count;
                 req_stream := bool_decide (is_Some (stream_id p1)) |} in
            let made := requests s ++ [request] in
            match create (length (requests s)) request with
            | Raise e =>
                ({| proxy := p1; response := response s; requests := made;
                    saved := saved s |}, Raise e)
            | Ret result =>
                match handle result (response s) p1 with
                | ((p2, response2), Raise e) =>
                    ({| proxy := p2; response := response2; requests := made;
                        saved := saved s |}, Raise e)
                | ((p2, response2), Ret more2) =>
                    step_loop fuel' more2 step_count
                      {| proxy := p2; response := response2; requests := made;
                         saved := saved s |}
                end
            end
        end
      else (s, Ret tt)
  end.

(** [send_message] from [response = ChatResponse()] on *)
Definition converse (new_response : R) (p : Proxy) : Session R * outcome R :=
  match step_loop (Z.to_nat max_steps) true 0
          {| proxy := p; response := new_response; requests := []; saved := [] |} with
  | (s, Raise e) => (s, Raise e)
  | (s, Ret _) =>
      let p1 := fst (push_update_to_stream clock (Text "Documenting our conversation")
                       PROGRESS_UPDATE (proxy s)) in
      ({| proxy := p1; response := response s; requests := requests s;
          saved := match history p1 with
                   | Some ms => saved s ++ [ms]
                   | None => saved s
                   end |},
       Ret (response s))
  end.

(** [send_message], for the thread that [_determine_thread_id] gave *)
Definition send_message (retrieve_thread : string -> option (list Message))
    (create_summary : list Message -> outcome (list Choice))
    (message thread_id : string) (new_response : R) (p : Proxy)
  : Session R * outcome R :=
  match send_message_prepare clock retrieve_thread create_summary message thread_id p with
  | (p1, Raise e) =>
      ({| proxy := p1; response := new_response; requests := []; saved := [] |}, Raise e)
  | (p1, Ret _) => converse new_response p1
  end.

End Loop.

End Flow.

End Turn.

(** ** proxy/assistant_processor.py: [__messages_to_response] *)

Module Responses.
Import Json Chunk.

(** An annotation of a text: [annotation.type] with the attributes read
    for it. *)
Inductive Annotation : Type :=
| FileCitation (file_id quote : string) (start_index end_index : Z) (text : string)
| FilePath (file_id : string) (start_index end_index : Z) (text : string)
| OtherAnnotation (type : string).

(** A content part of a thread message, by [content.type]: ["text"] with
    [content.text.value] and [content.text.annotations], ["image"] with
    [content.image_file.file_id], or another type. *)
Inductive Part : Type :=
| TextPart (value : string) (annotations : option (list Annotation))
| ImagePart (file_id : string)
| OtherPart (type : string).

(** [openai.types.beta.threads.Message], the attributes read *)
Record ThreadMessage : Type := {
  tm_id : string;
  tm_assistant_id : option string;
  tm_thread_id : string;
  tm_file_ids : option (list string);
  tm_content : list Part
}.

(** [ChatResponse] as [__messages_to_response] fills it *)
Record AssistantResponse : Type := {
  ar_id : string;
  ar_assistant_id : option string;
  ar_thread_id : string;
  ar_message : option string;
  ar_citations : option (list ChatCitation);
  ar_metadata : gmap string pyval
}.

Definition citation_of_annotation (annotation : Annotation) : option ChatCitation :=
  match annotation with
  | FileCitation file_id quote start_index end_index text =>
      Some {| c_id := PStr file_id; c_text := PStr quote; c_url := PNone;
              c_title := PNone; c_start := PInt start_index; c_end := PInt end_index;
              c_replace_part := PStr text |}
  | FilePath file_id start_index end_index text =>
      Some {| c_id := PStr file_id; c_text := PNone; c_url := PNone;
              c_title := PNone; c_start := PInt start_index; c_end := PInt end_index;
              c_replace_part := PStr text |}
  | OtherAnnotation _ => None
  end.

(** [resp.citations = [citation] if resp.citations is None else
    resp.citations.append(citation)]: [append] returns [None]. *)
Definition assign_citation (citation : ChatCitation) (old : option (list ChatCitation))
  : option (list ChatCitation) :=
  match old with
  | None => Some [citation]
  | Some _ => None
  end.

(** The loop over [content.text.annotations] *)
Definition add_annotations (annotations : list Annotation)
    (citations : option (list ChatCitation)) : option (list ChatCitation) :=
  foldl (fun citations annotation =>
           match citation_of_annotation annotation with
           | Some citation => assign_citation citation citations
           | None => citations
           end)
        citations annotations.

(** The body of the loop over [assistant_msg.content] *)
Definition add_part (part : Part) (resp : AssistantResponse) : outcome AssistantResponse :=
  match part with
  | TextPart value annotations =>
      match ar_message resp with
      | Some _ => Raise (TypeError "can only concatenate str (not 'Text') to str")
      | None =>
          Ret {| ar_id := ar_id resp; ar_assistant_id := ar_assistant_id resp;
                 ar_thread_id := ar_thread_id resp; ar_message := Some value;
                 ar_citations := add_annotations (default [] annotations)
                                   (ar_citations resp);
                 ar_metadata := ar_metadata resp |}
      end
  | ImagePart file_id =>
      let* images :=
        match ar_metadata resp !! "image" with
        | None => Ret (PList [PStr file_id])
        | Some (PList _) => Ret PNone
        | Some _ => Raise (AttributeError "'NoneType' object has no attribute 'append'")
        end in
      Ret {| ar_id := ar_id resp; ar_assistant_id := ar_assistant_id resp;
             ar_thread_id := ar_thread_id resp; ar_message := ar_message resp;
             ar_citations := ar_citations resp;
             ar_metadata := <["image" := images]> (ar_metadata resp) |}
  | OtherPart _ => Ret resp
  end.

Fixpoint add_parts (parts : list Part) (resp : AssistantResponse)
  : outcome AssistantResponse :=
  match parts with
  | [] => Ret resp
  | part :: rest =>
      let* resp' := add_part part resp in
      add_parts rest resp'
  end.

(** The body of the loop over the messages *)
Definition message_to_response (assistant_msg : ThreadMessage) : outcome AssistantResponse :=
  add_parts (tm_content assistant_msg)
    {| ar_id := tm_id assistant_msg; ar_assistant_id := tm_assistant_id assistant_msg;
       ar_thread_id := tm_thread_id assistant_msg; ar_message := None;
       ar_citations := None;
       ar_metadata :=
         match tm_file_ids assistant_msg with
         | Some (file_id :: file_ids) =>
             {[ "file_ids" := PList (map PStr (file_id :: file_ids)) ]}
         | _ => ∅
         end |}.

(** [__messages_to_response] *)
Fixpoint messages_to_response (messages : list ThreadMessage)
  : outcome (list AssistantResponse) :=
  match messages with
  | [] => Ret []
  | assistant_msg :: rest =>
      let* resp := message_to_response assistant_msg in
      let* resps := messages_to_response rest in
      Ret (resp :: resps)
  end.

End Responses.

(** ** data/chat_context.py: [__load_system_prompt] *)

Module Settings.
Import Chunk.

Section Files.
(** The directory of the module, [os.path.exists] and the content of a
    file. *)
Variable curr_dir : string.
Variable path_exists : string -> bool.
Variable read_file : string -> string.

(** The two tests that raise [ValueError] for a path. *)
Definition refused (path : string) : bool :=
  (String.prefix "/" path && negb (String.prefix curr_dir path))
  || is_substring ".." path.

(** The loop over [prompt_sources]: the path of the file that is read,
    if any. *)
Fixpoint first_prompt_file (prompt_sources : list (option string))
  : outcome (option string) :=
  match prompt_sources with
  | [] => Ret None
  | None :: rest => first_prompt_file rest
  | Some path :: rest =>
      if refused path then
        Raise (ValueError ("Invalid path specified for system prompt: " +:+ path))
      else if path_exists path then Ret (Some path)
      else first_prompt_file rest
  end.

(** The sources, in the order tried: the request header, the request
    body, the two default files and the environment. *)
Definition prompt_sources (header body env_path : option string) : list (option string) :=
  [header; body; Some "system_prompt.txt"; Some (curr_dir +:+ "/system_prompt.txt");
   env_path].

(** [__load_system_prompt]: the value of [self.system_prompt], given the
    prompt of the configuration, the [prompt-file] of the header and of
    the body, and the two environment variables. *)
Definition load_system_prompt (config_prompt header body env_path env_prompt : option string)
  : outcome (option string) :=
  match config_prompt with
  | Some prompt => Ret (Some prompt)
  | None =>
      let* found := first_prompt_file (prompt_sources header body env_path) in
      match found with
      | Some path => Ret (Some (read_file path))
      | None => Ret env_prompt
      end
  end.

End Files.

End Settings.

(** * Properties *)

(** ** The streaming-delta accumulator *)

Module ChunkProps.
Import Json Chunk.

(** The pieces of a list of texts, glued in order. *)
Definition concat_all (pieces : list string) : string :=
  foldr String.append "" pieces.

(** [start] after the pieces were appended to it one by one: untouched
    when there is no piece, otherwise a text ([None] counting as empty). *)
Definition joined (start : option string) (pieces : list string) : option string :=
  match pieces with
  | [] => start
  | _ :: _ => Some (default "" start +:+ concat_all pieces)
  end.

Lemma append_cons (x : ascii) (a b : string) :
  String x a +:+ b = String x (a +:+ b).
Proof. reflexivity. Qed.

Lemma append_assoc (a b c : string) : (a +:+ b) +:+ c = a +:+ (b +:+ c).
Proof.
  induction a as [|x a IH]; [reflexivity|].
  by rewrite !append_cons, IH.
Qed.

Lemma append_empty_r (a : string) : a +:+ "" = a.
Proof.
  induction a as [|x a IH]; [reflexivity|].
  by rewrite append_cons, IH.
Qed.

Lemma joined_cons (start : option string) (piece : string) (pieces : list string) :
  joined (cat start piece) pieces = joined start (piece :: pieces).
Proof.
  destruct pieces as [|p ps]; destruct start as [s|]; simpl.
  - by rewrite !append_empty_r.
  - by rewrite append_empty_r.
  - by rewrite append_assoc.
  - done.
Qed.

(** A delta that carries only content. *)
Definition content_delta (c : string) : ChoiceDelta :=
  {| d_content := Some c; d_role := None; d_tool_calls := None |}.

Lemma add_chunk_delta_content (cd : ChunkData) (d : ChoiceDelta) :
  content (add_chunk_delta cd d).1 =
  match d_content d with
  | Some c => cat (content cd) c
  | None => content cd
  end.
Proof.
  unfold add_chunk_delta. destruct (d_tool_calls d) as [dts|]; [|done].
  by destruct (merge_tool_calls _ dts).
Qed.

Lemma add_chunk_delta_accumulated (cd : ChunkData) (d : ChoiceDelta) :
  accumulated_delta (add_chunk_delta cd d).1 =
  match d_content d with
  | Some c => cat (accumulated_delta cd) c
  | None => accumulated_delta cd
  end.
Proof.
  unfold add_chunk_delta. destruct (d_tool_calls d) as [dts|]; [|done].
  by destruct (merge_tool_calls _ dts).
Qed.

Lemma add_chunk_deltas_content (deltas : list ChoiceDelta) :
  ∀ cd cd', add_chunk_deltas cd deltas = (cd', Ret tt) →
            content cd' = joined (content cd) (omap d_content deltas).
Proof.
  induction deltas as [|d ds IH]; intros cd cd' Hrun; simpl in Hrun.
  - by inversion Hrun.
  - pose proof (add_chunk_delta_content cd d) as Hc.
    destruct (add_chunk_delta cd d) as [cd1 [[]|e]]; [|done].
    rewrite (IH _ _ Hrun). simpl in Hc. rewrite Hc. simpl.
    destruct (d_content d) as [c|]; [|done].
    by rewrite joined_cons.
Qed.



(** *** Tool-call fragments *)

Definition dt_arguments (f : ChoiceDeltaToolCall) : option string :=
  dt_function f ≫= fn_arguments.

Definition dt_name (f : ChoiceDeltaToolCall) : option string :=
  dt_function f ≫= fn_name.

(** The tool-call fragments of a sequence of deltas, in arrival order. *)
Definition fragments (deltas : list ChoiceDelta) : list ChoiceDeltaToolCall :=
  concat (omap d_tool_calls deltas).

(** The fragments that carry a given position index, in arrival order. *)
Definition group (i : Z) (frs : list ChoiceDeltaToolCall) : list ChoiceDeltaToolCall :=
  filter (fun f => dt_index f = i) frs.

(** The first accumulator with a given index. *)
Fixpoint tool_call_at (i : Z) (tcs : list ChunkToolCallData) : option ChunkToolCallData :=
  match tcs with
  | [] => None
  | tc :: rest => if Z.eqb (index tc) i then Some tc else tool_call_at i rest
  end.

(** What one fragment does to the accumulator it is merged into. *)
Definition absorb_dt (tc : ChunkToolCallData) (f : ChoiceDeltaToolCall)
  : ChunkToolCallData :=
  match dt_function f with
  | Some fn => absorb tc f fn
  | None => set_header tc f
  end.

(** An accumulator after a group of fragments: created by the first one
    when there was none. *)
Definition merged (start : option ChunkToolCallData) (g : list ChoiceDeltaToolCall)
  : option ChunkToolCallData :=
  match g with
  | [] => start
  | _ :: _ => Some (foldl absorb_dt (default new_tool_call start) g)
  end.

(** A field after the values carried for it: the last one, if any. *)
Definition latest (start : option string) (values : list string) : option string :=
  match last values with
  | Some v => Some v
  | None => start
  end.

Lemma latest_cons (start : option string) (v : string) (values : list string) :
  latest start (v :: values) = latest (Some v) values.
Proof. unfold latest. rewrite last_cons. by destruct (last values). Qed.

Section Fold.
Variables (tc : ChunkToolCallData).

Lemma absorb_dt_arguments (f : ChoiceDeltaToolCall) :
  arguments (function (absorb_dt tc f)) =
  match dt_arguments f with
  | Some a => cat (arguments (function tc)) a
  | None => arguments (function tc)
  end.
Proof.
  unfold absorb_dt, dt_arguments. destruct (dt_function f) as [fn|]; [|done].
  simpl. by destruct (fn_arguments fn).
Qed.

Lemma absorb_dt_name (f : ChoiceDeltaToolCall) :
  name (function (absorb_dt tc f)) =
  match dt_name f with Some n => Some n | None => name (function tc) end.
Proof.
  unfold absorb_dt, dt_name. destruct (dt_function f) as [fn|]; [|done].
  simpl. by destruct (fn_name fn).
Qed.

Lemma absorb_dt_id (f : ChoiceDeltaToolCall) :
  tc_id (absorb_dt tc f) =
  match dt_id f with Some i => Some i | None => tc_id tc end.
Proof. unfold absorb_dt. by destruct (dt_function f). Qed.

Lemma absorb_dt_type (f : ChoiceDeltaToolCall) :
  tc_type (absorb_dt tc f) =
  match dt_type f with Some t => Some t | None => tc_type tc end.
Proof. unfold absorb_dt. by destruct (dt_function f). Qed.

Lemma absorb_dt_index (f : ChoiceDeltaToolCall) :
  index (absorb_dt tc f) = dt_index f.
Proof. unfold absorb_dt. by destruct (dt_function f). Qed.
End Fold.

Lemma foldl_absorb_arguments (g : list ChoiceDeltaToolCall) :
  ∀ tc, arguments (function (foldl absorb_dt tc g))
        = joined (arguments (function tc)) (omap dt_arguments g).
Proof.
  induction g as [|f g IH]; intros tc; [done|].
  simpl. rewrite IH, absorb_dt_arguments.
  destruct (dt_arguments f) as [a|]; [|done]. by rewrite joined_cons.
Qed.

Lemma foldl_absorb_id (g : list ChoiceDeltaToolCall) :
  ∀ tc, tc_id (foldl absorb_dt tc g) = latest (tc_id tc) (omap dt_id g).
Proof.
  induction g as [|f g IH]; intros tc; [done|].
  simpl. rewrite IH, absorb_dt_id.
  destruct (dt_id f) as [a|]; [|done]. by rewrite latest_cons.
Qed.

Lemma foldl_absorb_type (g : list ChoiceDeltaToolCall) :
  ∀ tc, tc_type (foldl absorb_dt tc g) = latest (tc_type tc) (omap dt_type g).
Proof.
  induction g as [|f g IH]; intros tc; [done|].
  simpl. rewrite IH, absorb_dt_type.
  destruct (dt_type f) as [a|]; [|done]. by rewrite latest_cons.
Qed.

Lemma foldl_absorb_name (g : list ChoiceDeltaToolCall) :
  ∀ tc, name (function (foldl absorb_dt tc g))
        = latest (name (function tc)) (omap dt_name g).
Proof.
  induction g as [|f g IH]; intros tc; [done|].
  simpl. rewrite IH, absorb_dt_name.
  destruct (dt_name f) as [a|]; [|done]. by rewrite latest_cons.
Qed.

Lemma merged_cons (start : option ChunkToolCallData) (f : ChoiceDeltaToolCall)
    (g : list ChoiceDeltaToolCall) :
  merged (Some (absorb_dt (default new_tool_call start) f)) g = merged start (f :: g).
Proof. by destruct g. Qed.

(** The search loop agrees with [tool_call_at]. *)
Lemma find_tool_call_spec (i : Z) (tcs : list ChunkToolCallData) :
  match find_tool_call i tcs with
  | Some k => ∃ tc, tcs !! k = Some tc ∧ index tc = i ∧ tool_call_at i tcs = Some tc
  | None => tool_call_at i tcs = None ∧ i ∉ map index tcs
  end.
Proof.
  induction tcs as [|tc tcs IH]; simpl.
  - split; [done|]. apply not_elem_of_nil.
  - destruct (Z.eqb_spec (index tc) i) as [Heq|Hne].
    + by exists tc.
    + destruct (find_tool_call i tcs) as [k|]; simpl.
      * destruct IH as (tc' & ? & ? & ?). by exists tc'.
      * destruct IH as [? Hnot]. split; [done|].
        rewrite not_elem_of_cons. by split.
Qed.

Lemma tool_call_at_insert (i : Z) (tc' : ChunkToolCallData) :
  index tc' = i →
  ∀ tcs k, find_tool_call i tcs = Some k →
  ∀ j, tool_call_at j (<[k := tc']> tcs)
       = if Z.eqb j i then Some tc' else tool_call_at j tcs.
Proof.
  intros Hi. induction tcs as [|tc tcs IH]; intros k Hk j; [done|].
  simpl in Hk. destruct (Z.eqb_spec (index tc) i) as [Heq|Hne].
  - injection Hk as <-. simpl. rewrite Hi.
    destruct (Z.eqb_spec j i) as [->|Hji].
    + by rewrite Z.eqb_refl.
    + rewrite Heq. by destruct (Z.eqb_spec i j) as [->|].
  - destruct (find_tool_call i tcs) as [k'|]; [|done].
    injection Hk as <-. simpl. rewrite (IH k' eq_refl j).
    destruct (Z.eqb_spec (index tc) j) as [Hj|Hj]; [|done].
    destruct (Z.eqb_spec j i) as [->|]; [done|done].
Qed.

Lemma tool_call_at_snoc (i : Z) (tc' : ChunkToolCallData) :
  index tc' = i →
  ∀ tcs, tool_call_at i tcs = None →
  ∀ j, tool_call_at j (tcs ++ [tc'])
       = if Z.eqb j i then Some tc' else tool_call_at j tcs.
Proof.
  intros Hi. induction tcs as [|tc tcs IH]; intros Hnone j; simpl.
  - rewrite Hi. destruct (Z.eqb_spec i j) as [->|Hne].
    + by rewrite Z.eqb_refl.
    + by destruct (Z.eqb_spec j i) as [->|].
  - simpl in Hnone. destruct (Z.eqb_spec (index tc) i) as [|Hne]; [done|].
    rewrite (IH Hnone j).
    destruct (Z.eqb_spec (index tc) j) as [Hj|Hj]; [|done].
    destruct (Z.eqb_spec j i) as [->|]; [done|done].
Qed.

Lemma tool_call_at_elem (tcs : list ChunkToolCallData) :
  NoDup (map index tcs) →
  ∀ tc, tc ∈ tcs → tool_call_at (index tc) tcs = Some tc.
Proof.
  induction tcs as [|t tcs IH]; intros Hnd tc Hin; [by apply elem_of_nil in Hin|].
  simpl in *. apply NoDup_cons in Hnd as [Hfresh Hnd].
  apply elem_of_cons in Hin as [->|Hin]; [by rewrite Z.eqb_refl|].
  destruct (Z.eqb_spec (index t) (index tc)) as [Heq|]; [|by apply IH].
  exfalso. apply Hfresh. rewrite Heq. apply list_elem_of_fmap. by exists tc.
Qed.

Lemma tool_call_at_some (i : Z) (tcs : list ChunkToolCallData) (tc : ChunkToolCallData) :
  tool_call_at i tcs = Some tc → tc ∈ tcs ∧ index tc = i.
Proof.
  induction tcs as [|t tcs IH]; [done|]. simpl.
  destruct (Z.eqb_spec (index t) i) as [Heq|].
  - intros [= <-]. split; [apply elem_of_cons; by left | done].
  - intros H. destruct (IH H). split; [apply elem_of_cons; by right | done].
Qed.

(** One fragment: the accumulator of its index absorbs it, the others are
    untouched, and no index gets a second accumulator. *)
Lemma merge_tool_call_step (tcs tcs1 : list ChunkToolCallData) (f : ChoiceDeltaToolCall) :
  merge_tool_call tcs f = (tcs1, Ret tt) →
  (∀ j, tool_call_at j tcs1
        = if Z.eqb j (dt_index f)
          then Some (absorb_dt (default new_tool_call (tool_call_at (dt_index f) tcs)) f)
          else tool_call_at j tcs)
  ∧ (NoDup (map index tcs) → NoDup (map index tcs1)).
Proof.
  unfold merge_tool_call.
  pose proof (find_tool_call_spec (dt_index f) tcs) as Hfind.
  destruct (find_tool_call (dt_index f) tcs) as [k|] eqn:Hk.
  - destruct Hfind as (tc & Hlook & Hidx & Hat). rewrite Hlook, Hat. simpl.
    destruct (is_function (tc_type tc) || is_function (dt_type f)); [|done].
    destruct (dt_function f) as [fn|] eqn:Hfn; [|done].
    intros [= <-]. split.
    + intros j. unfold absorb_dt. rewrite Hfn.
      by apply tool_call_at_insert.
    + intros Hnd. rewrite list_fmap_insert. simpl.
      rewrite list_insert_id; [done|].
      rewrite list_lookup_fmap, Hlook. simpl. by rewrite Hidx.
  - destruct Hfind as [Hat Hnot]. rewrite Hat. simpl.
    rewrite lookup_app_r, Nat.sub_diag by lia. simpl.
    destruct (is_function (dt_type f)); [|done].
    destruct (dt_function f) as [fn|] eqn:Hfn; [|done].
    intros [= <-].
    assert (<[length tcs := absorb new_tool_call f fn]> (tcs ++ [new_tool_call])
            = tcs ++ [absorb new_tool_call f fn]) as ->.
    { rewrite insert_app_r_alt, Nat.sub_diag by lia. done. }
    split.
    + intros j. unfold absorb_dt. rewrite Hfn.
      by apply tool_call_at_snoc.
    + intros Hnd. rewrite fmap_app. simpl.
      apply NoDup_app. split_and!; [done| |apply NoDup_singleton].
      intros x Hx Hx'. apply list_elem_of_singleton in Hx'. by subst.
Qed.

Lemma group_cons (j : Z) (f : ChoiceDeltaToolCall) (frs : list ChoiceDeltaToolCall) :
  group j (f :: frs) = if Z.eqb j (dt_index f) then f :: group j frs else group j frs.
Proof.
  unfold group. rewrite filter_cons.
  destruct (Z.eqb_spec j (dt_index f)) as [->|Hne].
  - by rewrite decide_True.
  - by rewrite decide_False.
Qed.

(** A run of fragments: every index has the accumulator that its group of
    fragments builds. *)
Lemma merge_tool_calls_spec (frs : list ChoiceDeltaToolCall) :
  ∀ tcs tcs', merge_tool_calls tcs frs = (tcs', Ret tt) →
    (∀ j, tool_call_at j tcs' = merged (tool_call_at j tcs) (group j frs))
    ∧ (NoDup (map index tcs) → NoDup (map index tcs')).
Proof.
  induction frs as [|f frs IH]; intros tcs tcs' Hrun; simpl in Hrun.
  - by inversion Hrun.
  - destruct (merge_tool_call tcs f) as [tcs1 [[]|e]] eqn:Hstep; [|done].
    apply merge_tool_call_step in Hstep as [Hat Hnd].
    apply IH in Hrun as [Hat' Hnd']. split; [|by auto].
    intros j. rewrite Hat', Hat, group_cons.
    destruct (Z.eqb_spec j (dt_index f)) as [->|]; [|done].
    by rewrite merged_cons.
Qed.

Lemma merge_tool_calls_app (a b : list ChoiceDeltaToolCall) :
  ∀ tcs tcs1 tcs2,
    merge_tool_calls tcs a = (tcs1, Ret tt) →
    merge_tool_calls tcs1 b = (tcs2, Ret tt) →
    merge_tool_calls tcs (a ++ b) = (tcs2, Ret tt).
Proof.
  induction a as [|f a IH]; intros tcs tcs1 tcs2 Ha Hb; simpl in *.
  - by inversion Ha.
  - destruct (merge_tool_call tcs f) as [t [[]|e]]; [|done]. by eapply IH.
Qed.

(** The accumulators after a sequence of deltas are those of its
    fragments, merged one after the other. *)
Lemma add_chunk_deltas_tool_calls (deltas : list ChoiceDelta) :
  ∀ cd cd', add_chunk_deltas cd deltas = (cd', Ret tt) →
    merge_tool_calls (default [] (tool_calls cd)) (fragments deltas)
    = (default [] (tool_calls cd'), Ret tt).
Proof.
  induction deltas as [|d ds IH]; intros cd cd' Hrun; simpl in Hrun.
  - by inversion Hrun.
  - destruct (add_chunk_delta cd d) as [cd1 [[]|e]] eqn:Hstep; [|done].
    apply IH in Hrun. unfold fragments in *. simpl.
    unfold add_chunk_delta in Hstep.
    destruct (d_tool_calls d) as [dts|].
    + destruct (merge_tool_calls (default [] (tool_calls cd)) dts)
        as [tcs r] eqn:Hm.
      injection Hstep as <- ->. simpl in Hrun. simpl.
      by eapply merge_tool_calls_app.
    + injection Hstep as <-. by simpl in Hrun.
Qed.

(** C8, as the code has it.  When a sequence of deltas has been applied
    to a fresh accumulator, the fragments that share a position index
    have been merged into one accumulator, the only one of that index;
    its argument text is the concatenation of their argument pieces in
    arrival order, however the call was split; its id, type and function
    name are each the last value that a fragment of that index carried
    for it: a fragment that omits the field leaves it as it is, a later
    fragment that carries it replaces it. *)
Theorem tool_call_fragments_merge_by_index
    (deltas : list ChoiceDelta) (cd' : ChunkData) :
  add_chunk_deltas new_chunk deltas = (cd', Ret tt) →
  let frs := fragments deltas in
  let tcs := default [] (tool_calls cd') in
  NoDup (map index tcs)
  ∧ (∀ f, f ∈ frs → ∃ tc, tc ∈ tcs ∧ index tc = dt_index f)
  ∧ (∀ tc, tc ∈ tcs →
       let g := group (index tc) frs in
       g ≠ []
       ∧ arguments (function tc) = joined None (omap dt_arguments g)
       ∧ tc_id tc = last (omap dt_id g)
       ∧ tc_type tc = last (omap dt_type g)
       ∧ name (function tc) = last (omap dt_name g)).
Proof.
  intros Hrun frs tcs.
  apply add_chunk_deltas_tool_calls in Hrun. simpl in Hrun.
  apply merge_tool_calls_spec in Hrun as [Hat Hnd].
  fold frs tcs in Hat, Hnd.
  assert (NoDup (map index tcs)) as Hnodup by (apply Hnd; constructor).
  split_and!; [done| |].
  - intros f Hf.
    assert (group (dt_index f) frs ≠ []) as Hg.
    { intros Hnil. assert (f ∈ group (dt_index f) frs) as Hin
        by (by apply list_elem_of_filter).
      rewrite Hnil in Hin. by apply elem_of_nil in Hin. }
    specialize (Hat (dt_index f)). simpl in Hat.
    destruct (group (dt_index f) frs) as [|f0 g] eqn:Hgrp; [done|].
    simpl in Hat. apply tool_call_at_some in Hat as [Hin Hidx]. eauto.
  - intros tc Htc g.
    pose proof (tool_call_at_elem tcs Hnodup tc Htc) as Hmine.
    rewrite Hat in Hmine. simpl in Hmine. fold g in Hmine.
    destruct g as [|f0 g0] eqn:Hg; [done|].
    simpl in Hmine. injection Hmine as Hmine.
    change (foldl absorb_dt (absorb_dt new_tool_call f0) g0)
      with (foldl absorb_dt new_tool_call (f0 :: g0)) in Hmine.
    split; [done|]. rewrite <- Hmine.
    rewrite foldl_absorb_arguments, foldl_absorb_id, foldl_absorb_type,
      foldl_absorb_name.
    unfold latest. simpl.
    repeat split; by destruct (last _).
Qed.

Definition hello_deltas : list ChoiceDelta :=
  [ {| d_content := None; d_role := Some "assistant"; d_tool_calls := None |};
    content_delta "Hel"; content_delta "lo" ].


(** A delta that carries one tool-call fragment. *)
Definition tool_delta (i : Z) (id type fname pieces : option string) : ChoiceDelta :=
  {| d_content := None; d_role := None;
     d_tool_calls :=
       Some [ {| dt_index := i; dt_id := id;
                 dt_function := Some {| fn_arguments := pieces; fn_name := fname |};
                 dt_type := type |} ] |}.

(** The call [search({"a":1})] split in two, interleaved with a second
    call at index 1. *)
Definition split_call_deltas : list ChoiceDelta :=
  [ tool_delta 0 (Some "call_a") (Some "function") (Some "search")
      (Some ("{" +:+ q "a" +:+ ":"));
    tool_delta 1 (Some "call_b") (Some "function") (Some "get_item") (Some "{");
    tool_delta 0 None None None (Some "1}");
    tool_delta 1 None None None (Some "}") ].

Lemma tool_call_fragments_merge_by_index_witness :
  let frs := fragments split_call_deltas in
  let tcs := default [] (tool_calls (add_chunk_deltas new_chunk split_call_deltas).1) in
  NoDup (map index tcs)
  ∧ (∀ f, f ∈ frs → ∃ tc, tc ∈ tcs ∧ index tc = dt_index f)
  ∧ (∀ tc, tc ∈ tcs →
       let g := group (index tc) frs in
       g ≠ []
       ∧ arguments (function tc) = joined None (omap dt_arguments g)
       ∧ tc_id tc = last (omap dt_id g)
       ∧ tc_type tc = last (omap dt_type g)
       ∧ name (function tc) = last (omap dt_name g)).
Proof.
  exact (tool_call_fragments_merge_by_index split_call_deltas
           (add_chunk_deltas new_chunk split_call_deltas).1 eq_refl).
Defined.

Example split_call_arguments :
  tool_calls (add_chunk_deltas new_chunk split_call_deltas).1
  = Some [ {| index := 0; tc_id := Some "call_a"; tc_type := Some "function";
              function := {| name := Some "search";
                             arguments := Some ("{" +:+ q "a" +:+ ":1}") |} |};
           {| index := 1; tc_id := Some "call_b"; tc_type := Some "function";
              function := {| name := Some "get_item"; arguments := Some "{}" |} |} ].
Proof. reflexivity. Qed.

(** Two fragments of index 0 that both carry an id and a function name. *)
Definition renamed_call_deltas : list ChoiceDelta :=
  [ tool_delta 0 (Some "call_a") (Some "function") (Some "search") (Some "{");
    tool_delta 0 (Some "call_b") None (Some "get_item") (Some "}") ].

(** C8, as stated, fails: an id and a function name that were set are
    overwritten by a later fragment of the same index that carries
    others. *)
Lemma tool_call_id_and_name_are_overwritten :
  ∃ first both : ChunkToolCallData,
    tool_calls (add_chunk_deltas new_chunk (take 1 renamed_call_deltas)).1 = Some [first]
    ∧ tool_calls (add_chunk_deltas new_chunk renamed_call_deltas).1 = Some [both]
    ∧ tc_id first = Some "call_a" ∧ name (function first) = Some "search"
    ∧ tc_id both = Some "call_b" ∧ name (function both) = Some "get_item"
    ∧ tc_id both ≠ tc_id first ∧ name (function both) ≠ name (function first).
Proof. do 2 eexists. repeat split; done. Qed.

End ChunkProps.

(** ** The completion flow *)

Module CompletionsProps.
Import Json Chunk Completions.

Section Flow.
Variable clock : nat -> Q.

(** Whether [_publish_interim_result] goes through: forced or past the
    publish interval, and with something in the buffer. *)
Definition publish_due (force_publish : bool) (publish_frequency : Q) (p : Proxy)
  : bool :=
  (force_publish
   || negb (Qle_bool (clock (ticks p) - last_stream_publish (stream_chunk p))
                     publish_frequency))
  && match accumulated_delta (stream_chunk p) with
     | Some text => (0 <? String.length text)%nat
     | None => false
     end.

(** The clock reading that stamps the message sent: the first one the
    call takes when forced, the one after the interval test otherwise. *)
Definition message_reading (force_publish : bool) (p : Proxy) : nat :=
  if force_publish then ticks p else S (ticks p).

(** C10.  Publishing an interim result never touches the accumulated
    content, the role, the tool-call accumulators or the tool channel,
    nor the history.  When the publish goes through, the pending buffer
    is cleared, the last-publish time is set to the clock, and the
    buffer is what is sent to the stream (if the request has one); when
    it is skipped, the accumulator is unchanged and nothing is sent. *)
Theorem publish_interim_result_frame
    (force_publish : bool) (publish_frequency : Q) (p : Proxy) :
  let p' := (publish_interim_result clock force_publish publish_frequency p).1 in
  (publish_interim_result clock force_publish publish_frequency p).2 = Ret tt
  ∧ content (stream_chunk p') = content (stream_chunk p)
  ∧ role (stream_chunk p') = role (stream_chunk p)
  ∧ tool_calls (stream_chunk p') = tool_calls (stream_chunk p)
  ∧ tool_content (stream_chunk p') = tool_content (stream_chunk p)
  ∧ history p' = history p
  ∧ if publish_due force_publish publish_frequency p then
      accumulated_delta (stream_chunk p') = None
      ∧ last_stream_publish (stream_chunk p')
        = clock (S (message_reading force_publish p))
      ∧ outbox p'
        = outbox p
          ++ match stream_id p, accumulated_delta (stream_chunk p) with
             | Some sid, Some text =>
                 [(sid, {| sm_content := Delta text;
                           message_type := INTERIM_RESULT;
                           timestamp :=
                             (clock (message_reading force_publish p) * 1000)%Q |})]
             | _, _ => []
             end
    else
      stream_chunk p' = stream_chunk p ∧ outbox p' = outbox p.
Proof.
  unfold publish_due, publish_interim_result, message_reading.
  destruct p as [sid cd sp mh h ob n].
  destruct force_publish; simpl;
    unfold bindM, time, read, ret, modify, push_update_to_stream, bindM; simpl;
    [| destruct (Qle_bool _ _); simpl ];
    destruct (accumulated_delta cd) as [text|] eqn:Hacc; simpl;
    try destruct (0 <? String.length text)%nat; simpl;
    try rewrite Hacc;
    destruct sid; simpl; repeat split; rewrite ?app_nil_r; done.
Qed.
End Flow.

(** *** The data-source batch of a streamed step *)

Section Batch.
Variable clock : nat -> Q.
Variable json_loads : string -> option pyval.

(** Whatever batch is processed, the value handed back as [more_steps]
    is the end-of-turn flag that [add_data_source_delta] computed. *)
Lemma more_steps_is_end_turn (messages : list DataSourceMsg)
    (response : ChatResponse) (p : Proxy) (st : Proxy * ChatResponse) (b : bool) :
  process_stream_chunk_from_data_extensions_api clock json_loads messages response p
  = (st, Ret b) →
  ∃ cd content_updated,
    add_data_source_delta (stream_chunk p) messages = (cd, Ret (b, content_updated)).
Proof.
  unfold process_stream_chunk_from_data_extensions_api.
  destruct (add_data_source_delta (stream_chunk p) messages)
    as [cd [[end_turn updated]|e]]; [|done].
  destruct end_turn.
  - intros H. exists cd, updated.
    destruct (let* has := _ in _) as [cs|e]; [|done].
    destruct cs as [cl|]; [|done].
    destruct (add_message_to_thread _ _ _) as [p4 [[]|e]]; [|done].
    destruct (append_line _ _); [|done]. by injection H as _ <-.
  - intros [= _ <-]. by exists cd, updated.
Qed.
End Batch.

(** *** A streamed turn against the data-source API *)

Definition seconds_clock (n : nat) : Q := inject_Z (Z.of_nat n).

Definition system_message : Message :=
  {[ "ts" := PInt 0; "content" := PStr "You are a helpful assistant.";
     "role" := PStr "system" ]}.

Definition streaming_proxy : Proxy :=
  {| stream_id := Some "stream-1"; stream_chunk := new_chunk;
     system_prompt := None; max_history := 20;
     history := Some [system_message; {[ "ts" := PInt 1; "content" := PStr "Hi";
                                          "role" := PStr "user" ]}];
     outbox := []; ticks := 2 |}.

Definition fresh_response : ChatResponse :=
  {| r_thread_id := Some "t1"; r_message := None; r_citations := None;
     r_intent := None |}.

Definition content_msg (text : string) (end_turn : bool) : DataSourceMsg :=
  {| ds_delta := Some {| ds_role := None; ds_content := Some text |};
     ds_end_turn := end_turn |}.

Definition tool_msg (text : string) : DataSourceMsg :=
  {| ds_delta := Some {| ds_role := Some "tool"; ds_content := Some text |};
     ds_end_turn := false |}.

(** A batch that ends the turn: citations on the tool channel, then the
    last piece of content with the end-of-turn marker. *)
Definition end_of_turn_batch : list DataSourceMsg :=
  [ tool_msg ("{" +:+ q "citations" +:+ ": []}");
    content_msg "Hello" true ].

(** A batch that does not end the turn. *)
Definition continuing_batch : list DataSourceMsg :=
  [ content_msg "Hel" false ].

(** C2, at a batch that signals the end of the turn: the message is
    appended to the history, and the value handed back as [more_steps]
    is [True]; at a batch that does not signal it, the value is
    [False]. *)
Theorem end_of_turn_batch_asks_for_more_steps :
  let done := process_stream_chunk_from_data_extensions_api
                seconds_clock Json.loads end_of_turn_batch fresh_response streaming_proxy in
  let more := process_stream_chunk_from_data_extensions_api
                seconds_clock Json.loads continuing_batch fresh_response streaming_proxy in
  done.2 = Ret true
  ∧ r_message done.1.2 = Some "Hello"
  ∧ (length <$> history done.1.1) = Some 3%nat
  ∧ more.2 = Ret false
  ∧ history more.1.1 = history streaming_proxy.
Proof. vm_compute. repeat split; reflexivity. Qed.

(** The same batch without anything on the tool channel: the list of
    citations of the response is still [None] when it is iterated. *)
Example end_of_turn_without_citations :
  (process_stream_chunk_from_data_extensions_api
     seconds_clock Json.loads [content_msg "Hello" true] fresh_response streaming_proxy).2
  = Raise (TypeError "'NoneType' object is not iterable").
Proof. vm_compute. reflexivity. Qed.

(** *** Compaction of the history *)

(** A message as [_add_message_to_thread] stamps it. *)
Definition restamp (t : Q) (m : Message) : Message :=
  <["ts" := PInt (millis t)]> m.

Definition user_message (prompt : string) : Message :=
  {[ "content" := PStr prompt; "role" := PStr "user" ]}.

Definition system_prompt_message (p : Proxy) : Message :=
  {[ "content" := PStr (get_system_prompt p); "role" := PStr "system" ]}.

Definition summary_message (choice : Choice) (text : string) : Message :=
  {[ "content" := PStr ("Here is a summary of the conversation up to this point: " +:+ text);
     "role" := PStr (ch_role choice) ]}.

(** The settings that no step of the flow writes. *)
Definition same_settings (p p' : Proxy) : Prop :=
  max_history p' = max_history p ∧ system_prompt p' = system_prompt p.

Lemma same_settings_refl (p : Proxy) : same_settings p p.
Proof. done. Qed.

Lemma same_settings_trans (p1 p2 p3 : Proxy) :
  same_settings p1 p2 → same_settings p2 p3 → same_settings p1 p3.
Proof. intros [? ?] [? ?]. split; congruence. Qed.

Lemma bindM_run {A B : Type} (m : M A) (k : A → M B) (p p' : Proxy) (a : A) :
  m p = (p', Ret a) → bindM m k p = k a p'.
Proof. intros H. unfold bindM. by rewrite H. Qed.

Section Compaction.
Variable clock : nat -> Q.
Variable retrieve_thread : string -> option (list Message).
Variable create_summary : list Message -> outcome (list Choice).

Lemma push_update_to_stream_spec (c : StreamContent) (type : string) (p : Proxy) :
  ∃ p', push_update_to_stream clock c type p = (p', Ret tt)
        ∧ history p' = history p ∧ ticks p' = S (ticks p) ∧ same_settings p p'.
Proof.
  destruct p as [sid cd sp mh h ob k].
  unfold push_update_to_stream, bindM, time, modify. simpl.
  eexists. split; [reflexivity|]. by destruct sid.
Qed.

Lemma add_message_to_thread_spec (m : Message) (p : Proxy) (ms : list Message) :
  history p = Some ms →
  ∃ p', add_message_to_thread clock m p = (p', Ret tt)
        ∧ history p' = Some (ms ++ [restamp (clock (ticks p)) m])
        ∧ ticks p' = S (ticks p) ∧ same_settings p p'.
Proof.
  intros H. destruct p as [sid cd sp mh h ob k]. simpl in H. subst h.
  unfold add_message_to_thread, bindM, time, messages_of_history, read, ret.
  simpl. eexists. by split.
Qed.

Lemma pop_message_spec (p : Proxy) (ms : list Message) (m : Message) :
  history p = Some (ms ++ [m]) →
  ∃ p', pop_message p = (p', Ret m)
        ∧ history p' = Some ms ∧ ticks p' = ticks p ∧ same_settings p p'.
Proof.
  intros H. destruct p as [sid cd sp mh h ob k]. simpl in H. subst h.
  unfold pop_message, bindM, messages_of_history, read, ret, modify.
  simpl. rewrite last_snoc, removelast_last.
  eexists. by split.
Qed.

Lemma messages_of_history_spec (p : Proxy) (ms : list Message) :
  history p = Some ms → messages_of_history p = (p, Ret ms).
Proof.
  intros H. destruct p as [sid cd sp mh h ob k]. simpl in H. subst h.
  by unfold messages_of_history, bindM, read, ret.
Qed.

(** The messages of the session when the prompt arrives: the history the
    proxy holds, or else the one stored under the thread id. *)
Definition session_messages (thread_id : string) (p : Proxy) : option (list Message) :=
  match history p with
  | Some ms => Some ms
  | None => if String.eqb thread_id "" then None else retrieve_thread thread_id
  end.

Lemma add_user_prompt_to_thread_spec (message role thread_id : string)
    (p : Proxy) (ms : list Message) :
  session_messages thread_id p = Some ms →
  ∃ p', add_user_prompt_to_thread clock retrieve_thread message role thread_id p
        = (p', Ret tt)
        ∧ history p'
          = Some (ms ++ [ {[ "ts" := PInt (millis (clock (ticks p)));
                             "content" := PStr message; "role" := PStr role ]} ])
        ∧ ticks p' = S (ticks p) ∧ same_settings p p'.
Proof.
  intros H. destruct p as [sid cd sp mh h ob k].
  unfold session_messages in H. simpl in H.
  unfold add_user_prompt_to_thread, init_history, bindM, time, read, ret, modify, raise.
  simpl. destruct h as [h|].
  - injection H as ->. simpl. eexists. by split.
  - destruct (String.eqb thread_id ""); [done|]. simpl. rewrite H. simpl.
    eexists. by split.
Qed.

Lemma unstamp_summary_request (t : Q) :
  delete "ts" (restamp t summary_request) = summary_request.
Proof. unfold restamp. by rewrite delete_insert_id. Qed.



End Compaction.

(** A conversation of three messages with [max_history] at four: the next
    prompt triggers the compaction. *)
Definition greeting : Message :=
  {[ "ts" := PInt 1000; "content" := PStr "Hi"; "role" := PStr "user" ]}.

Definition greeting_reply : Message :=
  {[ "ts" := PInt 2000; "content" := PStr "Hello, how can I help?";
     "role" := PStr "assistant" ]}.

Definition long_proxy : Proxy :=
  {| stream_id := None; stream_chunk := new_chunk;
     system_prompt := Some "You are a helpful assistant."; max_history := 4;
     history := Some [system_message; greeting; greeting_reply];
     outbox := []; ticks := 3 |}.

Definition one_summary : Choice :=
  {| ch_content := Some "The user greeted the assistant."; ch_role := "assistant" |}.


End CompletionsProps.

(** ** Tool dispatch *)

Module DispatchProps.
Import Json Dispatch.

(** A registered function for the examples: it reports the query it was
    given. *)
Definition search_tool : tool :=
  fun kw =>
    match kw !! "query" with
    | Some (PStr s) => Ret (PStr ("results for " +:+ s))
    | _ => Ret (PStr "no query")
    end.

Definition sample_registry : gmap string tool := {[ "search" := search_tool ]}.

Definition sample_dumps (v : pyval) : string := "<json>".
Definition sample_str (v : pyval) : string := "<str>".

(** A per-conversation configuration with one entry: [find_docs] is
    [search] with the query fixed. *)
Definition find_docs : ChatFunctionConfig :=
  {| name := "find_docs"; function := "search"; description := "Search the documents";
     args := Some {[ "query" := PStr "docs" ]} |}.

Definition sample_config : option ChatConfig :=
  Some {| functions := Some [find_docs] |}.

Definition no_attribute_args : exn :=
  AttributeError "'bool' object has no attribute 'args'".

Section Proxy.
Variable registry : gmap string tool.
Variable json_loads : string -> option pyval.
Variable json_dumps : pyval -> string.
Variable py_str : pyval -> string.

(** A matching entry: the function it maps to is called with the fixed
    arguments merged over the caller's. *)
Lemma configured_entry_is_called (c : ChatConfig) (fs : list ChatFunctionConfig)
    (entry : ChatFunctionConfig) (fixed kw : kwargs) (f : tool) (fname : string) :
  functions c = Some fs →
  first_named fname fs = Found entry →
  args entry = Some fixed →
  registry !! function entry = Some f →
  invoke_function_tool (Some c) registry fname kw = f (fixed ∪ kw)
  ∧ ∀ k, (fixed ∪ kw) !! k = match fixed !! k with
                             | Some v => Some v
                             | None => kw !! k
                             end.
Proof.
  intros Hfs Hfound Hargs Hreg. split.
  - unfold invoke_function_tool, get_function_config, registry_getitem.
    by rewrite Hfs, Hfound, Hargs, Hreg.
  - intros k. rewrite lookup_union. by destruct (fixed !! k), (kw !! k).
Qed.

Lemma first_named_found (fname : string) (fs : list ChatFunctionConfig)
    (entry : ChatFunctionConfig) :
  first_named fname fs = Found entry → name entry = fname ∧ entry ∈ fs.
Proof.
  induction fs as [|f fs IH]; [done|]. simpl.
  destruct (String.eqb_spec (name f) fname) as [Heq|Hne].
  - intros [= <-]. split; [done | apply elem_of_cons; by left].
  - intros H. destruct (IH H). split; [done | apply elem_of_cons; by right].
Qed.

Lemma first_named_none (fname : string) (fs : list ChatFunctionConfig) :
  first_named fname fs = PyNone ↔ ∀ entry, entry ∈ fs → name entry ≠ fname.
Proof.
  induction fs as [|f fs IH]; simpl.
  - split; [|done]. intros _ entry Hin. by apply elem_of_nil in Hin.
  - destruct (String.eqb_spec (name f) fname) as [Heq|Hne].
    + split; [done|]. intros H. exfalso. apply (H f); [apply elem_of_cons; by left | done].
    + rewrite IH. split.
      * intros H entry Hin. apply elem_of_cons in Hin as [->|Hin]; [done | by apply H].
      * intros H entry Hin. apply H. apply elem_of_cons. by right.
Qed.

Lemma first_named_not_false (fname : string) (fs : list ChatFunctionConfig) :
  first_named fname fs ≠ PyFalse.
Proof. induction fs as [|f fs IH]; simpl; [done|]. by destruct (String.eqb _ _). Qed.

(** With a list of configured functions in which no entry matches, a
    registered name is called with the caller's arguments. *)
Lemma registry_fallback_under_a_function_list (c : ChatConfig)
    (fs : list ChatFunctionConfig) (kw : kwargs) (f : tool) (fname : string) :
  functions c = Some fs →
  first_named fname fs = PyNone →
  registry !! fname = Some f →
  invoke_function_tool (Some c) registry fname kw = f kw.
Proof.
  intros Hfs Hnone Hreg.
  unfold invoke_function_tool, get_function_config, registry_contains,
    registry_getitem.
  rewrite Hfs, Hnone, Hreg. by rewrite bool_decide_true by eauto.
Qed.

(** C1, where it breaks.  Without a per-conversation configuration, or
    with one that lists no functions, [get_function_config] answers
    [False], which is not [None]: the dispatcher reads [args] of it and
    raises, whatever the registry holds, so the registry is never
    consulted. *)
Theorem no_configuration_never_reaches_the_registry
    (fname : string) (kw : kwargs) :
  invoke_function_tool None registry fname kw = Raise no_attribute_args
  ∧ invoke_function_tool (Some {| functions := None |}) registry fname kw
    = Raise no_attribute_args
  ∧ ∀ (function_args : option string) (decoded : pyval),
      decode_args json_loads function_args = Ret decoded →
      completions_invoke_function_tool None registry json_loads json_dumps py_str
        fname function_args = Ret "Failed".
Proof.
  split_and!; [done|done|].
  intros function_args decoded Hdec.
  unfold completions_invoke_function_tool, guarded_call. rewrite Hdec. simpl.
  by destruct (unpack decoded).
Qed.



(** C5, as the code has it.  Under a list of configured functions, a name
    found neither in the list nor in the registry makes the dispatcher
    raise its [ValueError]; the wrappers call it inside their [try]
    block, whose handler turns the error into ["Failed"], as it does for
    an exception raised by a tool. *)
Theorem unknown_tool_is_answered_failed
    (c : ChatConfig) (fs : list ChatFunctionConfig) (fname call_id : string) :
  functions c = Some fs →
  first_named fname fs = PyNone →
  registry !! fname = None →
  (∀ kw, invoke_function_tool (Some c) registry fname kw
         = Raise (ValueError ("No function tool registered with the name: " +:+ fname)))
  ∧ ∀ (function_args : option string) (decoded : pyval),
      decode_args json_loads function_args = Ret decoded →
      completions_invoke_function_tool (Some c) registry json_loads json_dumps py_str
        fname function_args = Ret "Failed"
      ∧ assistants_invoke_function_tool (Some c) registry json_loads json_dumps py_str
          fname function_args call_id
        = Ret {| output := "Failed"; tool_call_id := call_id |}.
Proof.
  intros Hfs Hnone Hreg.
  assert (∀ kw, invoke_function_tool (Some c) registry fname kw
                = Raise (ValueError ("No function tool registered with the name: "
                                     +:+ fname))) as Hinv.
  { intros kw. unfold invoke_function_tool, get_function_config, registry_contains.
    rewrite Hfs, Hnone, Hreg.
    by rewrite bool_decide_false by (by intros [? ?]). }
  split; [done|]. intros function_args decoded Hdec.
  unfold completions_invoke_function_tool, assistants_invoke_function_tool,
    guarded_call. rewrite Hdec. simpl.
  destruct (unpack decoded) as [kw|e]; simpl; [|done].
  by rewrite Hinv.
Qed.
End Proxy.

(** The built-in [search], called with a query, when the request has no
    configuration: the answer is ["Failed"], and [search] is not called. *)
Example search_without_configuration :
  completions_invoke_function_tool None sample_registry Json.loads sample_dumps sample_str
    "search" (Some ("{" +:+ q "query" +:+ ":" +:+ q "x" +:+ "}"))
  = Ret "Failed"
  ∧ invoke_function_tool None sample_registry "search" {[ "query" := PStr "x" ]}
    = Raise no_attribute_args
  ∧ search_tool {[ "query" := PStr "x" ]} = Ret (PStr "results for x").
Proof. vm_compute. repeat split; reflexivity. Qed.

Example configured_search :
  completions_invoke_function_tool sample_config sample_registry Json.loads
    sample_dumps sample_str
    "find_docs" (Some ("{" +:+ q "query" +:+ ":" +:+ q "x" +:+ "}"))
  = Ret "results for docs"
  ∧ completions_invoke_function_tool sample_config sample_registry Json.loads
      sample_dumps sample_str
      "search" (Some ("{" +:+ q "query" +:+ ":" +:+ q "x" +:+ "}"))
    = Ret "results for x".
Proof. vm_compute. repeat split; reflexivity. Qed.



Lemma unknown_tool_is_answered_failed_witness :
  (∀ kw, invoke_function_tool sample_config sample_registry "translate" kw
         = Raise (ValueError ("No function tool registered with the name: "
                              +:+ "translate")))
  ∧ ∀ (function_args : option string) (decoded : pyval),
      decode_args Json.loads function_args = Ret decoded →
      completions_invoke_function_tool sample_config sample_registry Json.loads
        sample_dumps sample_str "translate" function_args = Ret "Failed"
      ∧ assistants_invoke_function_tool sample_config sample_registry Json.loads
          sample_dumps sample_str "translate" function_args "call_1"
        = Ret {| output := "Failed"; tool_call_id := "call_1" |}.
Proof.
  apply (unknown_tool_is_answered_failed sample_registry Json.loads
           sample_dumps sample_str {| functions := Some [find_docs] |} [find_docs]
           "translate" "call_1");
    [reflexivity | reflexivity | reflexivity].
Defined.

(** C5, as stated, fails: [translate] is neither configured nor
    registered, the dispatcher raises, and the caller of the wrapper gets
    the answer ["Failed"] instead of the error. *)
Lemma unknown_tool_error_is_swallowed :
  invoke_function_tool sample_config sample_registry "translate" ∅
  = Raise (ValueError "No function tool registered with the name: translate")
  ∧ completions_invoke_function_tool sample_config sample_registry Json.loads
      sample_dumps sample_str "translate" (Some "{}") = Ret "Failed"
  ∧ assistants_invoke_function_tool sample_config sample_registry Json.loads
      sample_dumps sample_str "translate" (Some "{}") "call_1"
    = Ret {| output := "Failed"; tool_call_id := "call_1" |}.
Proof. vm_compute. repeat split; reflexivity. Qed.

End DispatchProps.

(** ** The multi-agent fan-out *)

Module MultiAgentProps.
Import MultiAgent.

Definition tuple_plus_float : exn :=
  TypeError "unsupported operand type(s) for +: 'float' and 'tuple'".

(** Three agents: the workers alpha and beta, and the interpreter. *)
Definition alpha : Assistant := {| a_id := "asst_a"; a_name := "alpha" |}.
Definition beta : Assistant := {| a_id := "asst_b"; a_name := "beta" |}.
Definition interpreter : Assistant := {| a_id := "asst_i"; a_name := "interpreter" |}.

Definition three_agents : Processor :=
  {| assistants := ["alpha"; "beta"; "interpreter"]; linked_threads := None;
     thread_id := None; created := 0; ticks := 0 |}.

(** A service on which every message is accepted, every run starts, the
    run of beta times out and the others complete. *)
Definition send_accepts (prompt thread : string) (timeout : Q) : outcome unit := Ret tt.

Definition run_starts (assistant thread : string) : outcome string :=
  Ret ("run_" +:+ assistant).

Definition beta_times_out (thread run : string) (timeout : Q) : outcome string :=
  if String.eqb run "run_asst_b"
  then Raise (TimeoutError "Run did not complete within the specified timeout period")
  else Ret "completed".

Definition thread_names (n : nat) : string :=
  match n with
  | O => "thread_0"
  | S O => "thread_1"
  | _ => "thread_2"
  end.

Definition answers (thread : string) : outcome (list Message) :=
  Ret [ {| assistant_id := if String.eqb thread "thread_0" then "asst_a"
                           else if String.eqb thread "thread_1" then "asst_b"
                           else "asst_i";
           created_at := Some 100; run_id := None;
           content := [TextContent "4" "Text(value='4')"] |} ].

Definition tick_clock (n : nat) : Q := inject_Z (Z.of_nat n).

Section Remote.
Variable known_assistants : list Assistant.
Variable send_message : string -> string -> Q -> outcome unit.
Variable run_assistant : string -> string -> outcome string.
Variable await_run_complete_or_fail : string -> string -> Q -> outcome string.
Variable list_messages : string -> outcome (list Message).
Variable new_thread_id : nat -> string.
Variable clock : nat -> Q.
Variable thread_clock : string -> nat -> Q.
Variable lower : string -> string.
Variable Response : Type.
Variable messages_to_response : list Message -> outcome (list Response).

(** A call that is handed the pair raises before its [try] block. *)
Lemma pair_as_timeout_raises (prompt assistant thread : string) (t : Q)
    (metadata : option (gmap string string)) :
  process_prompt_in_thread send_message run_assistant await_run_complete_or_fail
    list_messages thread_clock prompt assistant thread (Pair t metadata)
  = Raise tuple_plus_float.
Proof. reflexivity. Qed.

(** Every call that the fan-out submits raises. *)
Lemma submitted_calls_raise (prompt : string) (timeout start_time : Q)
    (workers : list string) :
  ∀ s s' futs,
    submit_workers known_assistants send_message run_assistant
      await_run_complete_or_fail list_messages new_thread_id clock thread_clock
      lower prompt timeout start_time workers s = (s', Ret futs) →
    length futs = length workers
    ∧ Forall (fun fut => fut = Raise tuple_plus_float) futs.
Proof.
  induction workers as [|w ws IH]; intros s s' futs Hsub; simpl in Hsub.
  - injection Hsub as _ <-. by split.
  - destruct (lookup_assistant known_assistants lower w) as [a|e]; [|done].
    destruct (match match linked_threads s with
                    | Some lt => lt !! a_id a
                    | None => None
                    end with
              | Some t => _
              | None => _
              end) as [thread s1].
    destruct (submit_workers _ _ _ _ _ _ _ _ _ _ _ _ ws _) as [s3 [rest|e]] eqn:Hrest;
      [|done].
    injection Hsub as _ <-. apply IH in Hrest as [Hlen Hall].
    split; [simpl; by rewrite Hlen|]. by constructor.
Qed.

Lemma collect_raises (futs : list (future)) :
  futs ≠ [] →
  Forall (fun fut => fut = Raise tuple_plus_float) futs →
  collect futs = Raise tuple_plus_float.
Proof.
  destruct futs as [|f fs]; [done|]. intros _ Hall.
  apply Forall_cons in Hall as [-> _]. done.
Qed.

(** With a worker to fan out to, the orchestration never returns a
    result: it raises (the [TypeError] of the submitted calls, unless an
    agent is unknown). *)
Lemma fan_out_never_returns (prompt : string) (timeout : Q) (s : Processor) :
  (2 ≤ length (assistants s))%nat →
  ∃ e, (orchestrate_prompt_with_assistants known_assistants send_message
          run_assistant await_run_complete_or_fail list_messages new_thread_id
          clock thread_clock lower Response messages_to_response
          prompt timeout s).2 = Raise e.
Proof.
  intros Hlen. unfold orchestrate_prompt_with_assistants. simpl.
  destruct (last (assistants s)) as [interp|] eqn:Hlast; [|by eexists].
  destruct (lookup_assistant known_assistants lower interp) as [ia|e]; [|by eexists].
  destruct (submit_workers _ _ _ _ _ _ _ _ _ _ _ _ _ _) as [s2 [futs|e]] eqn:Hsub;
    [|by eexists].
  apply submitted_calls_raise in Hsub as [Hn Hall]. simpl in Hn.
  rewrite collect_raises; [by eexists| |done].
  intros ->. simpl in Hn.
  apply last_Some in Hlast as [ws Hws]. rewrite Hws in Hn, Hlen.
  rewrite removelast_last in Hn. rewrite length_app in Hlen. simpl in Hlen. lia.
Qed.
End Remote.

(** C3, on its scenario: three agents configured, the run of worker beta
    times out and the run of worker alpha completes.  The orchestration
    raises the [TypeError] of the first submitted call and returns neither
    counts nor messages; called with a number of seconds, as the
    interpreter's call is, the same workers give a failure for beta and a
    success with its answer for alpha. *)
Theorem fan_out_with_a_timed_out_worker_raises :
  (orchestrate_prompt_with_assistants [alpha; beta; interpreter] send_accepts run_starts
     beta_times_out answers thread_names tick_clock (fun _ => tick_clock) id
     Message (fun ms => Ret ms) "What is 2+2?" 90 three_agents).2
  = Raise tuple_plus_float
  ∧ process_prompt_in_thread send_accepts run_starts beta_times_out answers
      (fun _ => tick_clock) "What is 2+2?" "asst_b" "thread_1" (Seconds 90)
    = Ret (false, None)
  ∧ ∃ ms, process_prompt_in_thread send_accepts run_starts beta_times_out answers
            (fun _ => tick_clock) "What is 2+2?" "asst_a" "thread_0" (Seconds 90)
          = Ret (true, Some ms) ∧ length ms = 1%nat.
Proof.
  split_and!; [by vm_compute | by vm_compute |].
  eexists. split; [by vm_compute | done].
Qed.

End MultiAgentProps.

(** * Further properties of the code *)

(** ** The data-source delta format of [data/chunk_data.py] *)

Module DataSourceProps.
Import Json Chunk ChunkProps.

(** The content that a message carries for the content channel (a delta
    without role) and for the tool channel (role ["tool"]). *)
Definition content_piece (msg : DataSourceMsg) : option string :=
  match ds_delta msg with
  | Some delta =>
      match ds_role delta with
      | None => ds_content delta
      | Some _ => None
      end
  | None => None
  end.

Definition tool_piece (msg : DataSourceMsg) : option string :=
  match ds_delta msg with
  | Some delta =>
      match ds_role delta with
      | Some r => if String.eqb r "tool" then ds_content delta else None
      | None => None
      end
  | None => None
  end.

Definition has_content (delta : DataSourceDelta) : bool :=
  match ds_content delta with Some _ => true | None => false end.

(** A message that the loop takes to its end, where [end_turn] is read:
    one with a delta that is either from the assistant, or carries content
    for the content or the tool channel. *)
Definition reaches_end_turn (msg : DataSourceMsg) : bool :=
  match ds_delta msg with
  | None => false
  | Some delta =>
      match ds_role delta with
      | None => has_content delta
      | Some r =>
          if String.eqb r "tool" then has_content delta
          else String.eqb r "assistant"
      end
  end.

(** A message whose delta declares a role that the loop does not know. *)
Definition unexpected_role (msg : DataSourceMsg) : bool :=
  match ds_delta msg with
  | Some delta =>
      match ds_role delta with
      | Some r => negb (String.eqb r "tool") && negb (String.eqb r "assistant")
      | None => false
      end
  | None => false
  end.

Definition nonempty {A : Type} (l : list A) : bool :=
  match l with [] => false | _ :: _ => true end.

(** The markers of the messages taken to the end of the loop, in order. *)
Definition markers (msgs : list DataSourceMsg) : list bool :=
  ds_end_turn <$> filter (fun m => reaches_end_turn m = true) msgs.

Lemma markers_cons (msg : DataSourceMsg) (msgs : list DataSourceMsg) :
  markers (msg :: msgs)
  = if reaches_end_turn msg then ds_end_turn msg :: markers msgs else markers msgs.
Proof.
  unfold markers. rewrite filter_cons.
  destruct (reaches_end_turn msg); [by rewrite decide_True | by rewrite decide_False].
Qed.

Lemma default_last_cons (e m : bool) (l : list bool) :
  default e (last (m :: l)) = default m (last l).
Proof. rewrite last_cons. by destruct (last l). Qed.

Lemma add_data_source_loop_spec (msgs : list DataSourceMsg) :
  ∀ cd cd' e a e' a',
    add_data_source_loop cd e a msgs = (cd', Ret (e', a')) →
    content cd' = joined (content cd) (omap content_piece msgs)
    ∧ accumulated_delta cd' = joined (accumulated_delta cd) (omap content_piece msgs)
    ∧ tool_content cd' = joined (tool_content cd) (omap tool_piece msgs)
    ∧ role cd' = role cd ∧ tool_calls cd' = tool_calls cd
    ∧ last_stream_publish cd' = last_stream_publish cd
    ∧ a' = a || nonempty (omap content_piece msgs)
    ∧ e' = default e (last (markers msgs)).
Proof.
  induction msgs as [|msg msgs IH]; intros cd cd' e a e' a' Hrun; simpl in Hrun.
  - injection Hrun as <- <- <-. rewrite orb_false_r. by repeat split.
  - rewrite markers_cons.
    destruct msg as [[[[r|] [c|]]|] marker]; simpl in Hrun;
      cbn [omap list_omap content_piece tool_piece reaches_end_turn has_content
           ds_delta ds_role ds_content ds_end_turn];
      try by apply IH.
    + destruct (String.eqb r "tool").
      * apply IH in Hrun as (? & ? & Ht & ? & ? & ? & ? & He). simpl in Ht.
        rewrite default_last_cons, <- joined_cons. by split_and!.
      * destruct (String.eqb r "assistant"); [|done].
        apply IH in Hrun as (? & ? & ? & ? & ? & ? & ? & He).
        rewrite default_last_cons. by split_and!.
    + destruct (String.eqb r "tool"); [by apply IH|].
      destruct (String.eqb r "assistant"); [|done].
      apply IH in Hrun as (? & ? & ? & ? & ? & ? & ? & He).
      rewrite default_last_cons. by split_and!.
    + apply IH in Hrun as (Hc & Hacc & ? & ? & ? & ? & Ha & He).
      simpl in Hc, Hacc.
      rewrite default_last_cons, <- !joined_cons, Ha, orb_true_r. by split_and!.
Qed.

(** X1.  A batch that is processed without an error appends to the content
    and to the pending buffer the content of its role-less messages, in
    order, and to the tool channel the content of its tool messages;
    assistant messages add nothing; role, tool calls and publish time are
    untouched; the second flag says whether any content arrived. *)
Theorem data_source_batch_accumulates_by_channel
    (cd cd' : ChunkData) (msgs : list DataSourceMsg) (end_turn accumulated : bool) :
  add_data_source_delta cd msgs = (cd', Ret (end_turn, accumulated)) →
  content cd' = joined (content cd) (omap content_piece msgs)
  ∧ accumulated_delta cd' = joined (accumulated_delta cd) (omap content_piece msgs)
  ∧ tool_content cd' = joined (tool_content cd) (omap tool_piece msgs)
  ∧ role cd' = role cd ∧ tool_calls cd' = tool_calls cd
  ∧ last_stream_publish cd' = last_stream_publish cd
  ∧ accumulated = nonempty (omap content_piece msgs).
Proof.
  intros Hrun. apply add_data_source_loop_spec in Hrun.
  destruct Hrun as (? & ? & ? & ? & ? & ? & ? & _). by split_and!.
Qed.

(** X2.  The end-of-turn flag of a batch is the marker of the last message
    that the loop took to its end; the marker of a message that was
    skipped (no delta, or a content or tool delta without content) is
    never read, and a batch of skipped messages only gives [False]. *)
Theorem data_source_end_turn_is_last_taken_marker
    (cd cd' : ChunkData) (msgs : list DataSourceMsg) (end_turn accumulated : bool) :
  add_data_source_delta cd msgs = (cd', Ret (end_turn, accumulated)) →
  end_turn = default false (last (markers msgs)).
Proof.
  intros Hrun. apply add_data_source_loop_spec in Hrun.
  by destruct Hrun as (_ & _ & _ & _ & _ & _ & _ & ?).
Qed.

Lemma add_data_source_loop_app (pre post : list DataSourceMsg) :
  ∀ cd cd1 e a e1 a1,
    add_data_source_loop cd e a pre = (cd1, Ret (e1, a1)) →
    add_data_source_loop cd e a (pre ++ post) = add_data_source_loop cd1 e1 a1 post.
Proof.
  induction pre as [|msg pre IH]; intros cd cd1 e a e1 a1 Hpre; simpl in *.
  - by injection Hpre as <- <- <-.
  - destruct (ds_delta msg) as [delta|]; [|by apply IH].
    destruct (ds_role delta) as [r|].
    + destruct (String.eqb r "tool").
      * destruct (ds_content delta); by apply IH.
      * destruct (String.eqb r "assistant"); [by apply IH | done].
    + destruct (ds_content delta); by apply IH.
Qed.

Lemma add_data_source_loop_returns (msgs : list DataSourceMsg) :
  Forall (fun m => unexpected_role m = false) msgs →
  ∀ cd e a, ∃ cd' e' a', add_data_source_loop cd e a msgs = (cd', Ret (e', a')).
Proof.
  induction 1 as [|msg msgs Hok _ IH]; intros cd e a; simpl; [by eauto|].
  unfold unexpected_role in Hok.
  destruct (ds_delta msg) as [delta|]; [|by apply IH].
  destruct (ds_role delta) as [r|].
  - destruct (String.eqb r "tool"); simpl in Hok.
    + destruct (ds_content delta); by apply IH.
    + destruct (String.eqb r "assistant"); [by apply IH | done].
  - destruct (ds_content delta); by apply IH.
Qed.

(** X3.  A batch fails exactly at its first message whose delta declares a
    role other than ["tool"] and ["assistant"]: the error is the
    [AttributeError] of reading [msg.role] on a [dict], the messages
    before it have been accumulated, and those after it are not read. *)
Theorem data_source_unexpected_role_raises
    (cd : ChunkData) (pre post : list DataSourceMsg) (msg : DataSourceMsg) :
  Forall (fun m => unexpected_role m = false) pre →
  unexpected_role msg = true →
  ∃ end_turn accumulated,
    add_data_source_delta cd pre
    = ((add_data_source_delta cd pre).1, Ret (end_turn, accumulated))
    ∧ add_data_source_delta cd (pre ++ msg :: post)
      = ((add_data_source_delta cd pre).1,
         Raise (AttributeError "'dict' object has no attribute 'role'")).
Proof.
  intros Hpre Hbad. unfold add_data_source_delta.
  destruct (add_data_source_loop_returns pre Hpre cd false false) as (cd1 & e1 & a1 & Hrun).
  exists e1, a1. rewrite Hrun. simpl. split; [done|].
  rewrite (add_data_source_loop_app _ _ _ _ _ _ _ _ Hrun). simpl.
  unfold unexpected_role in Hbad.
  destruct (ds_delta msg) as [delta|]; [|done].
  destruct (ds_role delta) as [r|]; [|done].
  destruct (String.eqb r "tool"); [done|].
  by destruct (String.eqb r "assistant").
Qed.

(** A batch for the examples: a piece on the tool channel, content, a
    message without delta that carries the marker, more content, and a
    word from the assistant. *)
Definition mixed_batch : list DataSourceMsg :=
  [ {| ds_delta := Some {| ds_role := Some "tool"; ds_content := Some "{}" |};
       ds_end_turn := false |};
    {| ds_delta := Some {| ds_role := None; ds_content := Some "Hel" |};
       ds_end_turn := false |};
    {| ds_delta := None; ds_end_turn := true |};
    {| ds_delta := Some {| ds_role := None; ds_content := Some "lo" |};
       ds_end_turn := false |};
    {| ds_delta := Some {| ds_role := Some "assistant"; ds_content := Some "ignored" |};
       ds_end_turn := false |} ].

Definition function_role_msg : DataSourceMsg :=
  {| ds_delta := Some {| ds_role := Some "function"; ds_content := Some "x" |};
     ds_end_turn := true |}.

Lemma data_source_batch_accumulates_by_channel_witness :
  let cd' := (add_data_source_delta new_chunk mixed_batch).1 in
  content cd' = Some "Hello"
  ∧ accumulated_delta cd' = Some "Hello"
  ∧ tool_content cd' = Some "{}"
  ∧ role cd' = None ∧ tool_calls cd' = None
  ∧ last_stream_publish cd' = 0%Q
  ∧ true = nonempty (omap content_piece mixed_batch).
Proof.
  exact (data_source_batch_accumulates_by_channel new_chunk
           (add_data_source_delta new_chunk mixed_batch).1 mixed_batch false true eq_refl).
Defined.

Lemma data_source_end_turn_is_last_taken_marker_witness :
  false = default false (last (markers mixed_batch)).
Proof.
  exact (data_source_end_turn_is_last_taken_marker new_chunk
           (add_data_source_delta new_chunk mixed_batch).1 mixed_batch false true eq_refl).
Defined.

Lemma data_source_unexpected_role_raises_witness :
  ∃ end_turn accumulated,
    add_data_source_delta new_chunk mixed_batch
    = ((add_data_source_delta new_chunk mixed_batch).1, Ret (end_turn, accumulated))
    ∧ add_data_source_delta new_chunk (mixed_batch ++ function_role_msg :: mixed_batch)
      = ((add_data_source_delta new_chunk mixed_batch).1,
         Raise (AttributeError "'dict' object has no attribute 'role'")).
Proof.
  apply (data_source_unexpected_role_raises new_chunk mixed_batch mixed_batch
           function_role_msg); [repeat constructor | reflexivity].
Defined.

End DataSourceProps.

(** ** More on the accumulator of [add_chunk_delta] *)

Module ToolCallProps.
Import Json Chunk ChunkProps.

(** The indexes seen so far, in order of first arrival. *)
Definition note_index (seen : list Z) (i : Z) : list Z :=
  if bool_decide (i ∈ seen) then seen else seen ++ [i].

Definition first_seen (indexes : list Z) : list Z := foldl note_index [] indexes.

Lemma find_tool_call_none (i : Z) (tcs : list ChunkToolCallData) :
  i ∉ map index tcs → find_tool_call i tcs = None.
Proof.
  intros Hnot. pose proof (find_tool_call_spec i tcs) as Hspec.
  destruct (find_tool_call i tcs) as [k|]; [|done].
  destruct Hspec as (tc & Hlook & Hidx & _). exfalso. apply Hnot.
  apply list_elem_of_fmap. exists tc. split; [done|].
  by eapply list_elem_of_lookup_2.
Qed.

(** X4.  The first fragment of an index must declare the type
    ["function"]: any other fragment for a new index is refused with
    [ValueError], after an empty accumulator (index 0, nothing set) has
    been appended for it, which stays in the list. *)
Theorem first_fragment_must_declare_a_function
    (tcs : list ChunkToolCallData) (f : ChoiceDeltaToolCall) :
  dt_index f ∉ map index tcs →
  is_function (dt_type f) = false →
  merge_tool_call tcs f
  = (tcs ++ [new_tool_call],
     Raise (ValueError ("Unknown tool call type: " +:+ str_opt (dt_type f)))).
Proof.
  intros Hnew Htype. unfold merge_tool_call.
  rewrite (find_tool_call_none _ _ Hnew).
  rewrite lookup_app_r, Nat.sub_diag by lia. simpl. by rewrite Htype.
Qed.

Lemma first_fragment_must_declare_a_function_witness :
  merge_tool_call []
    {| dt_index := 3; dt_id := Some "call_a";
       dt_function := Some {| fn_arguments := Some "{}"; fn_name := Some "search" |};
       dt_type := None |}
  = ([] ++ [new_tool_call], Raise (ValueError ("Unknown tool call type: " +:+ "None"))).
Proof.
  apply (first_fragment_must_declare_a_function []
           {| dt_index := 3; dt_id := Some "call_a";
              dt_function := Some {| fn_arguments := Some "{}"; fn_name := Some "search" |};
              dt_type := None |});
    [apply not_elem_of_nil | reflexivity].
Defined.

Lemma merge_tool_call_indexes (tcs tcs1 : list ChunkToolCallData) (f : ChoiceDeltaToolCall) :
  merge_tool_call tcs f = (tcs1, Ret tt) →
  map index tcs1 = note_index (map index tcs) (dt_index f).
Proof.
  unfold merge_tool_call, note_index.
  pose proof (find_tool_call_spec (dt_index f) tcs) as Hfind.
  destruct (find_tool_call (dt_index f) tcs) as [k|].
  - destruct Hfind as (tc & Hlook & Hidx & Hat). rewrite Hlook.
    destruct (is_function (tc_type tc) || is_function (dt_type f)); [|done].
    destruct (dt_function f) as [fn|]; [|done].
    intros [= <-]. rewrite bool_decide_true.
    + rewrite list_fmap_insert. simpl. rewrite list_insert_id; [done|].
      by rewrite list_lookup_fmap, Hlook, <- Hidx.
    + apply list_elem_of_fmap. exists tc. split; [done|].
      by eapply list_elem_of_lookup_2.
  - destruct Hfind as [_ Hnot].
    rewrite lookup_app_r, Nat.sub_diag by lia. simpl.
    destruct (is_function (dt_type f)); [|done].
    destruct (dt_function f) as [fn|]; [|done].
    intros [= <-]. rewrite bool_decide_false by done.
    rewrite insert_app_r_alt, Nat.sub_diag by lia. simpl.
    by rewrite fmap_app.
Qed.

Lemma merge_tool_calls_indexes (frs : list ChoiceDeltaToolCall) :
  ∀ tcs tcs', merge_tool_calls tcs frs = (tcs', Ret tt) →
    map index tcs' = foldl note_index (map index tcs) (map dt_index frs).
Proof.
  induction frs as [|f frs IH]; intros tcs tcs' Hrun; simpl in Hrun.
  - by injection Hrun as <-.
  - destruct (merge_tool_call tcs f) as [tcs1 [[]|e]] eqn:Hstep; [|done].
    apply merge_tool_call_indexes in Hstep. apply IH in Hrun.
    simpl. by rewrite <- Hstep.
Qed.

(** X5.  The accumulators stand in the list in the order in which their
    indexes first arrived, whatever the indexes are: the list is not sorted
    by index, and a later fragment of a known index does not move its
    accumulator. *)
Theorem accumulators_keep_first_arrival_order
    (deltas : list ChoiceDelta) (cd' : ChunkData) :
  add_chunk_deltas new_chunk deltas = (cd', Ret tt) →
  map index (default [] (tool_calls cd')) = first_seen (map dt_index (fragments deltas)).
Proof.
  intros Hrun. apply add_chunk_deltas_tool_calls in Hrun.
  by apply merge_tool_calls_indexes in Hrun.
Qed.

(** Index 1 arrives before index 0, then both again. *)
Definition out_of_order_deltas : list ChoiceDelta :=
  [ tool_delta 1 (Some "call_b") (Some "function") (Some "get_item") (Some "{");
    tool_delta 0 (Some "call_a") (Some "function") (Some "search") (Some "{");
    tool_delta 1 None None None (Some "}");
    tool_delta 0 None None None (Some "}") ].

Lemma accumulators_keep_first_arrival_order_witness :
  map index (default [] (tool_calls (add_chunk_deltas new_chunk out_of_order_deltas).1))
  = [1; 0].
Proof.
  exact (accumulators_keep_first_arrival_order out_of_order_deltas
           (add_chunk_deltas new_chunk out_of_order_deltas).1 eq_refl).
Defined.

Lemma add_chunk_delta_frame (cd : ChunkData) (d : ChoiceDelta) :
  role (add_chunk_delta cd d).1
  = match d_role d with Some r => Some r | None => role cd end
  ∧ tool_content (add_chunk_delta cd d).1 = tool_content cd
  ∧ last_stream_publish (add_chunk_delta cd d).1 = last_stream_publish cd.
Proof.
  unfold add_chunk_delta. destruct (d_tool_calls d) as [dts|]; [|done].
  by destruct (merge_tool_calls _ dts).
Qed.

(** Deltas feed the pending-publish buffer with the same pieces as
    the content, set the role to the last one that a delta declared (a
    delta without role keeps it), and never touch the tool channel or the
    time of the last publish. *)
Theorem deltas_feed_buffer_and_set_role
    (deltas : list ChoiceDelta) (cd cd' : ChunkData) :
  add_chunk_deltas cd deltas = (cd', Ret tt) →
  accumulated_delta cd' = joined (accumulated_delta cd) (omap d_content deltas)
  ∧ role cd' = latest (role cd) (omap d_role deltas)
  ∧ tool_content cd' = tool_content cd
  ∧ last_stream_publish cd' = last_stream_publish cd.
Proof.
  revert cd cd'. induction deltas as [|d ds IH]; intros cd cd' Hrun; simpl in Hrun.
  - by injection Hrun as <-.
  - pose proof (add_chunk_delta_accumulated cd d) as Hacc.
    pose proof (add_chunk_delta_frame cd d) as (Hrole & Htool & Hpub).
    destruct (add_chunk_delta cd d) as [cd1 [[]|e]]; [|done].
    apply IH in Hrun as (-> & -> & -> & ->). simpl in *.
    rewrite Hacc, Hrole, Htool, Hpub. split_and!; [|  |done|done].
    + destruct (d_content d); [by rewrite joined_cons | done].
    + destruct (d_role d); [by rewrite latest_cons | done].
Qed.

Lemma deltas_feed_buffer_and_set_role_witness :
  let cd' := (add_chunk_deltas new_chunk hello_deltas).1 in
  accumulated_delta cd' = Some "Hello"
  ∧ role cd' = Some "assistant"
  ∧ tool_content cd' = None
  ∧ last_stream_publish cd' = 0%Q.
Proof.
  exact (deltas_feed_buffer_and_set_role hello_deltas new_chunk
           (add_chunk_deltas new_chunk hello_deltas).1 eq_refl).
Defined.

End ToolCallProps.

(** ** More on publishing, loading and compacting in
       [proxy/completions_proxy.py] *)

Module FlowProps.
Import Json Chunk Completions ChunkProps CompletionsProps.

(** The summary message made of a choice, and the summaries of a list of
    choices as they are stamped, one clock reading each. *)
Definition summary_of (choice : Choice) : Message :=
  summary_message choice (default "" (ch_content choice)).

Fixpoint stamped_summaries (clock : nat -> Q) (start : nat) (choices : list Choice)
  : list Message :=
  match choices with
  | [] => []
  | choice :: rest =>
      restamp (clock start) (summary_of choice) :: stamped_summaries clock (S start) rest
  end.

Definition has_text (choice : Choice) : Prop := is_Some (ch_content choice).

(** Whether the first message of a history is a system message. *)
Definition starts_with_system (ms : list Message) : Prop :=
  ∃ m rest, ms = m :: rest ∧ m !! "role" = Some (PStr "system").

Section Flow.
Variable clock : nat -> Q.
Variable retrieve_thread : string -> option (list Message).
Variable create_summary : list Message -> outcome (list Choice).

Lemma publish_through (force_publish : bool) (publish_frequency : Q) (p : Proxy) :
  publish_due clock force_publish publish_frequency p = true →
  let p' := (publish_interim_result clock force_publish publish_frequency p).1 in
  accumulated_delta (stream_chunk p') = None
  ∧ content (stream_chunk p') = content (stream_chunk p)
  ∧ stream_id p' = stream_id p
  ∧ ticks p' = S (S (message_reading force_publish p)).
Proof.
  unfold publish_due, publish_interim_result, message_reading.
  destruct p as [sid cd sp mh h ob n].
  destruct force_publish; simpl;
    unfold bindM, time, read, ret, modify, push_update_to_stream, bindM; simpl.
  - destruct (accumulated_delta cd) as [text|]; [|done].
    destruct (0 <? String.length text)%nat; [|done].
    intros _. by destruct sid.
  - destruct (Qle_bool _ _); [done|]. simpl.
    destruct (accumulated_delta cd) as [text|]; [|done].
    destruct (0 <? String.length text)%nat; [|done].
    intros _. by destruct sid.
Qed.

Lemma length_append (a b : string) :
  String.length (a +:+ b) = (String.length a + String.length b)%nat.
Proof.
  induction a as [|x a IH]; [reflexivity|].
  rewrite append_cons. simpl. by rewrite IH.
Qed.

Lemma forced_publish_sends_buffer (p : Proxy) (sid text : string) (frequency : Q) :
  stream_id p = Some sid →
  accumulated_delta (stream_chunk p) = Some text →
  text ≠ "" →
  outbox (publish_interim_result clock true frequency p).1
  = outbox p ++ [(sid, {| sm_content := Delta text; message_type := INTERIM_RESULT;
                          timestamp := (clock (ticks p) * 1000)%Q |})].
Proof.
  intros Hsid Hacc Htext. destruct p as [sid' cd sp mh h ob n]. simpl in *. subst sid'.
  unfold publish_interim_result, bindM, time, read, ret, modify, push_update_to_stream,
    bindM. simpl. rewrite Hacc.
  destruct text as [|x text]; [done|]. done.
Qed.

(** X6.  After a publish that went through, the pending buffer holds
    exactly what the deltas that followed carried, and the next forced
    publish sends exactly that text, once: nothing that was published is
    sent again, and nothing that arrived since is left out. *)
Theorem next_publish_sends_what_arrived_since
    (force_publish : bool) (frequency : Q) (p : Proxy) (sid : string)
    (deltas : list ChoiceDelta) (cd' : ChunkData) :
  publish_due clock force_publish frequency p = true →
  stream_id p = Some sid →
  add_chunk_deltas (stream_chunk (publish_interim_result clock force_publish frequency p).1)
    deltas = (cd', Ret tt) →
  concat_all (omap d_content deltas) ≠ "" →
  let p1 := (publish_interim_result clock force_publish frequency p).1 in
  accumulated_delta cd' = Some (concat_all (omap d_content deltas))
  ∧ content cd' = joined (content (stream_chunk p)) (omap d_content deltas)
  ∧ outbox (publish_interim_result clock true frequency (set_stream_chunk cd' p1)).1
    = outbox p1
      ++ [(sid, {| sm_content := Delta (concat_all (omap d_content deltas));
                   message_type := INTERIM_RESULT;
                   timestamp := (clock (ticks p1) * 1000)%Q |})].
Proof.
  intros Hdue Hsid Hrun Htext p1.
  destruct (publish_through _ _ _ Hdue) as (Hclear & Hcontent & Hstream & _).
  fold p1 in Hclear, Hcontent, Hstream, Hrun.
  pose proof (add_chunk_deltas_content _ _ _ Hrun) as Hc.
  assert (accumulated_delta cd' = joined (accumulated_delta (stream_chunk p1))
                                    (omap d_content deltas)) as Hacc.
  { clear -Hrun. revert Hrun. generalize (stream_chunk p1). revert cd'.
    induction deltas as [|d ds IH]; intros cd' cd Hrun; simpl in Hrun.
    - by injection Hrun as <-.
    - pose proof (add_chunk_delta_accumulated cd d) as Hacc.
      destruct (add_chunk_delta cd d) as [cd1 [[]|e]]; [|done].
      rewrite (IH _ _ Hrun). simpl in Hacc. rewrite Hacc. simpl.
      destruct (d_content d); [by rewrite joined_cons | done]. }
  rewrite Hclear in Hacc. rewrite Hcontent in Hc.
  assert (accumulated_delta cd' = Some (concat_all (omap d_content deltas))) as Hbuf.
  { rewrite Hacc. destruct (omap d_content deltas) as [|x l]; [done|]. done. }
  split_and!; [done|done|].
  rewrite (forced_publish_sends_buffer (set_stream_chunk cd' p1) sid
             (concat_all (omap d_content deltas)) frequency);
    [done | simpl; by rewrite Hstream | done | done].
Qed.

Lemma add_summaries_spec (choices : list Choice) :
  Forall has_text choices →
  ∀ p l, history p = Some l →
    ∃ p', add_summaries clock choices p = (p', Ret tt)
          ∧ history p' = Some (l ++ stamped_summaries clock (ticks p) choices)
          ∧ ticks p' = (ticks p + length choices)%nat
          ∧ same_settings p p'.
Proof.
  induction 1 as [|choice choices [text Htext] _ IH]; intros p l Hl; simpl.
  - exists p. rewrite app_nil_r, Nat.add_0_r. by split_and!.
  - rewrite Htext.
    destruct (add_message_to_thread_spec clock
                (summary_message choice text) p l Hl) as (p1 & E1 & H1 & T1 & S1).
    unfold summary_message in E1.
    rewrite (bindM_run _ _ _ _ _ E1).
    destruct (IH p1 _ H1) as (p2 & E2 & H2 & T2 & S2).
    exists p2. split; [done|]. rewrite H2, T2, T1, <- app_assoc.
    unfold summary_of. rewrite Htext. simpl.
    split_and!; [done | lia | by eapply same_settings_trans].
Qed.

(** The steps of [__summarise_thread] up to the call of the model. *)
Lemma summarise_thread_request (p : Proxy) (ms : list Message)
    (second_last most_recent : Message) :
  history p = Some (ms ++ [second_last; most_recent]) →
  ∃ p4, history p4 = Some (ms ++ [restamp (clock (S (ticks p))) summary_request])
        ∧ ticks p4 = S (S (ticks p)) ∧ same_settings p p4
        ∧ summarise_thread clock create_summary p
            = bindM (fun q => (q, create_summary (map (delete "ts") ms ++ [summary_request])))
                (fun choices =>
                   bindM (read get_system_prompt) (fun sp =>
                   bindM (modify (set_history (Some []))) (fun _ =>
                   bindM (add_message_to_thread clock
                            {[ "content" := PStr sp; "role" := PStr "system" ]}) (fun _ =>
                   bindM (add_summaries clock choices) (fun _ =>
                   bindM (add_message_to_thread clock second_last) (fun _ =>
                   add_message_to_thread clock most_recent)))))) p4.
Proof.
  intros Hhist. unfold summarise_thread.
  destruct (push_update_to_stream_spec clock
              (Text "I'm just summarising the conversation so far") PROGRESS_UPDATE p)
    as (p1 & E1 & H1 & T1 & S1).
  rewrite Hhist in H1.
  change (ms ++ [second_last; most_recent])
    with (ms ++ [second_last] ++ [most_recent]) in H1.
  rewrite app_assoc in H1.
  destruct (pop_message_spec _ _ _ H1) as (p2 & E2 & H2 & T2 & S2).
  destruct (pop_message_spec _ _ _ H2) as (p3 & E3 & H3 & T3 & S3).
  destruct (add_message_to_thread_spec clock summary_request _ _ H3)
    as (p4 & E4 & H4 & T4 & S4).
  exists p4. rewrite H4, T4, T3, T2, T1. split_and!; [done|done| |].
  { eapply same_settings_trans; [|done]. eapply same_settings_trans; [|done].
    by eapply same_settings_trans. }
  rewrite (bindM_run _ _ _ _ _ E1), (bindM_run _ _ _ _ _ E2),
    (bindM_run _ _ _ _ _ E3), (bindM_run _ _ _ _ _ E4).
  rewrite (bindM_run _ _ _ _ _ (messages_of_history_spec _ _ H4)).
  rewrite map_app. simpl. rewrite T3, T2, T1. by rewrite unstamp_summary_request.
Qed.

(** The first steps of [send_message]: the prompt joins the session. *)
Lemma prompt_joins_session (p : Proxy) (prompt thread_id : string) (ms : list Message) :
  session_messages retrieve_thread thread_id p = Some ms →
  ∃ p2, history p2 = Some (ms ++ [restamp (clock (S (ticks p))) (user_message prompt)])
        ∧ ticks p2 = S (S (ticks p)) ∧ same_settings p p2
        ∧ send_message_prepare clock retrieve_thread create_summary prompt thread_id p
          = (if max_history p <=? Z.of_nat (length ms + 1)
             then summarise_thread clock create_summary else ret tt) p2.
Proof.
  intros Hsession. unfold send_message_prepare.
  destruct (push_update_to_stream_spec clock
              (Text "Recalling our conversation so far") PROGRESS_UPDATE p)
    as (p1 & E1 & H1 & T1 & S1).
  assert (session_messages retrieve_thread thread_id p1 = Some ms) as H1'
    by (unfold session_messages in *; by rewrite H1).
  destruct (add_user_prompt_to_thread_spec clock retrieve_thread prompt "user"
              thread_id _ _ H1') as (p2 & E2 & H2 & T2 & S2).
  exists p2. rewrite H2, T2, T1. split_and!.
  - done.
  - done.
  - by eapply same_settings_trans.
  - rewrite (bindM_run _ _ _ _ _ E1), (bindM_run _ _ _ _ _ E2).
    rewrite (bindM_run _ _ _ _ _ (messages_of_history_spec _ _ H2)).
    unfold read at 1. unfold bindM at 1.
    destruct S1 as [M1 _], S2 as [M2 _]. by rewrite M2, M1, length_app.
Qed.

Lemma restamp_twice (t t' : Q) (m : Message) :
  restamp t' (restamp t m) = restamp t' m.
Proof. unfold restamp. by rewrite insert_insert_eq. Qed.

Lemma get_system_prompt_same (p p' : Proxy) :
  same_settings p p' → get_system_prompt p' = get_system_prompt p.
Proof. intros [_ H]. unfold get_system_prompt. by rewrite H. Qed.

(** [__summarise_thread] when the model answers: one summary per choice. *)
Lemma summarise_thread_choices (p : Proxy) (ms : list Message)
    (second_last most_recent : Message) (choices : list Choice) :
  history p = Some (ms ++ [second_last; most_recent]) →
  create_summary (map (delete "ts") ms ++ [summary_request]) = Ret choices →
  Forall has_text choices →
  ∃ p', summarise_thread clock create_summary p = (p', Ret tt)
        ∧ history p'
          = Some (restamp (clock (ticks p + 2)%nat) (system_prompt_message p)
                  :: stamped_summaries clock (ticks p + 3)%nat choices
                  ++ [ restamp (clock (ticks p + 3 + length choices)%nat) second_last;
                       restamp (clock (ticks p + 4 + length choices)%nat) most_recent ]).
Proof.
  intros Hhist Hsum Htexts.
  destruct (summarise_thread_request p ms second_last most_recent Hhist)
    as (p4 & H4 & T4 & S4 & ->).
  erewrite bindM_run; [|by rewrite Hsum].
  unfold read at 1. unfold bindM at 1. unfold modify at 1. unfold bindM at 1.
  set (p5 := set_history (Some []) p4).
  assert (history p5 = Some []) as H5 by done.
  assert (ticks p5 = ticks p4) as T5 by done.
  destruct (add_message_to_thread_spec clock
              {[ "content" := PStr (get_system_prompt p4); "role" := PStr "system" ]}
              _ _ H5) as (p6 & E6 & H6 & T6 & S6).
  rewrite (bindM_run _ _ _ _ _ E6).
  destruct (add_summaries_spec choices Htexts p6 _ H6) as (p7 & E7 & H7 & T7 & S7).
  rewrite (bindM_run _ _ _ _ _ E7).
  destruct (add_message_to_thread_spec clock second_last _ _ H7)
    as (p8 & E8 & H8 & T8 & S8).
  rewrite (bindM_run _ _ _ _ _ E8).
  destruct (add_message_to_thread_spec clock most_recent _ _ H8)
    as (p9 & E9 & H9 & T9 & S9).
  exists p9. split; [done|]. rewrite H9, T8, T7, T6, T5, T4.
  rewrite (get_system_prompt_same _ _ S4). simpl. rewrite <- app_assoc. simpl.
  replace (ticks p + 2)%nat with (S (S (ticks p))) by lia.
  replace (ticks p + 3)%nat with (S (S (S (ticks p)))) by lia.
  replace (ticks p + 4 + length choices)%nat
    with (S (S (S (S (ticks p))) + length choices)) by lia.
  done.
Qed.

(** X7.  Compaction puts one summary message in the history for every
    choice of the model's answer, none when the answer has no choice: the
    history is left as the system prompt, the summaries in order, the
    message that preceded the prompt and the prompt. *)
Theorem compaction_keeps_one_summary_per_choice
    (p : Proxy) (prompt thread_id : string) (ms : list Message) (previous : Message)
    (choices : list Choice) :
  session_messages retrieve_thread thread_id p = Some (ms ++ [previous]) →
  max_history p ≤ Z.of_nat (length ms + 2) →
  create_summary (map (delete "ts") ms ++ [summary_request]) = Ret choices →
  Forall has_text choices →
  let n := ticks p in
  let k := length choices in
  let result := send_message_prepare clock retrieve_thread create_summary
                  prompt thread_id p in
  result.2 = Ret tt
  ∧ history result.1
    = Some (restamp (clock (n + 4)%nat) (system_prompt_message p)
            :: stamped_summaries clock (n + 5)%nat choices
            ++ [ restamp (clock (n + 5 + k)%nat) previous;
                 restamp (clock (n + 6 + k)%nat) (user_message prompt) ]).
Proof.
  intros Hsession Hmax Hsum Htexts n k result. subst result.
  destruct (prompt_joins_session p prompt thread_id _ Hsession)
    as (p2 & H2 & T2 & S2 & ->).
  rewrite length_app. simpl.
  replace (max_history p <=? Z.of_nat (length ms + 1 + 1)) with true
    by (symmetry; apply Z.leb_le; lia).
  rewrite <- app_assoc in H2. simpl in H2.
  destruct (summarise_thread_choices _ _ _ _ _ H2 Hsum Htexts) as (p3 & -> & H3).
  simpl. split; [done|]. rewrite H3, T2. subst n k.
  rewrite restamp_twice.
  assert (system_prompt_message p2 = system_prompt_message p) as ->
    by (unfold system_prompt_message; by rewrite (get_system_prompt_same _ _ S2)).
  replace (S (S (ticks p)) + 2)%nat with (ticks p + 4)%nat by lia.
  replace (S (S (ticks p)) + 3)%nat with (ticks p + 5)%nat by lia.
  replace (S (S (ticks p)) + 4 + length choices)%nat
    with (ticks p + 6 + length choices)%nat by lia.
  done.
Qed.

(** X8.  Compaction is not atomic.  When the call that asks the model for
    the summary raises, the error leaves [send_message], and the history is
    left without its last two messages, the prompt among them, and with
    the summary request in their place. *)
Theorem failed_summary_loses_the_last_two
    (p : Proxy) (prompt thread_id : string) (ms : list Message) (previous : Message)
    (e : exn) :
  session_messages retrieve_thread thread_id p = Some (ms ++ [previous]) →
  max_history p ≤ Z.of_nat (length ms + 2) →
  create_summary (map (delete "ts") ms ++ [summary_request]) = Raise e →
  let result := send_message_prepare clock retrieve_thread create_summary
                  prompt thread_id p in
  result.2 = Raise e
  ∧ history result.1 = Some (ms ++ [restamp (clock (ticks p + 3)%nat) summary_request]).
Proof.
  intros Hsession Hmax Hsum result. subst result.
  destruct (prompt_joins_session p prompt thread_id _ Hsession)
    as (p2 & H2 & T2 & S2 & ->).
  rewrite length_app. simpl.
  replace (max_history p <=? Z.of_nat (length ms + 1 + 1)) with true
    by (symmetry; apply Z.leb_le; lia).
  rewrite <- app_assoc in H2. simpl in H2.
  destruct (summarise_thread_request _ _ _ _ H2) as (p4 & H4 & T4 & S4 & ->).
  unfold bindM at 1. rewrite Hsum. simpl. split; [done|].
  rewrite H4, T2. by replace (ticks p + 3)%nat with (S (S (S (ticks p)))) by lia.
Qed.

(** The first turn of a conversation: with no history in hand and
    none stored under the thread id, the history becomes the system prompt
    followed by the user's prompt (no compaction below the threshold). *)
Theorem first_turn_starts_with_the_system_prompt
    (p : Proxy) (prompt thread_id : string) :
  history p = None →
  thread_id ≠ "" →
  retrieve_thread thread_id = None →
  2 < max_history p →
  let result := send_message_prepare clock retrieve_thread create_summary
                  prompt thread_id p in
  result.2 = Ret tt
  ∧ history result.1
    = Some [ restamp (clock (ticks p + 1)%nat) (system_prompt_message p);
             restamp (clock (ticks p + 2)%nat) (user_message prompt) ].
Proof.
  intros Hnone Hid Hstored Hmax. destruct p as [sid cd sp mh h ob n].
  simpl in *. subst h.
  unfold send_message_prepare, add_user_prompt_to_thread, init_history,
    push_update_to_stream, messages_of_history, bindM, time, read, ret, modify, raise.
  simpl.
  destruct (String.eqb_spec thread_id "") as [|_]; [done|].
  assert ((mh <=? Z.of_nat 2) = false) as Hle by (apply Z.leb_gt; lia).
  replace (n + 1)%nat with (S n) by lia.
  replace (n + 2)%nat with (S (S n)) by lia.
  destruct sid as [s|]; simpl; rewrite Hstored; simpl; rewrite Hle; done.
Qed.

Lemma add_summaries_grows (choices : list Choice) :
  ∀ p p' l, add_summaries clock choices p = (p', Ret tt) →
            history p = Some l →
            ∃ l', history p' = Some (l ++ l').
Proof.
  induction choices as [|choice choices IH]; intros p p' l Hrun Hl; simpl in Hrun.
  - injection Hrun as <-. exists []. by rewrite app_nil_r.
  - destruct (ch_content choice) as [text|]; [|done].
    destruct (add_message_to_thread_spec clock
                {[ "content" := PStr ("Here is a summary of the conversation up to this point: " +:+ text);
                   "role" := PStr (ch_role choice) ]} p l Hl) as (p1 & E1 & H1 & _).
    rewrite (bindM_run _ _ _ _ _ E1) in Hrun.
    destruct (IH _ _ _ Hrun H1) as (l' & Hl'). rewrite <- app_assoc in Hl'. eauto.
Qed.

(** X9.  Index 0 stays a system message.  When the session starts with
    a system message and the preparation of the turn succeeds, with or
    without compaction and whatever the model answered to the summary
    request, the history again starts with a system message. *)
Theorem history_keeps_its_system_head
    (p p' : Proxy) (prompt thread_id : string) (ms : list Message) :
  session_messages retrieve_thread thread_id p = Some ms →
  starts_with_system ms →
  send_message_prepare clock retrieve_thread create_summary prompt thread_id p
  = (p', Ret tt) →
  ∃ ms', history p' = Some ms' ∧ starts_with_system ms'.
Proof.
  intros Hsession (m & rest & -> & Hrole).
  destruct (prompt_joins_session p prompt thread_id _ Hsession)
    as (p2 & H2 & T2 & S2 & ->).
  destruct (max_history p <=? _).
  - assert (∃ ms0 second_last, m :: rest = ms0 ++ [second_last]) as (ms0 & sl & Hsplit).
    { destruct (last (m :: rest)) as [x|] eqn:Hlast.
      - apply last_Some in Hlast as [l' ->]. eauto.
      - by apply last_None in Hlast. }
    rewrite Hsplit, <- app_assoc in H2. simpl in H2.
    destruct (summarise_thread_request _ _ _ _ H2) as (p4 & H4 & T4 & S4 & ->).
    unfold bindM at 1.
    destruct (create_summary _) as [choices|e]; [|done].
    unfold read at 1. unfold bindM at 1. unfold modify at 1. unfold bindM at 1.
    set (p5 := set_history (Some []) p4).
    assert (history p5 = Some []) as H5 by done.
    destruct (add_message_to_thread_spec clock
                {[ "content" := PStr (get_system_prompt p4); "role" := PStr "system" ]}
                _ _ H5) as (p6 & E6 & H6 & _).
    rewrite (bindM_run _ _ _ _ _ E6). unfold bindM at 1.
    destruct (add_summaries clock choices p6) as [p7 [[]|e]] eqn:E7; [|done].
    destruct (add_summaries_grows _ _ _ _ E7 H6) as (l7 & H7).
    destruct (add_message_to_thread_spec clock sl _ _ H7) as (p8 & E8 & H8 & _).
    rewrite (bindM_run _ _ _ _ _ E8).
    destruct (add_message_to_thread_spec clock
                (restamp (clock (S (ticks p))) (user_message prompt)) _ _ H8)
      as (p9 & E9 & H9 & _).
    rewrite E9. intros [= <-]. rewrite H9. eexists. split; [done|].
    simpl. eexists _, _. split; [done|].
    unfold restamp. by rewrite lookup_insert_ne.
  - intros [= <-]. rewrite H2. eexists. split; [done|]. simpl. by eexists _, _.
Qed.

End Flow.

(** A streamed answer in progress: "Hel" has arrived and waits in the
    buffer. *)
Definition buffered_proxy : Proxy :=
  {| stream_id := Some "stream-1";
     stream_chunk := {| content := Some "Hel"; role := Some "assistant";
                        tool_calls := None; accumulated_delta := Some "Hel";
                        last_stream_publish := 0%Q; tool_content := None |};
     system_prompt := None; max_history := 20;
     history := Some [system_message]; outbox := []; ticks := 5 |}.

Lemma next_publish_sends_what_arrived_since_witness :
  let p1 := (publish_interim_result seconds_clock true default_publish_frequency
               buffered_proxy).1 in
  let cd' := (add_chunk_deltas (stream_chunk p1) [content_delta "lo"]).1 in
  accumulated_delta cd' = Some (concat_all (omap d_content [content_delta "lo"]))
  ∧ content cd'
    = joined (content (stream_chunk buffered_proxy)) (omap d_content [content_delta "lo"])
  ∧ outbox (publish_interim_result seconds_clock true default_publish_frequency
              (set_stream_chunk cd' p1)).1
    = outbox p1
      ++ [("stream-1", {| sm_content := Delta (concat_all (omap d_content [content_delta "lo"]));
                          message_type := INTERIM_RESULT;
                          timestamp := (seconds_clock (ticks p1) * 1000)%Q |})].
Proof.
  apply (next_publish_sends_what_arrived_since seconds_clock true default_publish_frequency
           buffered_proxy "stream-1" [content_delta "lo"]);
    [reflexivity | reflexivity | reflexivity | by vm_compute].
Defined.

Definition second_summary : Choice :=
  {| ch_content := Some "Nothing else was said."; ch_role := "assistant" |}.

Lemma compaction_keeps_one_summary_per_choice_witness :
  let result := send_message_prepare seconds_clock (fun _ => None)
                  (fun _ => Ret [one_summary; second_summary]) "What is 2+2?" "t1"
                  long_proxy in
  result.2 = Ret tt
  ∧ history result.1
    = Some (restamp (seconds_clock 7) (system_prompt_message long_proxy)
            :: stamped_summaries seconds_clock 8 [one_summary; second_summary]
            ++ [ restamp (seconds_clock 10) greeting_reply;
                 restamp (seconds_clock 11) (user_message "What is 2+2?") ]).
Proof.
  apply (compaction_keeps_one_summary_per_choice seconds_clock (fun _ => None)
           (fun _ => Ret [one_summary; second_summary]) long_proxy "What is 2+2?" "t1"
           [system_message; greeting] greeting_reply [one_summary; second_summary]);
    [reflexivity | simpl; lia | reflexivity | repeat constructor; by eexists].
Defined.

Lemma failed_summary_loses_the_last_two_witness :
  let result := send_message_prepare seconds_clock (fun _ => None)
                  (fun _ => Raise (TimeoutError "Request timed out.")) "What is 2+2?" "t1"
                  long_proxy in
  result.2 = Raise (TimeoutError "Request timed out.")
  ∧ history result.1
    = Some ([system_message; greeting] ++ [restamp (seconds_clock 6) summary_request]).
Proof.
  apply (failed_summary_loses_the_last_two seconds_clock (fun _ => None)
           (fun _ => Raise (TimeoutError "Request timed out.")) long_proxy
           "What is 2+2?" "t1" [system_message; greeting] greeting_reply);
    [reflexivity | simpl; lia | reflexivity].
Defined.

Definition new_proxy : Proxy :=
  {| stream_id := None; stream_chunk := new_chunk; system_prompt := None;
     max_history := 20; history := None; outbox := []; ticks := 0 |}.

Lemma first_turn_starts_with_the_system_prompt_witness :
  let result := send_message_prepare seconds_clock (fun _ => None)
                  (fun _ => Ret [one_summary]) "What is 2+2?" "t1" new_proxy in
  result.2 = Ret tt
  ∧ history result.1
    = Some [ restamp (seconds_clock 1) (system_prompt_message new_proxy);
             restamp (seconds_clock 2) (user_message "What is 2+2?") ].
Proof.
  apply (first_turn_starts_with_the_system_prompt seconds_clock (fun _ => None)
           (fun _ => Ret [one_summary]) new_proxy "What is 2+2?" "t1");
    [reflexivity | done | reflexivity | simpl; lia].
Defined.

Lemma history_keeps_its_system_head_witness :
  ∃ ms', history (send_message_prepare seconds_clock (fun _ => None)
                    (fun _ => Ret [one_summary]) "What is 2+2?" "t1" long_proxy).1
         = Some ms'
         ∧ starts_with_system ms'.
Proof.
  apply (history_keeps_its_system_head seconds_clock (fun _ => None)
           (fun _ => Ret [one_summary]) long_proxy
           (send_message_prepare seconds_clock (fun _ => None)
              (fun _ => Ret [one_summary]) "What is 2+2?" "t1" long_proxy).1
           "What is 2+2?" "t1" [system_message; greeting; greeting_reply]);
    [reflexivity | by eexists _, _ | by vm_compute].
Defined.

End FlowProps.

(** ** More on tool dispatch *)

Module DispatchMore.
Import Json Dispatch DispatchProps.

(** The keyword arguments of a decoded object are its members, the last
    binding of a repeated key winning. *)
Lemma list_to_map_rev_lookup (members : list (string * pyval)) (k : string) :
  (list_to_map (rev members) : kwargs) !! k = dict_get k members.
Proof.
  induction members as [|[k' v] members IH]; [done|].
  simpl. rewrite list_to_map_app, lookup_union, IH. simpl.
  destruct (String.eqb_spec k' k) as [->|Hne].
  - rewrite lookup_insert_eq. by destruct (dict_get k members).
  - rewrite lookup_insert_ne, lookup_empty by done. by destruct (dict_get k members).
Qed.

(** Whether a decoded argument value can be passed as keyword arguments:
    an object none of whose members is named [self] or [function_name]. *)
Definition passable (decoded : pyval) : bool :=
  match decoded with
  | PDict members =>
      negb (bool_decide (is_Some (dict_get "self" members))
            || bool_decide (is_Some (dict_get "function_name" members)))
  | _ => false
  end.

Lemma unpack_passable (decoded : pyval) :
  if passable decoded
  then ∃ members, decoded = PDict members
                  ∧ unpack decoded = Ret (list_to_map (rev members))
  else ∃ e, unpack decoded = Raise e.
Proof.
  destruct decoded as [| | | | | |members]; simpl; try by eexists.
  rewrite !list_to_map_rev_lookup.
  destruct (bool_decide _ || bool_decide _); simpl; by eauto.
Qed.

Section Proxy.
Variable registry : gmap string tool.
Variable json_loads : string -> option pyval.
Variable json_dumps : pyval -> string.
Variable py_str : pyval -> string.

(** What the wrappers make of the outcome of a call. *)
Definition answer (result : outcome pyval) : string :=
  match result with
  | Ret v => normalise json_dumps py_str v
  | Raise _ => "Failed"
  end.

Lemma completions_invoke_decoded (config : option ChatConfig) (fname : string)
    (function_args : option string) (decoded : pyval) :
  decode_args json_loads function_args = Ret decoded →
  completions_invoke_function_tool config registry json_loads json_dumps py_str
    fname function_args
  = Ret (guarded_call config registry json_dumps py_str fname decoded).
Proof. intros Hdec. unfold completions_invoke_function_tool. by rewrite Hdec. Qed.

Lemma assistants_invoke_decoded (config : option ChatConfig) (fname call_id : string)
    (function_args : option string) (decoded : pyval) :
  decode_args json_loads function_args = Ret decoded →
  assistants_invoke_function_tool config registry json_loads json_dumps py_str
    fname function_args call_id
  = Ret {| output := guarded_call config registry json_dumps py_str fname decoded;
           tool_call_id := call_id |}.
Proof. intros Hdec. unfold assistants_invoke_function_tool. by rewrite Hdec. Qed.

Lemma guarded_call_unpacked (config : option ChatConfig) (fname : string)
    (decoded : pyval) (kw : kwargs) :
  unpack decoded = Ret kw →
  guarded_call config registry json_dumps py_str fname decoded
  = answer (invoke_function_tool config registry fname kw).
Proof.
  intros Hun. unfold guarded_call. rewrite Hun. simpl.
  by destruct (invoke_function_tool _ _ _ _).
Qed.

Lemma guarded_call_refused (config : option ChatConfig) (fname : string)
    (decoded : pyval) (e : exn) :
  unpack decoded = Raise e →
  guarded_call config registry json_dumps py_str fname decoded = "Failed".
Proof. intros Hun. unfold guarded_call. by rewrite Hun. Qed.

Lemma unpack_members (members : list (string * pyval)) :
  passable (PDict members) = true →
  unpack (PDict members) = Ret (list_to_map (rev members)).
Proof.
  intros Hpass. pose proof (unpack_passable (PDict members)) as Hun.
  rewrite Hpass in Hun. by destruct Hun as (members' & [= <-] & ->).
Qed.

(** X10.  A configured tool.  When the per-conversation list has an entry
    with the caller-visible name, the wrapper calls the registered function
    that the entry names with the caller's arguments overlaid by the
    entry's fixed ones (a fixed argument wins over a caller's of the same
    name), and answers its normalised result, or ["Failed"] when it
    raised. *)
Theorem configured_tool_is_called_with_fixed_arguments
    (c : ChatConfig) (fs : list ChatFunctionConfig) (entry : ChatFunctionConfig)
    (fixed : kwargs) (f : tool) (fname : string) (function_args : option string)
    (members : list (string * pyval)) :
  functions c = Some fs →
  first_named fname fs = Found entry →
  args entry = Some fixed →
  registry !! function entry = Some f →
  decode_args json_loads function_args = Ret (PDict members) →
  passable (PDict members) = true →
  completions_invoke_function_tool (Some c) registry json_loads json_dumps py_str
    fname function_args
  = Ret (answer (f (fixed ∪ list_to_map (rev members))))
  ∧ ∀ k, (fixed ∪ (list_to_map (rev members) : kwargs)) !! k
         = match fixed !! k with
           | Some v => Some v
           | None => dict_get k members
           end.
Proof.
  intros Hfs Hfound Hargs Hreg Hdec Hpass. split.
  - rewrite (completions_invoke_decoded _ _ _ _ Hdec).
    rewrite (guarded_call_unpacked _ _ _ _ (unpack_members _ Hpass)).
    unfold invoke_function_tool, get_function_config, registry_getitem.
    by rewrite Hfs, Hfound, Hargs, Hreg.
  - intros k. rewrite lookup_union, list_to_map_rev_lookup.
    by destruct (fixed !! k), (dict_get k members).
Qed.

(** A built-in tool under a function list.  When the list has no
    entry of that name and the name is registered, the wrapper calls the
    registered function with exactly the caller's arguments. *)
Theorem registered_tool_is_called_with_the_callers_arguments
    (c : ChatConfig) (fs : list ChatFunctionConfig) (f : tool) (fname : string)
    (function_args : option string) (members : list (string * pyval)) :
  functions c = Some fs →
  first_named fname fs = PyNone →
  registry !! fname = Some f →
  decode_args json_loads function_args = Ret (PDict members) →
  passable (PDict members) = true →
  completions_invoke_function_tool (Some c) registry json_loads json_dumps py_str
    fname function_args
  = Ret (answer (f (list_to_map (rev members)))).
Proof.
  intros Hfs Hnone Hreg Hdec Hpass.
  rewrite (completions_invoke_decoded _ _ _ _ Hdec).
  rewrite (guarded_call_unpacked _ _ _ _ (unpack_members _ Hpass)).
  unfold invoke_function_tool, get_function_config, registry_contains, registry_getitem.
  rewrite Hfs, Hnone, Hreg. by rewrite bool_decide_true by eauto.
Qed.

(** X11.  An entry without fixed arguments can never be called.  [args]
    defaults to [None], and [kwargs.update(None)] raises: whatever the
    registry holds and whatever the caller passes, the answer is
    ["Failed"]. *)
Theorem entry_without_fixed_arguments_always_fails
    (c : ChatConfig) (fs : list ChatFunctionConfig) (entry : ChatFunctionConfig)
    (fname : string) (function_args : option string) (decoded : pyval) :
  functions c = Some fs →
  first_named fname fs = Found entry →
  args entry = None →
  decode_args json_loads function_args = Ret decoded →
  (∀ kw, invoke_function_tool (Some c) registry fname kw
         = Raise (TypeError "'NoneType' object is not iterable"))
  ∧ completions_invoke_function_tool (Some c) registry json_loads json_dumps py_str
      fname function_args = Ret "Failed".
Proof.
  intros Hfs Hfound Hargs Hdec.
  assert (∀ kw, invoke_function_tool (Some c) registry fname kw
                = Raise (TypeError "'NoneType' object is not iterable")) as Hinv.
  { intros kw. unfold invoke_function_tool, get_function_config.
    by rewrite Hfs, Hfound, Hargs. }
  split; [done|].
  rewrite (completions_invoke_decoded _ _ _ _ Hdec). f_equal.
  destruct (unpack decoded) as [kw|e] eqn:Hun.
  - by rewrite (guarded_call_unpacked _ _ _ _ Hun), Hinv.
  - by rewrite (guarded_call_refused _ _ _ _ Hun).
Qed.

(** X12.  Arguments that cannot be passed.  When the argument text decodes
    to something other than an object, or to an object with a member
    named [self] or [function_name], both wrappers answer ["Failed"]
    whatever the configuration and the registry are: no tool is called. *)
Theorem unpassable_arguments_are_answered_failed
    (config : option ChatConfig) (fname call_id : string)
    (function_args : option string) (decoded : pyval) :
  decode_args json_loads function_args = Ret decoded →
  passable decoded = false →
  completions_invoke_function_tool config registry json_loads json_dumps py_str
    fname function_args = Ret "Failed"
  ∧ assistants_invoke_function_tool config registry json_loads json_dumps py_str
      fname function_args call_id
    = Ret {| output := "Failed"; tool_call_id := call_id |}.
Proof.
  intros Hdec Hpass.
  pose proof (unpack_passable decoded) as Hun. rewrite Hpass in Hun.
  destruct Hun as [e He].
  rewrite (completions_invoke_decoded _ _ _ _ Hdec).
  rewrite (assistants_invoke_decoded _ _ _ _ _ Hdec).
  by rewrite (guarded_call_refused _ _ _ _ He).
Qed.

End Proxy.

(** A tool that raises. *)
Definition broken_tool : tool := fun _ => Raise (ToolError "search index unavailable").

Definition broken_registry : gmap string tool := {[ "search" := broken_tool ]}.

Definition query_x : string := "{" +:+ q "query" +:+ ":" +:+ q "x" +:+ "}".

Lemma configured_tool_is_called_with_fixed_arguments_witness :
  completions_invoke_function_tool sample_config sample_registry Json.loads
    sample_dumps sample_str "find_docs" (Some query_x)
  = Ret (answer sample_dumps sample_str
           (search_tool ({[ "query" := PStr "docs" ]}
                         ∪ list_to_map (rev [("query", PStr "x")]))))
  ∧ ∀ k, (({[ "query" := PStr "docs" ]} : kwargs)
          ∪ (list_to_map (rev [("query", PStr "x")]) : kwargs)) !! k
         = match ({[ "query" := PStr "docs" ]} : kwargs) !! k with
           | Some v => Some v
           | None => dict_get k [("query", PStr "x")]
           end.
Proof.
  apply (configured_tool_is_called_with_fixed_arguments sample_registry Json.loads
           sample_dumps sample_str {| functions := Some [find_docs] |} [find_docs]
           find_docs {[ "query" := PStr "docs" ]} search_tool "find_docs"
           (Some query_x) [("query", PStr "x")]);
    reflexivity.
Defined.

Lemma registered_tool_is_called_with_the_callers_arguments_witness :
  completions_invoke_function_tool sample_config broken_registry Json.loads
    sample_dumps sample_str "search" (Some query_x)
  = Ret (answer sample_dumps sample_str
           (broken_tool (list_to_map (rev [("query", PStr "x")])))).
Proof.
  apply (registered_tool_is_called_with_the_callers_arguments broken_registry Json.loads
           sample_dumps sample_str {| functions := Some [find_docs] |} [find_docs]
           broken_tool "search" (Some query_x) [("query", PStr "x")]);
    reflexivity.
Defined.

(** An entry as [ChatConfig.load] builds it from a configuration that gives
    no ["args"]. *)
Definition bare_entry : ChatFunctionConfig :=
  {| name := "find_docs"; function := "search"; description := "Search the documents";
     args := None |}.

Lemma entry_without_fixed_arguments_always_fails_witness :
  (∀ kw, invoke_function_tool (Some {| functions := Some [bare_entry] |})
           sample_registry "find_docs" kw
         = Raise (TypeError "'NoneType' object is not iterable"))
  ∧ completions_invoke_function_tool (Some {| functions := Some [bare_entry] |})
      sample_registry Json.loads sample_dumps sample_str "find_docs" (Some query_x)
    = Ret "Failed".
Proof.
  apply (entry_without_fixed_arguments_always_fails sample_registry Json.loads
           sample_dumps sample_str {| functions := Some [bare_entry] |} [bare_entry]
           bare_entry "find_docs" (Some query_x) (PDict [("query", PStr "x")]));
    reflexivity.
Defined.

Lemma unpassable_arguments_are_answered_failed_witness :
  completions_invoke_function_tool sample_config sample_registry Json.loads
    sample_dumps sample_str "search" (Some "[1, 2]") = Ret "Failed"
  ∧ assistants_invoke_function_tool sample_config sample_registry Json.loads
      sample_dumps sample_str "search" (Some "[1, 2]") "call_1"
    = Ret {| output := "Failed"; tool_call_id := "call_1" |}.
Proof.
  apply (unpassable_arguments_are_answered_failed sample_registry Json.loads
           sample_dumps sample_str sample_config "search" "call_1" (Some "[1, 2]")
           (PList [PInt 1; PInt 2]));
    reflexivity.
Defined.

End DispatchMore.

(** ** More on the multi-agent processor *)

Module MultiAgentMore.
Import MultiAgent MultiAgentProps.

Definition none_not_iterable : exn := TypeError "'NoneType' object is not iterable".

Section Remote.
Variable known_assistants : list Assistant.
Variable send_message : string -> string -> Q -> outcome unit.
Variable run_assistant : string -> string -> outcome string.
Variable await_run_complete_or_fail : string -> string -> Q -> outcome string.
Variable list_messages : string -> outcome (list Message).
Variable new_thread_id : nat -> string.
Variable clock : nat -> Q.
Variable thread_clock : string -> nat -> Q.
Variable lower : string -> string.
Variable Response : Type.
Variable messages_to_response : list Message -> outcome (list Response).

Abbreviation in_thread :=
  (process_prompt_in_thread send_message run_assistant await_run_complete_or_fail
     list_messages thread_clock).

(** What a worker call can return.  Whenever a call with a number
    of seconds returns, it has sent the prompt and started a run, and
    either the run was reported completed and the call returns success
    with the listed messages that are not older than the call and belong
    to this run or to none, or the wait timed out or ended in another
    status and it returns failure with no message list.  Success never
    comes without a list, failure never with one. *)
Theorem worker_returns_success_with_messages_or_failure_without
    (prompt assistant thread : string) (t : Q) (ok : bool)
    (messages : option (list Message)) :
  in_thread prompt assistant thread (Seconds t) = Ret (ok, messages) →
  let start_time := thread_clock thread 0%nat in
  ∃ rid, send_message prompt thread (start_time + t - thread_clock thread 1%nat)%Q
         = Ret tt
    ∧ run_assistant assistant thread = Ret rid
    ∧ let waited := await_run_complete_or_fail thread rid
                      (start_time + t - thread_clock thread 2%nat)%Q in
      (ok = true
       ∧ waited = Ret "completed"
       ∧ ∃ listed, list_messages thread = Ret listed
           ∧ messages = Some (filter (fun m => keep_message start_time rid m = true) listed))
      ∨ (ok = false ∧ messages = None
         ∧ ((∃ text, waited = Raise (TimeoutError text))
            ∨ ∃ status, waited = Ret status ∧ status ≠ "completed")).
Proof.
  intros Hrun. unfold process_prompt_in_thread in Hrun. cbv zeta.
  destruct (send_message _ _ _) as [[]|e]; [|by destruct e].
  destruct (run_assistant _ _) as [rid|e]; [|by destruct e].
  exists rid. split_and!; [done..|].
  destruct (await_run_complete_or_fail _ _ _) as [status|e] eqn:Hwait.
  - destruct (String.eqb_spec status "completed") as [->|Hne].
    + destruct (list_messages thread) as [listed|e]; [|done].
      injection Hrun as <- <-. left. split_and!; [done..|]. by exists listed.
    + injection Hrun as <- <-. right. split_and!; [done..|]. right. by exists status.
  - destruct e; try done. injection Hrun as <- <-. right.
    split_and!; [done..|]. left. by eexists.
Qed.

(** X13.  A time-out before the run exists.  When sending the prompt, or
    starting the run, times out, the handler of [TimeoutError] formats
    [run_id], which was never bound: the call raises [UnboundLocalError]
    instead of returning a failure. *)
Theorem timeout_before_the_run_exists_raises
    (prompt assistant thread text : string) (t : Q) :
  send_message prompt thread
    (thread_clock thread 0%nat + t - thread_clock thread 1%nat)%Q
    = Raise (TimeoutError text)
  ∨ (send_message prompt thread
       (thread_clock thread 0%nat + t - thread_clock thread 1%nat)%Q = Ret tt
     ∧ run_assistant assistant thread = Raise (TimeoutError text)) →
  in_thread prompt assistant thread (Seconds t) = Raise (UnboundLocalError "run_id").
Proof.
  unfold process_prompt_in_thread. intros [->|[-> ->]]; done.
Qed.

Abbreviation prompted :=
  (process_prompt known_assistants send_message run_assistant
     await_run_complete_or_fail list_messages new_thread_id clock thread_clock
     lower Response messages_to_response).

(** X14.  Only a single assistant is ever answered.  Whenever
    [process_prompt] returns a result, exactly one assistant is
    configured, its run completed, and the counts are one success and no
    failure.  With no assistant the [pop] raises, with two or more the
    fan-out raises, and a failed single run raises as well. *)
Theorem process_prompt_returns_only_for_one_completed_run
    (prompt : string) (timeout_secs : Q) (s s' : Processor)
    (responses : list Response) (success_count failure_count : Z) :
  prompted prompt timeout_secs s = (s', Ret (responses, success_count, failure_count)) →
  length (assistants s) = 1%nat
  ∧ success_count = 1 ∧ failure_count = 0
  ∧ ∃ thread, thread_id s' = Some thread
      ∧ (thread_id s = None ∨ thread_id s = Some thread).
Proof.
  intros Hrun. unfold process_prompt in Hrun.
  destruct (assistants s) as [|a1 [|a2 rest]] eqn:Has.
  - exfalso. apply (f_equal snd) in Hrun. unfold orchestrate_prompt_with_assistants in Hrun.
    simpl in Hrun. by rewrite Has in Hrun.
  - destruct (lookup_assistant known_assistants lower a1) as [a|e]; [|done].
    destruct (thread_id s) as [t0|] eqn:Hthread.
    + destruct (process_prompt_in_thread _ _ _ _ _ _ _ _ _) as [[ok ms]|e] eqn:Hin; [|done].
      destruct ms as [ms|]; [|done].
      apply worker_returns_success_with_messages_or_failure_without in Hin
        as (rid & _ & _ & [(-> & _)|(_ & [=] & _)]).
      destruct (messages_to_response ms) as [rs|e]; [|done].
      injection Hrun as <- <- <- <-. split_and!; [done..|].
      exists t0. split; [done|by right].
    + destruct (process_prompt_in_thread _ _ _ _ _ _ _ _ _) as [[ok ms]|e] eqn:Hin; [|done].
      destruct ms as [ms|]; [|done].
      apply worker_returns_success_with_messages_or_failure_without in Hin
        as (rid & _ & _ & [(-> & _)|(_ & [=] & _)]).
      destruct (messages_to_response ms) as [rs|e]; [|done].
      injection Hrun as <- <- <- <-. split_and!; [done..|].
      eexists. split; [done|by left].
  - exfalso.
    destruct (fan_out_never_returns known_assistants send_message run_assistant
                await_run_complete_or_fail list_messages new_thread_id clock
                thread_clock lower Response messages_to_response prompt timeout_secs s)
      as [e He].
    + rewrite Has. simpl. lia.
    + rewrite Hrun in He. done.
Qed.

(** X15.  A single assistant whose run fails.  With one assistant
    configured and known, when the wait for its run times out or the run
    ends in a status other than completed, [process_prompt] passes [None]
    to [__messages_to_response] and raises [TypeError]: the counts (0, 1)
    are never returned. *)
Theorem failed_single_run_raises
    (prompt assistant rid : string) (timeout_secs : Q) (s : Processor) (a : Assistant) :
  assistants s = [assistant] →
  lookup_assistant known_assistants lower assistant = Ret a →
  let thread := default (new_thread_id (created s)) (thread_id s) in
  send_message prompt thread
    (thread_clock thread 0%nat + timeout_secs - thread_clock thread 1%nat)%Q = Ret tt →
  run_assistant (a_id a) thread = Ret rid →
  let waited := await_run_complete_or_fail thread rid
                  (thread_clock thread 0%nat + timeout_secs - thread_clock thread 2%nat)%Q in
  (∃ text, waited = Raise (TimeoutError text))
  ∨ (∃ status, waited = Ret status ∧ status ≠ "completed") →
  (prompted prompt timeout_secs s).2 = Raise none_not_iterable.
Proof.
  intros Has Hlook thread Hsend Hrun waited Hwait.
  unfold process_prompt. rewrite Has, Hlook.
  assert (process_prompt_in_thread send_message run_assistant await_run_complete_or_fail
            list_messages thread_clock prompt (a_id a) thread (Seconds timeout_secs)
          = Ret (false, None)) as Hin.
  { unfold process_prompt_in_thread. rewrite Hsend, Hrun. fold waited.
    destruct Hwait as [[text ->]|(status & -> & Hne)]; [done|].
    by destruct (String.eqb_spec status "completed"). }
  subst thread. destruct (thread_id s) as [t0|]; simpl in Hin |- *; by rewrite Hin.
Qed.

End Remote.

(** One assistant, whose run times out. *)
Definition one_agent : Processor :=
  {| assistants := ["beta"]; linked_threads := None; thread_id := None;
     created := 0; ticks := 0 |}.

Definition send_times_out (prompt thread : string) (timeout : Q) : outcome unit :=
  Raise (TimeoutError "Thread is busy").

Lemma worker_returns_success_with_messages_or_failure_without_witness :
  let start_time := tick_clock 0 in
  ∃ rid, send_accepts "What is 2+2?" "thread_1" (start_time + 90 - tick_clock 1)%Q = Ret tt
    ∧ run_starts "asst_b" "thread_1" = Ret rid
    ∧ let waited := beta_times_out "thread_1" rid (start_time + 90 - tick_clock 2)%Q in
      (false = true
       ∧ waited = Ret "completed"
       ∧ ∃ listed, answers "thread_1" = Ret listed
           ∧ None = Some (filter (fun m => keep_message start_time rid m = true) listed))
      ∨ (false = false ∧ @None (list Message) = None
         ∧ ((∃ text, waited = Raise (TimeoutError text))
            ∨ ∃ status, waited = Ret status ∧ status ≠ "completed")).
Proof.
  apply (worker_returns_success_with_messages_or_failure_without send_accepts run_starts
           beta_times_out answers (fun _ => tick_clock) "What is 2+2?" "asst_b"
           "thread_1" 90 false None).
  reflexivity.
Defined.

Lemma timeout_before_the_run_exists_raises_witness :
  process_prompt_in_thread send_times_out run_starts beta_times_out answers
    (fun _ => tick_clock) "What is 2+2?" "asst_b" "thread_1" (Seconds 90)
  = Raise (UnboundLocalError "run_id").
Proof.
  apply (timeout_before_the_run_exists_raises send_times_out run_starts beta_times_out
           answers (fun _ => tick_clock) "What is 2+2?" "asst_b" "thread_1"
           "Thread is busy" 90).
  left. reflexivity.
Defined.

Definition alpha_alone : Processor :=
  {| assistants := ["alpha"]; linked_threads := None; thread_id := None;
     created := 0; ticks := 0 |}.

Definition alpha_answer : Message :=
  {| assistant_id := "asst_a"; created_at := Some 100; run_id := None;
     content := [TextContent "4" "Text(value='4')"] |}.

Lemma process_prompt_returns_only_for_one_completed_run_witness :
  length (assistants alpha_alone) = 1%nat
  ∧ 1 = 1 ∧ 0 = 0
  ∧ ∃ thread, Some "thread_0" = Some thread
      ∧ (thread_id alpha_alone = None ∨ thread_id alpha_alone = Some thread).
Proof.
  apply (process_prompt_returns_only_for_one_completed_run [alpha; beta; interpreter]
           send_accepts run_starts beta_times_out answers thread_names tick_clock
           (fun _ => tick_clock) id Message (fun ms => Ret ms) "What is 2+2?" 90
           alpha_alone
           {| assistants := ["alpha"]; linked_threads := None;
              thread_id := Some "thread_0"; created := 1; ticks := 0 |}
           [alpha_answer] 1 0).
  reflexivity.
Defined.

Lemma failed_single_run_raises_witness :
  (process_prompt [alpha; beta; interpreter] send_accepts run_starts beta_times_out
     answers thread_names tick_clock (fun _ => tick_clock) id Message
     (fun ms => Ret ms) "What is 2+2?" 90 one_agent).2
  = Raise none_not_iterable.
Proof.
  apply (failed_single_run_raises [alpha; beta; interpreter] send_accepts run_starts
           beta_times_out answers thread_names tick_clock (fun _ => tick_clock) id
           Message (fun ms => Ret ms) "What is 2+2?" "beta" "run_asst_b" 90 one_agent
           beta);
    [reflexivity | reflexivity | reflexivity | reflexivity |].
  left. by eexists.
Defined.

End MultiAgentMore.

(** ** The assistants proxy *)

Module AssistantsProps.
Import Json Dispatch MultiAgent Assistants.

Section Threads.
Variable new_thread_id : nat -> string.

(** X16.  Thread resolution.  [_determine_thread_id] never raises: it
    answers the override if there is one, else the thread linked to the
    assistant, else the conversation's thread, else a thread it creates
    and stores as the conversation's.  Asking again gives the same thread
    and changes nothing; at most one thread is created, and none when an
    override, a linked thread or a conversation thread exists. *)
Theorem thread_resolution_never_raises_and_is_stable
    (override_thread for_assistant : option string) (s : Processor) :
  let linked := match for_assistant with
                | Some a => get_linked_thread a s
                | None => None
                end in
  let known := match override_thread, linked with
               | Some t, _ | None, Some t => Some t
               | None, None => thread_id s
               end in
  let result := determine_thread_id new_thread_id override_thread for_assistant s in
  result.2 = Ret (default (new_thread_id (created s)) known)
  ∧ result.1 = match known with
               | Some _ => s
               | None => {| assistants := assistants s;
                            linked_threads := linked_threads s;
                            thread_id := Some (new_thread_id (created s));
                            created := S (created s); ticks := ticks s |}
               end
  ∧ determine_thread_id new_thread_id override_thread for_assistant result.1 = result.
Proof.
  destruct s as [workers links thread made read].
  unfold determine_thread_id, has_thread, get_linked_thread. simpl.
  destruct override_thread as [o|]; [done|].
  destruct for_assistant as [a|];
    [destruct links as [m|]; [destruct (m !! a) as [t|] eqn:Hm|]|];
    destruct thread as [t'|]; simpl; rewrite ?Hm; done.
Qed.

(** Linked threads.  After [add_linked_thread a t], the thread
    linked to [a] is [t] and the links of the other assistants are as
    before; a thread resolved for [a] without an override is [t], and no
    thread is created for it even when the conversation has none. *)
Theorem linked_thread_is_found_and_used (a t : string) (s : Processor) :
  get_linked_thread a (add_linked_thread a t s) = Some t
  ∧ (∀ b, b ≠ a → get_linked_thread b (add_linked_thread a t s) = get_linked_thread b s)
  ∧ determine_thread_id new_thread_id None (Some a) (add_linked_thread a t s)
    = (add_linked_thread a t s, Ret t).
Proof.
  assert (get_linked_thread a (add_linked_thread a t s) = Some t) as Hget.
  { unfold get_linked_thread, add_linked_thread. simpl. by rewrite lookup_insert_eq. }
  split_and!; [done| |].
  - intros b Hne. unfold get_linked_thread, add_linked_thread. simpl.
    rewrite lookup_insert_ne by done. by destruct (linked_threads s).
  - unfold determine_thread_id. by rewrite Hget.
Qed.

End Threads.

Section Listing.
Context {A : Type}.
Variable role : A -> string.

Lemma list_messages_loop_bound (count : Z) (filter_role : option string)
    (res0 : Pages A) :
  ∀ fuel messages res result,
    list_messages_loop role fuel count filter_role messages res = Some result →
    Z.of_nat (length messages) ≤ Z.max count 0 →
    Forall (fun m => has_role role filter_role m = true) messages →
    Z.of_nat (length result) ≤ Z.max count 0
    ∧ Forall (fun m => has_role role filter_role m = true) result.
Proof.
  induction fuel as [|fuel IH]; intros messages res result Hrun Hlen Hall; [done|].
  simpl in Hrun.
  destruct ((Z.of_nat (length messages) <? count) && nonempty (data res)) eqn:Hcond.
  - apply IH in Hrun; [done| |].
    + apply andb_true_iff in Hcond as [Hlt _]. apply Z.ltb_lt in Hlt.
      rewrite length_app, length_take. lia.
    + apply Forall_app. split; [done|].
      apply Forall_take, Forall_forall. intros m Hm.
      by apply list_elem_of_filter in Hm as [? _].
  - by injection Hrun as <-.
Qed.

(** What [list_messages] can return.  Whenever the loop returns,
    it returns at most [count] messages (none when [count] is not
    positive), and each of them has the role asked for. *)
Theorem list_messages_returns_at_most_count_of_the_role
    (fuel : nat) (count : Z) (filter_role : option string) (res : Pages A)
    (result : list A) :
  list_messages role fuel count filter_role res = Some result →
  Z.of_nat (length result) ≤ Z.max count 0
  ∧ Forall (fun m => has_role role filter_role m = true) result.
Proof.
  intros Hrun. apply (list_messages_loop_bound count filter_role res) in Hrun; [done| |done].
  simpl. lia.
Qed.

(** X17.  A last page without a match.  When the page in hand has no
    next page, is not empty, and holds no message of the role asked for,
    the loop of [list_messages] never ends: the page is filtered again and
    again, and no number of iterations gives a result. *)
Theorem list_messages_spins_on_a_last_page_without_match
    (count : Z) (filter_role : option string) (page : list A) :
  0 < count →
  page ≠ [] →
  Forall (fun m => has_role role filter_role m = false) page →
  ∀ fuel, list_messages role fuel count filter_role (LastPage page) = None.
Proof.
  intros Hcount Hpage Hnone.
  assert (filter (fun m => has_role role filter_role m = true) page = []) as Hfilter.
  { clear Hpage. induction Hnone as [|m page Hm _ IH]; [done|].
    rewrite filter_cons, decide_False; [done|]. by rewrite Hm. }
  unfold list_messages. induction fuel as [|fuel IH]; [done|].
  cbn [list_messages_loop length data]. change (Z.of_nat 0) with 0.
  rewrite (proj2 (Z.ltb_lt 0 count) Hcount), Hfilter, take_nil.
  destruct page as [|m page]; [done|]. exact IH.
Qed.

(** The pattern of a page repeated: position [i] holds the match number
    [i mod n] of the page. *)
Definition repeats (matches : list A) (messages : list A) : Prop :=
  ∀ i, (i < length messages)%nat →
       messages !! i = matches !! (i mod length matches)%nat.

Lemma list_messages_loop_repeats (count : nat) (filter_role : option string)
    (page : list A) :
  let matches := filter (fun m => has_role role filter_role m = true) page in
  matches ≠ [] →
  ∀ k messages,
    (count - length messages ≤ k)%nat →
    (length messages ≤ count)%nat →
    ((length messages < count)%nat → (length messages mod length matches = 0)%nat) →
    repeats matches messages →
    ∃ result,
      list_messages_loop role (S k) (Z.of_nat count) filter_role messages (LastPage page)
      = Some result
      ∧ length result = count ∧ repeats matches result.
Proof.
  intros matches Hmatches.
  assert (page ≠ []) as Hpage.
  { intros ->. by apply Hmatches. }
  assert (0 < length matches)%nat as Hn.
  { destruct matches; [done|simpl; lia]. }
  induction k as [|k IH]; intros messages Hk Hle Hmod Hrep.
  - exists messages. simpl.
    assert ((Z.of_nat (length messages) <? Z.of_nat count) = false) as ->
      by (apply Z.ltb_ge; lia).
    split_and!; [done|lia|done].
  - destruct (decide (length messages < count)%nat) as [Hlt|Hge].
    + cbn [list_messages_loop].
      assert ((Z.of_nat (length messages) <? Z.of_nat count) = true) as ->
        by (apply Z.ltb_lt; lia).
      assert (nonempty (data (LastPage page)) = true) as ->
        by by destruct page.
      cbn [andb next_page_if data]. fold matches.
      replace (Z.to_nat (Z.of_nat count - Z.of_nat (length messages)))
        with (count - length messages)%nat by lia.
      apply IH.
      * rewrite length_app, length_take. lia.
      * rewrite length_app, length_take. lia.
      * rewrite length_app, length_take. intros Hshort.
        assert (length matches `min` (count - length messages) = length matches)%nat
          as Hmin by lia.
        rewrite Nat.min_comm, Hmin.
        rewrite <- Nat.Div0.add_mod_idemp_l, (Hmod Hlt). simpl.
        by apply Nat.Div0.mod_same.
      * intros i Hi. rewrite length_app, length_take in Hi.
        destruct (decide (i < length messages)%nat) as [Hin|Hout].
        -- rewrite lookup_app_l by done. by apply Hrep.
        -- rewrite lookup_app_r by lia.
           rewrite lookup_take_lt by lia.
           f_equal.
           assert (i = length messages + (i - length messages))%nat as Hsplit by lia.
           rewrite Hsplit at 2.
           rewrite <- Nat.Div0.add_mod_idemp_l, (Hmod Hlt). simpl.
           symmetry. apply Nat.mod_small. lia.
    + exists messages. cbn [list_messages_loop].
      assert ((Z.of_nat (length messages) <? Z.of_nat count) = false) as ->
        by (apply Z.ltb_ge; lia).
      split_and!; [done|lia|done].
Qed.

(** X18.  A last page that is too short.  When the page in hand has no
    next page and holds fewer messages of the role than asked for (but at
    least one), [list_messages] still returns exactly [count] messages:
    the matches of the page over and over, the message at position [i]
    being match number [i mod n] of the page. *)
Theorem list_messages_repeats_a_short_last_page
    (count : nat) (filter_role : option string) (page : list A) :
  let matches := filter (fun m => has_role role filter_role m = true) page in
  matches ≠ [] →
  ∃ result,
    list_messages role (S count) (Z.of_nat count) filter_role (LastPage page)
    = Some result
    ∧ length result = count
    ∧ ∀ i, (i < count)%nat → result !! i = matches !! (i mod length matches)%nat.
Proof.
  intros matches Hmatches.
  destruct (list_messages_loop_repeats count filter_role page Hmatches count [])
    as (result & Hrun & Hlen & Hrep).
  - simpl. lia.
  - simpl. lia.
  - intros _. simpl. by apply Nat.Div0.mod_0_l.
  - intros i Hi. simpl in Hi. lia.
  - exists result. split_and!; [done..|].
    intros i Hi. apply Hrep. lia.
Qed.

Lemma concat_replicate_snoc (k : nat) (page : list A) :
  concat (replicate k page) ++ page = concat (replicate (S k) page).
Proof.
  induction k as [|k IH]; simpl; [by rewrite app_nil_r|].
  by rewrite <- app_assoc, IH.
Qed.

Lemma get_runs_loop_repeats (max_count : nat) (page : list A) :
  page ≠ [] →
  ∀ m j,
    (max_count - j * length page ≤ m)%nat →
    ((j - 1) * length page < max_count ∨ j = 0)%nat →
    ∃ k,
      get_runs_loop (S m) (Z.of_nat max_count) (concat (replicate j page)) (LastPage page)
      = Some (concat (replicate k page))
      ∧ (max_count ≤ k * length page)%nat
      ∧ ((k - 1) * length page < max_count ∨ k = 0)%nat.
Proof.
  intros Hpage.
  assert (0 < length page)%nat as Hn.
  { destruct page; [done|simpl; lia]. }
  assert (∀ j, length (concat (replicate j page)) = (j * length page)%nat) as Hlen.
  { induction j as [|j IHj]; [done|]. simpl. by rewrite length_app, IHj. }
  induction m as [|m IH]; intros j Hm Hprev.
  - exists j. cbn [get_runs_loop]. rewrite Hlen.
    assert ((Z.of_nat (j * length page) <? Z.of_nat max_count) = false) as ->
      by (apply Z.ltb_ge; lia).
    split_and!; [done|lia|done].
  - destruct (decide (j * length page < max_count)%nat) as [Hlt|Hge].
    + cbn [get_runs_loop]. rewrite Hlen.
      assert ((Z.of_nat (j * length page) <? Z.of_nat max_count) = true) as ->
        by (apply Z.ltb_lt; lia).
      assert (nonempty (data (LastPage page)) = true) as -> by by destruct page.
      cbn [andb next_page_if data]. rewrite concat_replicate_snoc.
      apply IH.
      * simpl. lia.
      * left. simpl. rewrite Nat.sub_0_r. done.
    + exists j. cbn [get_runs_loop]. rewrite Hlen.
      assert ((Z.of_nat (j * length page) <? Z.of_nat max_count) = false) as ->
        by (apply Z.ltb_ge; lia).
      split_and!; [done|lia|done].
Qed.

(** Runs of a short listing.  When the listing of a thread's runs
    is one page with fewer runs than [max_count], [get_runs_on_thread]
    returns the page as many times over as it takes to reach [max_count]:
    the result holds every run several times and can be longer than
    [max_count], by less than a page. *)
Theorem get_runs_on_thread_repeats_a_short_listing (max_count : nat) (page : list A) :
  page ≠ [] →
  (0 < max_count)%nat →
  ∃ k,
    get_runs_on_thread (S max_count) (Z.of_nat max_count) (LastPage page)
    = Some (concat (replicate k page))
    ∧ (max_count ≤ k * length page < max_count + length page)%nat.
Proof.
  intros Hpage Hcount.
  destruct (get_runs_loop_repeats max_count page Hpage max_count 0)
    as (k & Hrun & Hreach & Hlast).
  - simpl. lia.
  - by right.
  - exists k. split; [done|]. split; [done|].
    destruct Hlast as [Hlast| ->]; [|simpl in Hreach; lia].
    destruct k as [|k]; [simpl in Hreach; lia|].
    simpl in Hlast. rewrite Nat.sub_0_r in Hlast. simpl. lia.
Qed.

End Listing.

Section Actions.
Variable config : option ChatConfig.
Variable registry : gmap string tool.
Variable json_loads : string -> option pyval.
Variable json_dumps : pyval -> string.
Variable py_str : pyval -> string.
Variable submit_tool_outputs : string -> string -> list ToolOutput -> outcome unit.

Abbreviation handled :=
  (handle_run_actions config registry json_loads json_dumps py_str submit_tool_outputs).

(** The tool calls of type ["function"] *)
Definition function_calls (tool_calls : list RequiredToolCall) : list RequiredToolCall :=
  filter (fun c => call_type c = "function") tool_calls.

(** The output for a call whose arguments decode to [decoded]. *)
Definition output_for (c : RequiredToolCall) (decoded : pyval) : ToolOutput :=
  {| output := guarded_call config registry json_dumps py_str (call_name c) decoded;
     tool_call_id := call_id c |}.

Lemma clear_after_set (run_id : string) (p : AssistantsProxy)
    (log : list (string * string * list ToolOutput)) :
  are_run_tools_active run_id p = false →
  clear_active_tool_run run_id
    {| active_tool_runs := <[run_id := true]> (active_tool_runs p); submitted := log |}
  = {| active_tool_runs := active_tool_runs p; submitted := log |}.
Proof.
  unfold are_run_tools_active, clear_active_tool_run. intros Hfree.
  apply bool_decide_eq_false in Hfree.
  assert (active_tool_runs p !! run_id = None) as Hnone.
  { destruct (active_tool_runs p !! run_id) eqn:H; [|done]. exfalso. apply Hfree. by eexists. }
  unfold are_run_tools_active. simpl.
  rewrite bool_decide_true by (rewrite lookup_insert_eq; by eexists).
  f_equal. by rewrite delete_insert_id.
Qed.

(** X19.  The mark of an episode.  An episode of [__handle_run_actions]
    run on its own leaves [active_tool_runs] exactly as it found it,
    whatever the tools and the service do, and submits at most once: the
    accepted submissions grow by nothing, or by one entry for this run
    and thread.  A run that is already marked is left alone. *)
Theorem episode_restores_the_mark_and_submits_at_most_once
    (run : Run) (thread : string) (p : AssistantsProxy) :
  active_tool_runs (handled run thread p) = active_tool_runs p
  ∧ (submitted (handled run thread p) = submitted p
     ∨ ∃ results,
         are_run_tools_active (run_ident run) p = false
         ∧ submit_tool_outputs thread (run_ident run) results = Ret tt
         ∧ submitted (handled run thread p)
           = submitted p ++ [(thread, run_ident run, results)]).
Proof.
  unfold handle_run_actions.
  destruct (are_run_tools_active (run_ident run) p) eqn:Hactive; [by split; [|left]|].
  unfold set_active_tool_run.
  destruct (run_actions _ _ _ _ _ _ run thread) as [[results|]|e] eqn:Hbody;
    cbn [active_tool_runs submitted];
    rewrite clear_after_set by done; simpl; (split; [done|]); try by left.
  right. exists results. split_and!; [done| |done].
  unfold run_actions in Hbody.
  destruct (required_action run) as [action|]; [|done].
  destruct (String.eqb _ _); [|done].
  destruct (call_results _) as [rs|]; [|done]. simpl in Hbody.
  destruct (submit_tool_outputs thread (run_ident run) rs) as [[]|] eqn:Hsub; [|done].
  by injection Hbody as <-.
Qed.

Lemma call_results_decoded (tool_calls : list RequiredToolCall) :
  Forall (fun c => ∃ decoded, decode_args json_loads (call_arguments c) = Ret decoded)
         (function_calls tool_calls) →
  ∃ results,
    call_results (call_futures config registry json_loads json_dumps py_str tool_calls)
    = Ret results
    ∧ Forall2 (fun c r => ∃ decoded, decode_args json_loads (call_arguments c) = Ret decoded
                                     ∧ r = output_for c decoded)
              (function_calls tool_calls) results.
Proof.
  unfold function_calls.
  induction tool_calls as [|c cs IH]; intros Hall; [by exists []|].
  simpl. rewrite filter_cons in Hall |- *.
  destruct (String.eqb_spec (call_type c) "function") as [Hfun|Hother].
  - rewrite decide_True in Hall |- * by done.
    apply Forall_cons in Hall as [[decoded Hdec] Hrest].
    destruct (IH Hrest) as (results & Hrun & Hout).
    exists (output_for c decoded :: results). split.
    + simpl. unfold assistants_invoke_function_tool. rewrite Hdec. simpl.
      by rewrite Hrun.
    + constructor; [by exists decoded|done].
  - rewrite decide_False in Hall |- * by done. by apply IH.
Qed.

(** X20.  What an episode submits.  For a run that is not marked and
    asks for tool outputs, when every argument text of its function calls
    decodes and the service accepts the submission, one submission is
    made: exactly one output per tool call of type ["function"], each
    under its call's id and holding the guarded result of the call
    (["Failed"] if the tool could not be run); the outputs are listed here
    in the order of the calls, where [as_completed] may yield them in
    another.  Calls of other types get no output. *)
Theorem episode_submits_one_output_per_function_call
    (run : Run) (thread : string) (p : AssistantsProxy) (action : RequiredAction) :
  are_run_tools_active (run_ident run) p = false →
  required_action run = Some action →
  action_type action = "submit_tool_outputs" →
  Forall (fun c => ∃ decoded, decode_args json_loads (call_arguments c) = Ret decoded)
         (function_calls (action_tool_calls action)) →
  (∀ results, submit_tool_outputs thread (run_ident run) results = Ret tt) →
  ∃ results,
    handled run thread p
    = {| active_tool_runs := active_tool_runs p;
         submitted := submitted p ++ [(thread, run_ident run, results)] |}
    ∧ Forall2 (fun c r => ∃ decoded, decode_args json_loads (call_arguments c) = Ret decoded
                                     ∧ r = output_for c decoded)
              (function_calls (action_tool_calls action)) results.
Proof.
  intros Hfree Haction Htype Hdecode Haccept.
  destruct (call_results_decoded (action_tool_calls action) Hdecode)
    as (results & Hrun & Hout).
  exists results. split; [|done].
  unfold handle_run_actions, run_actions, set_active_tool_run.
  rewrite Hfree, Haction, Htype. simpl. rewrite Hrun. simpl.
  rewrite Haccept. cbn [bind active_tool_runs submitted]. by rewrite clear_after_set.
Qed.

Lemma call_results_malformed (tool_calls : list RequiredToolCall) (c : RequiredToolCall)
    (text : string) :
  c ∈ tool_calls →
  call_type c = "function" →
  call_arguments c = Some text →
  json_loads text = None →
  ∃ e, call_results (call_futures config registry json_loads json_dumps py_str tool_calls)
       = Raise e.
Proof.
  intros Hin Htype Hargs Hbad.
  induction tool_calls as [|c' cs IH]; [by apply elem_of_nil in Hin|].
  simpl. apply elem_of_cons in Hin as [<-|Hin].
  - rewrite Htype. simpl. unfold assistants_invoke_function_tool, decode_args.
    rewrite Hargs, Hbad. by eexists.
  - destruct (IH Hin) as [e He].
    destruct (String.eqb (call_type c') "function"); [|by exists e].
    simpl. destruct (assistants_invoke_function_tool _ _ _ _ _ _ _ _) as [r|e'];
      simpl; [|by eexists].
    rewrite He. by eexists.
Qed.

(** X21.  One malformed argument text.  When the argument text of one
    function call of the run is not valid JSON, the decode error of that
    call aborts the collection of the results: nothing is submitted for
    any call of the run, the error is dropped, and the proxy is left as it
    was, so the run keeps waiting for its outputs. *)
Theorem malformed_arguments_block_the_whole_submission
    (run : Run) (thread text : string) (p : AssistantsProxy) (action : RequiredAction)
    (c : RequiredToolCall) :
  required_action run = Some action →
  action_type action = "submit_tool_outputs" →
  c ∈ action_tool_calls action →
  call_type c = "function" →
  call_arguments c = Some text →
  json_loads text = None →
  handled run thread p = p.
Proof.
  intros Haction Htype Hin Hfun Hargs Hbad.
  unfold handle_run_actions.
  destruct (are_run_tools_active (run_ident run) p) eqn:Hfree; [done|].
  destruct (call_results_malformed (action_tool_calls action) c text Hin Hfun Hargs Hbad)
    as [e He].
  unfold run_actions, set_active_tool_run. rewrite Haction, Htype. simpl. rewrite He.
  cbn [bind active_tool_runs submitted].
  rewrite clear_after_set by done. by destruct p.
Qed.

End Actions.

(** A thread message as its role and text. *)
Definition said (who text : string) : string * string := (who, text).

Definition two_pages : Pages (string * string) :=
  MorePages [said "assistant" "4"; said "user" "What is 2+2?"]
    (LastPage [said "assistant" "Hello"; said "user" "Hi"]).

Lemma list_messages_returns_at_most_count_of_the_role_witness :
  Z.of_nat (length [said "assistant" "4"; said "assistant" "Hello"]) ≤ Z.max 2 0
  ∧ Forall (fun m => has_role fst (Some "assistant") m = true)
           [said "assistant" "4"; said "assistant" "Hello"].
Proof.
  apply (list_messages_returns_at_most_count_of_the_role fst 5 2 (Some "assistant")
           two_pages [said "assistant" "4"; said "assistant" "Hello"]).
  reflexivity.
Defined.

Lemma list_messages_spins_on_a_last_page_without_match_witness :
  list_messages fst 1000 30 (Some "assistant") (LastPage [said "user" "What is 2+2?"])
  = None.
Proof.
  apply (list_messages_spins_on_a_last_page_without_match fst 30 (Some "assistant")
           [said "user" "What is 2+2?"]);
    [reflexivity | done | by repeat constructor].
Defined.

Lemma list_messages_repeats_a_short_last_page_witness :
  ∃ result,
    list_messages fst 4 3 (Some "assistant")
      (LastPage [said "assistant" "4"; said "user" "What is 2+2?"])
    = Some result
    ∧ length result = 3%nat
    ∧ ∀ i, (i < 3)%nat →
           result !! i
           = filter (fun m => has_role fst (Some "assistant") m = true)
               [said "assistant" "4"; said "user" "What is 2+2?"]
             !! (i mod length
                         (filter (fun m => has_role fst (Some "assistant") m = true)
                            [said "assistant" "4"; said "user" "What is 2+2?"]))%nat.
Proof.
  apply (list_messages_repeats_a_short_last_page fst 3 (Some "assistant")
           [said "assistant" "4"; said "user" "What is 2+2?"]).
  by vm_compute.
Defined.

Lemma get_runs_on_thread_repeats_a_short_listing_witness :
  ∃ k,
    get_runs_on_thread 51 50 (LastPage ["run_1"; "run_2"; "run_3"])
    = Some (concat (replicate k ["run_1"; "run_2"; "run_3"]))
    ∧ (50 ≤ k * length ["run_1"; "run_2"; "run_3"]
       < 50 + length ["run_1"; "run_2"; "run_3"])%nat.
Proof.
  apply (get_runs_on_thread_repeats_a_short_listing 50 ["run_1"; "run_2"; "run_3"]);
    [done | lia].
Defined.

(** A run that asks for the outputs of two calls of [search] and of a
    code-interpreter call. *)
Definition search_call (id : string) (arguments : string) : RequiredToolCall :=
  {| call_id := id; call_type := "function"; call_name := "search";
     call_arguments := Some arguments |}.

Definition interpreter_call : RequiredToolCall :=
  {| call_id := "call_2"; call_type := "code_interpreter"; call_name := "";
     call_arguments := None |}.

Definition waiting_run (tool_calls : list RequiredToolCall) : Run :=
  {| run_ident := "run_1"; status := "requires_action";
     required_action := Some {| action_type := "submit_tool_outputs";
                                action_tool_calls := tool_calls |} |}.

Definition idle_proxy : AssistantsProxy := {| active_tool_runs := ∅; submitted := [] |}.

Definition accepts (thread run : string) (outputs : list ToolOutput) : outcome unit :=
  Ret tt.

Definition query_text (x : string) : string :=
  "{" +:+ q "query" +:+ ":" +:+ q x +:+ "}".

Lemma episode_submits_one_output_per_function_call_witness :
  let calls := [search_call "call_1" (query_text "x"); interpreter_call;
                search_call "call_3" (query_text "y")] in
  ∃ results,
    handle_run_actions DispatchProps.sample_config DispatchProps.sample_registry
      Json.loads DispatchProps.sample_dumps DispatchProps.sample_str accepts
      (waiting_run calls) "thread_1" idle_proxy
    = {| active_tool_runs := active_tool_runs idle_proxy;
         submitted := submitted idle_proxy ++ [("thread_1", "run_1", results)] |}
    ∧ Forall2 (fun c r =>
                 ∃ decoded, decode_args Json.loads (call_arguments c) = Ret decoded
                            ∧ r = output_for DispatchProps.sample_config
                                    DispatchProps.sample_registry
                                    DispatchProps.sample_dumps DispatchProps.sample_str
                                    c decoded)
              (function_calls calls) results.
Proof.
  apply (episode_submits_one_output_per_function_call DispatchProps.sample_config
           DispatchProps.sample_registry Json.loads DispatchProps.sample_dumps
           DispatchProps.sample_str accepts
           (waiting_run [search_call "call_1" (query_text "x"); interpreter_call;
                         search_call "call_3" (query_text "y")])
           "thread_1" idle_proxy
           {| action_type := "submit_tool_outputs";
              action_tool_calls := [search_call "call_1" (query_text "x"); interpreter_call;
                                    search_call "call_3" (query_text "y")] |});
    [reflexivity | reflexivity | reflexivity | | done].
  repeat constructor; eexists; by vm_compute.
Defined.

Lemma malformed_arguments_block_the_whole_submission_witness :
  handle_run_actions DispatchProps.sample_config DispatchProps.sample_registry
    Json.loads DispatchProps.sample_dumps DispatchProps.sample_str accepts
    (waiting_run [search_call "call_1" (query_text "x"); search_call "call_2" "{bad"])
    "thread_1" idle_proxy
  = idle_proxy.
Proof.
  apply (malformed_arguments_block_the_whole_submission DispatchProps.sample_config
           DispatchProps.sample_registry Json.loads DispatchProps.sample_dumps
           DispatchProps.sample_str accepts
           (waiting_run [search_call "call_1" (query_text "x"); search_call "call_2" "{bad"])
           "thread_1" "{bad" idle_proxy
           {| action_type := "submit_tool_outputs";
              action_tool_calls := [search_call "call_1" (query_text "x");
                                    search_call "call_2" "{bad"] |}
           (search_call "call_2" "{bad"));
    [reflexivity | reflexivity | | reflexivity | reflexivity | by vm_compute].
  apply elem_of_cons. right. apply elem_of_cons. by left.
Defined.

End AssistantsProps.

(** ** The step loop of the completions proxy *)

Module TurnProps.
Import Json Chunk Completions Turn ChunkProps CompletionsProps.

Section Loop.
Variable clock : nat -> Q.
Variable max_steps : Z.
Variable data_sources : bool.
Context {Result R : Type}.
Variable create : nat -> Request -> outcome Result.
Variable handle : Result -> R -> Proxy -> (Proxy * R) * outcome bool.

Abbreviation looped := (step_loop clock max_steps data_sources create handle).

(** The proxy after a progress update was sent. *)
Definition announced (text : string) (p : Proxy) : Proxy :=
  (push_update_to_stream clock (Text text) PROGRESS_UPDATE p).1.

Lemma announced_spec (text : string) (p : Proxy) :
  push_update_to_stream clock (Text text) PROGRESS_UPDATE p = (announced text p, Ret tt)
  ∧ history (announced text p) = history p
  ∧ ticks (announced text p) = S (ticks p)
  ∧ stream_id (announced text p) = stream_id p
  ∧ stream_chunk (announced text p) = stream_chunk p.
Proof.
  unfold announced. destruct p as [sid cd sp mh h ob k].
  unfold push_update_to_stream, bindM, time, modify. simpl. by destruct sid.
Qed.

(** The request of a step and the proxy when it is made. *)
Definition request_of (step_count : Z) (p : Proxy) (ms : list Message) : Request :=
  {| req_messages := map strip ms;
     req_tool_choice := tool_choice max_steps data_sources step_count;
     req_stream := bool_decide (is_Some (stream_id p)) |}.

Lemma step_loop_unfold (fuel : nat) (k : Z) (s : Session R) (ms : list Message) :
  k < max_steps →
  history (proxy s) = Some ms →
  let p1 := announced (progress_text (k + 1)) (proxy s) in
  let request := request_of (k + 1) (proxy s) ms in
  let made := requests s ++ [request] in
  looped (S fuel) true k s
  = match create (length (requests s)) request with
    | Raise e =>
        ({| proxy := p1; response := response s; requests := made; saved := saved s |},
         Raise e)
    | Ret result =>
        match handle result (response s) p1 with
        | ((p2, response2), Raise e) =>
            ({| proxy := p2; response := response2; requests := made; saved := saved s |},
             Raise e)
        | ((p2, response2), Ret more2) =>
            looped fuel more2 (k + 1)
              {| proxy := p2; response := response2; requests := made; saved := saved s |}
        end
    end.
Proof.
  intros Hk Hms p1 request made. cbn [step_loop].
  rewrite (proj2 (Z.ltb_lt k max_steps) Hk). cbn [andb].
  rewrite (bindM_run _ _ _ _ _ (messages_of_history_spec _ _ Hms)).
  destruct (announced_spec (progress_text (k + 1)) (proxy s)) as (Hpush & _ & _ & Hsid & _).
  rewrite (bindM_run _ _ _ _ _ Hpush). unfold ret.
  subst request made p1. unfold request_of. by rewrite Hsid.
Qed.

Lemma step_loop_done (fuel : nat) (k : Z) (s : Session R) :
  looped fuel false k s = (s, Ret tt).
Proof. by destruct fuel. Qed.



End Loop.

Section Plain.
Variable clock : nat -> Q.
Variable json_loads : string -> option pyval.
Variable json_dumps : pyval -> string.
Variable py_str : pyval -> string.
Variable float_is_one : string -> bool.
Variable config : option Dispatch.ChatConfig.
Variable registry : gmap string Dispatch.tool.
Variable max_steps : Z.
Variable data_sources : bool.

Abbreviation choices_processed :=
  (process_choices clock json_loads json_dumps py_str float_is_one config registry).

Abbreviation tools_processed :=
  (process_tool_calls clock json_loads json_dumps py_str config registry).

Lemma add_message_to_thread_exact (m : Message) (p : Proxy) (ms : list Message) :
  history p = Some ms →
  add_message_to_thread clock m p
  = (set_history (Some (ms ++ [restamp (clock (ticks p)) m])) (set_ticks (S (ticks p)) p),
     Ret tt).
Proof.
  intros H. destruct p as [sid cd sp mh h ob k]. simpl in H. subst h.
  by unfold add_message_to_thread, bindM, time, messages_of_history, read, ret.
Qed.

(** The message that answers a tool call, and the text it carries. *)
Definition tool_result (f : FunctionCall) : string :=
  match invoke_function_tool json_loads json_dumps py_str config registry
          (f_name f) (f_arguments f) with
  | Ret text => text
  | Raise _ => ""
  end.

Definition tool_answer (tool : ToolCall) (f : FunctionCall) : Message :=
  {[ "tool_call_id" := of_opt (tool_id tool); "role" := PStr "tool";
     "name" := of_opt (f_name f); "content" := PStr (tool_result f) ]}.

(** The answers to a list of calls, stamped with the clock readings from
    the [n]-th on. *)
Fixpoint tool_answers (n : nat) (tools : list ToolCall) : list Message :=
  match tools with
  | [] => []
  | tool :: rest =>
      match tool_function tool with
      | None => tool_answers n rest
      | Some f => restamp (clock n) (tool_answer tool f) :: tool_answers (S n) rest
      end
  end.

(** A call that names a function and whose argument text decodes. *)
Definition callable (tool : ToolCall) : Prop :=
  ∃ f decoded, tool_function tool = Some f
               ∧ Dispatch.decode_args json_loads (f_arguments f) = Ret decoded.

Lemma invoke_decodable (f : FunctionCall) (decoded : pyval) :
  Dispatch.decode_args json_loads (f_arguments f) = Ret decoded →
  invoke_function_tool json_loads json_dumps py_str config registry
    (f_name f) (f_arguments f) = Ret (tool_result f).
Proof.
  intros Hdec. unfold tool_result, invoke_function_tool.
  destruct (f_name f) as [n|].
  - unfold Dispatch.completions_invoke_function_tool. by rewrite Hdec.
  - by rewrite Hdec.
Qed.

Lemma process_tool_calls_spec (tools : list ToolCall) :
  Forall callable tools →
  ∀ p ms,
    history p = Some ms →
    tools_processed tools p
    = (set_history (Some (ms ++ tool_answers (ticks p) tools))
         (set_ticks (ticks p + length tools) p), Ret tt).
Proof.
  induction 1 as [|tool tools (f & decoded & Hf & Hdec) _ IH]; intros p ms Hms.
  - simpl. rewrite app_nil_r, Nat.add_0_r. destruct p. simpl in Hms. by subst.
  - cbn [process_tool_calls tool_answers]. rewrite Hf.
    unfold bindM at 1. rewrite (invoke_decodable f decoded Hdec).
    unfold bindM at 1. rewrite (add_message_to_thread_exact _ _ _ Hms).
    rewrite (IH _ (ms ++ [restamp (clock (ticks p)) (tool_answer tool f)])) by done.
    destruct p as [sid cd sp mh h ob k]. simpl.
    unfold set_history, set_ticks. simpl.
    rewrite <- app_assoc. simpl.
    by replace (S (k + length tools)) with (k + S (length tools))%nat by lia.
Qed.

Lemma tool_answers_length (n : nat) (tools : list ToolCall) :
  Forall callable tools → length (tool_answers n tools) = length tools.
Proof.
  intros Hall. revert n.
  induction Hall as [|tool tools (f & decoded & Hf & _) _ IH]; intros n; [done|].
  simpl. rewrite Hf. simpl. by rewrite IH.
Qed.

Lemma tool_call_entries_callable (tools : list ToolCall) :
  Forall callable tools → ∃ entries, tool_call_entries tools = Ret entries.
Proof.
  induction 1 as [|tool tools (f & decoded & Hf & _) _ [entries IH]]; [by eexists|].
  simpl. unfold tool_call_entry. rewrite Hf. simpl. rewrite IH. by eexists.
Qed.

(** X23.  A round of tool calls.  When the model's only choice asks for
    tool calls that all name a function and carry decodable arguments,
    the history gains the message with the calls, then one tool message
    per call, in the order of the calls, under the call's id and name
    and holding the guarded result of the call; the response is left
    untouched and the turn goes on with another step. *)
Theorem tool_calls_are_answered_in_the_history
    (choice : CompletionChoice) (message : CompletionMessage) (tools : list ToolCall)
    (response : PlainResponse) (p : Proxy) (ms : list Message) :
  history p = Some ms →
  c_messages choice = None →
  c_message choice = Some message →
  m_tool_calls message = Some tools →
  tools ≠ [] →
  Forall callable tools →
  ∃ p' entries,
    choices_processed [choice] response p = ((p', response), Ret true)
    ∧ tool_call_entries tools = Ret entries
    ∧ history p'
      = Some (ms
              ++ restamp (clock (ticks p))
                   {[ "tool_calls" := PList entries; "role" := PStr (m_role message) ]}
                 :: tool_answers (S (ticks p)) tools)
    ∧ length (tool_answers (S (ticks p)) tools) = length tools.
Proof.
  intros Hms Hextra Hmessage Htools Hsome Hall.
  destruct (tool_call_entries_callable tools Hall) as [entries Hentries].
  eexists _, entries. split_and!; [|done| |by apply tool_answers_length].
  - unfold process_choices, sort_choices. cbn [length Nat.ltb Nat.leb each_choice].
    unfold process_choice. rewrite Hextra, Hmessage, Htools.
    destruct tools as [|tool tools']; [done|]. rewrite Hentries.
    unfold bindM at 1. rewrite (add_message_to_thread_exact _ _ _ Hms).
    rewrite (process_tool_calls_spec _ Hall _
               (ms ++ [restamp (clock (ticks p))
                         {[ "tool_calls" := PList entries;
                            "role" := PStr (m_role message) ]}])) by done.
    reflexivity.
  - destruct p as [sid cd sp mh h ob k]. simpl. by rewrite <- app_assoc.
Qed.

(** The choices of an answer of the data-source API. *)
Definition from_data_sources (choices : list CompletionChoice) : Prop :=
  Forall (fun c => is_Some (c_messages c)) choices.

Lemma insert_by_Forall {A : Type} (P : A → Prop) (key : A → Z) (x : A) (l : list A) :
  P x → Forall P l → Forall P (insert_by key x l).
Proof.
  intros Hx. induction 1 as [|y l Hy Hl IH]; simpl; [by repeat constructor|].
  destruct (key x <=? key y); by repeat constructor.
Qed.

Lemma sort_choices_Forall {A : Type} (P : A → Prop) (index_of : A → option Z)
    (l : list A) :
  Forall P l → Forall P (sort_choices index_of l).
Proof.
  intros Hall. unfold sort_choices. destruct (1 <? length l)%nat; [|done].
  unfold sorted_by. induction Hall as [|x l Hx Hl IH]; simpl; [done|].
  by apply insert_by_Forall.
Qed.

Lemma each_data_source_choice (choices : list CompletionChoice) :
  from_data_sources choices →
  ∀ more response p pr more',
    each_choice (process_choice clock json_loads json_dumps py_str float_is_one config
                   registry) choices more response p = (pr, Ret more') →
    more' = more.
Proof.
  induction 1 as [|c choices [messages Hc] _ IH]; intros more response p pr more' Hrun.
  - simpl in Hrun. by injection Hrun as _ <-.
  - cbn [each_choice] in Hrun. unfold process_choice at 1 in Hrun. rewrite Hc in Hrun.
    destruct (process_data_source_api_response _ _ _ _ _ _) as [[p1 r1] [b|e]];
      [|done].
    by apply IH in Hrun.
Qed.

Lemma data_source_choices_ask_for_more (choices : list CompletionChoice)
    (response : PlainResponse) (p : Proxy) pr (more : bool) :
  from_data_sources choices →
  choices_processed choices response p = (pr, Ret more) →
  more = true.
Proof.
  intros Hall Hrun. unfold process_choices in Hrun.
  eapply each_data_source_choice in Hrun; [done|].
  by apply sort_choices_Forall.
Qed.

Section DataSources.
Variable create : nat -> Request -> outcome (list CompletionChoice).
Hypothesis create_data_sources :
  ∀ n request choices, create n request = Ret choices → from_data_sources choices.

Lemma data_source_loop_runs_out :
  ∀ fuel k s s',
    fuel = Z.to_nat (max_steps - k) →
    step_loop clock max_steps data_sources create choices_processed fuel true k s
    = (s', Ret tt) →
    length (requests s') = (length (requests s) + fuel)%nat.
Proof.
  induction fuel as [|fuel IH]; intros k s s' Hfuel Hrun.
  - simpl in Hrun. injection Hrun as <-. lia.
  - cbn [step_loop] in Hrun.
    assert ((k <? max_steps) = true) as Hk by (apply Z.ltb_lt; lia).
    rewrite Hk in Hrun. cbn [andb] in Hrun.
    destruct (bindM _ _ (proxy s)) as [p1 [messages|e]]; [|done].
    destruct (create _ _) as [choices|e] eqn:Hcreate; [|done].
    destruct (process_choices _ _ _ _ _ _ _ choices (response s) p1)
      as [[p2 response2] [more2|e]] eqn:Hhandle; [|done].
    apply data_source_choices_ask_for_more in Hhandle;
      [|by eapply create_data_sources]. subst more2.
    apply IH in Hrun; [|lia]. rewrite Hrun. simpl. rewrite length_app. simpl. lia.
Qed.

(** X24.  Answers of the data-source API never end the turn.  Without a
    stream, [__process_choices] drops the value that
    [__process_data_source_api_response] returns: when every answer of the
    model comes from the data-source API and the turn returns, the model
    was asked exactly [max_steps] times, whether or not the first answer
    already said [end_turn]. *)
Theorem data_source_answers_use_the_whole_budget
    (new_response response : PlainResponse) (p : Proxy) (s : Session PlainResponse) :
  converse clock max_steps data_sources create choices_processed new_response p
  = (s, Ret response) →
  length (requests s) = Z.to_nat max_steps.
Proof.
  unfold converse. intros Hrun.
  destruct (step_loop _ _ _ _ _ _ _ _ _) as [s1 [[]|e]] eqn:Hloop; [|done].
  apply data_source_loop_runs_out in Hloop; [|lia].
  injection Hrun as <- _. simpl in *. lia.
Qed.

End DataSources.

Lemma append_citations_length (collected : list pyval) :
  ∀ citations result,
    append_citations collected citations = (result, Ret tt) →
    length result = (length citations + length collected)%nat.
Proof.
  induction collected as [|c collected IH]; intros citations result Hrun; simpl in Hrun.
  - injection Hrun as <-. simpl. lia.
  - destruct (citation_of c) as [converted|e]; [|done].
    apply IH in Hrun. rewrite Hrun, length_app. simpl. lia.
Qed.

Definition no_such_method : exn :=
  AttributeError "'dict' object has no attribute 'to_api_response'".

(** X25.  Citations of an answer that is not streamed.  When the
    messages of the data-source API carry an assistant content and at
    least one citation, [__process_data_source_api_response] stores the
    citations in the response as dicts; rendering the response for the
    caller then calls [to_api_response] on a dict and raises
    [AttributeError]: the request fails after the turn was completed. *)
Theorem data_source_citations_break_the_rendering
    (messages : pyval) (response response' : PlainResponse) (p p' : Proxy)
    (more : bool) (sc : Scan) :
  (let* items := py_iter messages in
   scan_messages json_loads float_is_one items
     {| more_steps := true; msg_content := PNone; msg_citations := [];
        intent := p_intent response |}) = Ret sc →
  msg_content sc ≠ PNone →
  msg_citations sc ≠ [] →
  process_data_source_api_response clock json_loads float_is_one messages response p
  = ((p', response'), Ret more) →
  plain_response_to_api response' = Raise no_such_method.
Proof.
  intros Hscan Hcontent Hcites Hrun.
  unfold process_data_source_api_response in Hrun. rewrite Hscan in Hrun.
  assert (is_none (msg_content sc) = false) as Hnone by by destruct (msg_content sc).
  rewrite Hnone in Hrun.
  destruct (py_append_line _ _) as [joined|e]; [|done].
  destruct (msg_citations sc) as [|c collected] eqn:Hcollected; [done|].
  destruct (append_citations (c :: collected) _) as [cs [[]|e]] eqn:Happend; [|done].
  apply append_citations_length in Happend.
  destruct (add_message_to_thread _ _ _) as [p2 [[]|e]]; [|done].
  injection Hrun as _ <- _.
  unfold plain_response_to_api, response_to_api. simpl.
  destruct cs as [|c' cs]; [simpl in Happend; lia|done].
Qed.

(** X26.  A direct answer.  When the first answer of the model is one
    choice with a text and no tool call, the turn takes one step: the
    model is asked once, with the history stripped of its time stamps and
    citations; the text becomes the message of the response; the history
    gains the answer, stamped, and is written to the store once. *)
Theorem direct_answer_takes_one_step
    (create : nat -> Request -> outcome (list CompletionChoice))
    (choice : CompletionChoice) (message : CompletionMessage) (text thread : string)
    (p : Proxy) (ms : list Message) :
  history p = Some ms →
  0 < max_steps →
  c_messages choice = None →
  c_message choice = Some message →
  m_tool_calls message = None ∨ m_tool_calls message = Some [] →
  m_content message = Some text →
  create 0%nat (request_of max_steps data_sources 1 p ms) = Ret [choice] →
  let answer := restamp (clock (S (ticks p)))
                  {[ "content" := PStr text; "role" := PStr (m_role message) ]} in
  ∃ s response,
    converse clock max_steps data_sources create choices_processed
      (new_plain_response thread) p = (s, Ret response)
    ∧ requests s = [request_of max_steps data_sources 1 p ms]
    ∧ req_messages (request_of max_steps data_sources 1 p ms) = map strip ms
    ∧ p_message response = PStr text
    ∧ p_thread_id response = Some thread
    ∧ history (proxy s) = Some (ms ++ [answer])
    ∧ saved s = [ms ++ [answer]].
Proof.
  intros Hms Hsteps Hextra Hmessage Htools Hcontent Hcreate answer.
  unfold converse.
  destruct (Z.to_nat max_steps) as [|fuel] eqn:Hfuel; [lia|].
  pose proof (step_loop_unfold clock max_steps data_sources create choices_processed fuel 0
                {| proxy := p; response := new_plain_response thread; requests := [];
                   saved := [] |} ms Hsteps Hms) as Hstep.
  cbv zeta in Hstep. cbn [proxy response requests saved length app] in Hstep.
  change (0 + 1) with 1 in Hstep. rewrite Hcreate in Hstep.
  destruct (announced_spec clock (progress_text 1) p) as (_ & Hhist & Hticks & _ & _).
  rewrite Hms in Hhist.
  assert (choices_processed [choice] (new_plain_response thread)
            (announced clock (progress_text 1) p)
          = ((set_history (Some (ms ++ [answer]))
                (set_ticks (S (S (ticks p))) (announced clock (progress_text 1) p)),
              {| p_thread_id := Some thread; p_message := PStr text; p_citations := None;
                 p_intent := PNone; p_shared := [] |}), Ret false)) as Hhandle.
  { unfold process_choices, sort_choices. cbn [length Nat.ltb Nat.leb each_choice].
    unfold process_choice. rewrite Hextra, Hmessage, Hcontent.
    rewrite (add_message_to_thread_exact _ _ _ Hhist), Hticks.
    by destruct Htools as [-> | ->]. }
  rewrite Hhandle, step_loop_done in Hstep. rewrite Hstep.
  destruct (announced_spec clock "Documenting our conversation"
              (set_history (Some (ms ++ [answer]))
                 (set_ticks (S (S (ticks p))) (announced clock (progress_text 1) p))))
    as (_ & Hhist' & _).
  eexists _, _. split; [reflexivity|]. cbn [proxy response requests saved fst].
  fold (announced clock "Documenting our conversation"
          (set_history (Some (ms ++ [answer]))
             (set_ticks (S (S (ticks p))) (announced clock (progress_text 1) p)))).
  rewrite Hhist'. by split_and!.
Qed.

End Plain.

Section Streamed.
Variable clock : nat -> Q.
Variable json_loads : string -> option pyval.
Variable json_dumps : pyval -> string.
Variable py_str : pyval -> string.
Variable config : option Dispatch.ChatConfig.
Variable registry : gmap string Dispatch.tool.

Abbreviation stream_handled :=
  (handle_stream_result clock json_loads json_dumps py_str config registry).

Abbreviation chunk_processed :=
  (process_chunk clock json_loads json_dumps py_str config registry).

Lemma each_choice_app {C R : Type}
    (step : C → bool → R → Proxy → (Proxy * R) * outcome bool) (l1 l2 : list C) :
  ∀ more response p,
    each_choice step (l1 ++ l2) more response p
    = match each_choice step l1 more response p with
      | (pr, Raise e) => (pr, Raise e)
      | ((p1, response1), Ret more1) => each_choice step l2 more1 response1 p1
      end.
Proof.
  induction l1 as [|c l1 IH]; intros more response p; [done|].
  simpl. destruct (step c more response p) as [[p1 r1] [more1|e]]; [|done].
  apply IH.
Qed.

(** The last chunk decides.  The value that
    [__handle_stream_result] returns is the one of the last chunk alone,
    and a chunk without choices counts as "more steps": when a stream ends
    with such a chunk, the step asks for another one, even after a chunk
    that finished with ["stop"]. *)
Theorem final_chunk_without_choices_asks_for_another_step
    (result : list (list StreamChoice)) (response : ChatResponse) (p : Proxy)
    (pr : Proxy * ChatResponse) (more : bool) :
  stream_handled (result ++ [[]]) response p = (pr, Ret more) →
  more = true.
Proof.
  unfold handle_stream_result. rewrite each_choice_app.
  destruct (each_choice _ result _ _ _) as [[p1 r1] [more1|e]]; [|done].
  simpl. by intros [= _ <-].
Qed.

(** A chunk that carries one delta, and the chunks of a list of deltas. *)
Definition delta_choice (d : ChoiceDelta) : StreamChoice :=
  {| s_index := Some 0; s_finish_reason := None; s_delta := Some d; s_messages := None |}.

Definition delta_chunks (deltas : list ChoiceDelta) : list (list StreamChoice) :=
  map (fun d => [delta_choice d]) deltas.

(** The proxy's accumulator holds the content, role and tool calls of
    [cd]; the pending buffer and the time of the last publish follow the
    publishing. *)
Definition tracks (cd : ChunkData) (p : Proxy) : Prop :=
  content (stream_chunk p) = content cd
  ∧ Chunk.role (stream_chunk p) = Chunk.role cd
  ∧ tool_calls (stream_chunk p) = tool_calls cd.

Lemma publish_keeps (force_publish : bool) (publish_frequency : Q) (p : Proxy) :
  let p' := (publish_interim_result clock force_publish publish_frequency p).1 in
  (publish_interim_result clock force_publish publish_frequency p).2 = Ret tt
  ∧ tracks (stream_chunk p) p'
  ∧ history p' = history p.
Proof.
  unfold publish_interim_result, tracks.
  destruct p as [sid cd sp mh h ob n].
  destruct force_publish; simpl;
    unfold bindM, time, read, ret, modify, push_update_to_stream, bindM; simpl;
    [| destruct (Qle_bool _ _); simpl ];
    destruct (accumulated_delta cd) as [text|] eqn:Hacc; simpl;
    try destruct (0 <? String.length text)%nat; simpl;
    try rewrite Hacc;
    destruct sid; simpl; repeat split; done.
Qed.

Lemma add_chunk_delta_tracked (cd cd1 other : ChunkData) (d : ChoiceDelta) :
  content other = content cd →
  Chunk.role other = Chunk.role cd →
  tool_calls other = tool_calls cd →
  add_chunk_delta cd d = (cd1, Ret tt) →
  ∃ other1, add_chunk_delta other d = (other1, Ret tt)
            ∧ content other1 = content cd1
            ∧ Chunk.role other1 = Chunk.role cd1
            ∧ tool_calls other1 = tool_calls cd1.
Proof.
  intros Hc Hr Ht. unfold add_chunk_delta. rewrite Hc, Hr, Ht.
  destruct (d_tool_calls d) as [dts|].
  - destruct (merge_tool_calls _ dts) as [tcs r]. intros [= <- ->].
    eexists. by split.
  - intros [= <-]. eexists. by split.
Qed.

Lemma delta_chunks_tracked (response : ChatResponse) (ms : list Message)
    (rest : list (list StreamChoice)) (deltas : list ChoiceDelta) :
  ∀ cd cd' p more,
    add_chunk_deltas cd deltas = (cd', Ret tt) →
    tracks cd p →
    history p = Some ms →
    ∃ p1 more1,
      tracks cd' p1 ∧ history p1 = Some ms
      ∧ each_choice (fun chunk _ => chunk_processed chunk) (delta_chunks deltas ++ rest)
          more response p
        = each_choice (fun chunk _ => chunk_processed chunk) rest more1 response p1.
Proof.
  induction deltas as [|d deltas IH]; intros cd cd' p more Hrun Htracks Hms.
  - simpl in Hrun. injection Hrun as <-. by exists p, more.
  - simpl in Hrun.
    destruct (add_chunk_delta cd d) as [cd1 [[]|e]] eqn:Hstep; [|done].
    destruct Htracks as (Hc & Hr & Ht).
    destruct (add_chunk_delta_tracked cd cd1 (stream_chunk p) d Hc Hr Ht Hstep)
      as (other1 & Hother & Hc1 & Hr1 & Ht1).
    destruct (publish_keeps false default_publish_frequency (set_stream_chunk other1 p))
      as (Hret & (Hpc & Hpr & Hpt) & Hph).
    set (p1 := (publish_interim_result clock false default_publish_frequency
                  (set_stream_chunk other1 p)).1) in *.
    destruct (IH cd1 cd' p1 true Hrun) as (p2 & more2 & Htracks2 & Hms2 & Heq).
    { unfold tracks. simpl in Hpc, Hpr, Hpt. by rewrite Hpc, Hpr, Hpt. }
    { rewrite Hph. destruct p. simpl in *. done. }
    exists p2, more2. split_and!; [done..|].
    rewrite <- Heq. cbn [delta_chunks map app each_choice].
    unfold process_chunk at 1, sort_choices. cbn [length Nat.ltb Nat.leb each_choice].
    unfold process_stream_chunk. cbn [delta_choice s_finish_reason s_delta].
    rewrite Hother.
    destruct (publish_interim_result clock false default_publish_frequency
                (set_stream_chunk other1 p)) as [p1' [[]|e]] eqn:Hpub;
      simpl in Hret; [|done].
    by subst p1.
Qed.

(** X27.  A streamed answer.  When the stream is a run of chunks that
    each carry one delta, all applied without an error, and then a chunk
    that finishes with ["stop"], the step ends the turn: the message of a
    fresh response is the concatenation of the content pieces of the
    deltas in arrival order, and the history gains one message with that
    content and the last declared role. *)
Theorem streamed_answer_is_the_concatenation_of_its_deltas
    (deltas : list ChoiceDelta) (cd : ChunkData) (stop : StreamChoice)
    (response : ChatResponse) (p : Proxy) (ms : list Message) :
  history p = Some ms →
  add_chunk_deltas new_chunk deltas = (cd, Ret tt) →
  s_finish_reason stop = Some "stop" →
  r_message response = None →
  ∃ p' n,
    stream_handled (delta_chunks deltas ++ [[stop]]) response p
    = ((p', {| r_thread_id := r_thread_id response; r_message := content cd;
               r_citations := r_citations response; r_intent := r_intent response |}),
       Ret false)
    ∧ content cd = joined None (omap d_content deltas)
    ∧ history p'
      = Some (ms ++ [restamp (clock n)
                       {[ "content" := of_opt (content cd);
                          "role" := of_opt (Chunk.role cd) ]}]).
Proof.
  intros Hms Hrun Hstop Hfresh.
  destruct (delta_chunks_tracked response ms [[stop]] deltas new_chunk cd
              (set_stream_chunk new_chunk p) true Hrun)
    as (p1 & more1 & (Hc & Hr & Ht) & Hms1 & Heq).
  { done. }
  { by destruct p. }
  unfold handle_stream_result. rewrite Heq.
  cbn [each_choice]. unfold process_chunk, sort_choices.
  cbn [length Nat.ltb Nat.leb each_choice].
  unfold process_stream_chunk. rewrite Hstop.
  unfold process_finished_stream_chunk. cbn [String.eqb Ascii.eqb Bool.eqb].
  destruct p1 as [sid cd1 sp mh h ob k]. simpl in Hc, Hr, Ht, Hms1. subst h.
  unfold bindM, read, ret, modify, messages_of_history, time, push_update_to_stream,
    bindM. simpl.
  pose proof (add_chunk_deltas_content deltas new_chunk cd Hrun) as Hcontent.
  simpl in Hcontent.
  destruct (accumulated_delta cd1) as [text|]; simpl.
  - destruct (0 <? String.length text)%nat; simpl.
    + destruct sid; simpl; rewrite Hfresh, Hc, Hr; simpl;
        eexists _, _; by split_and!.
    + rewrite Hfresh, Hc, Hr. simpl. eexists _, _; by split_and!.
  - rewrite Hfresh, Hc, Hr. simpl. eexists _, _; by split_and!.
Qed.

End Streamed.

(** A conversation in which the user has just asked a question. *)
Definition asked_proxy : Proxy :=
  {| stream_id := None; stream_chunk := new_chunk; system_prompt := None;
     max_history := 20;
     history := Some [system_message; restamp 2 (user_message "What is 2+2?")];
     outbox := []; ticks := 3 |}.

Definition no_float_is_one (literal : string) : bool := false.

Definition search_for (id x : string) : ToolCall :=
  {| tool_id := Some id;
     tool_function :=
       Some {| f_name := Some "search";
               f_arguments := Some ("{" +:+ q "query" +:+ ":" +:+ q x +:+ "}") |} |}.

Definition asks_for (tools : list ToolCall) : CompletionChoice :=
  {| c_index := Some 0; c_messages := None;
     c_message := Some {| m_content := None; m_role := "assistant";
                          m_tool_calls := Some tools |} |}.

Lemma tool_calls_are_answered_in_the_history_witness :
  let tools := [search_for "call_1" "x"; search_for "call_2" "y"] in
  ∃ p' entries,
    process_choices seconds_clock Json.loads DispatchProps.sample_dumps
      DispatchProps.sample_str no_float_is_one DispatchProps.sample_config
      DispatchProps.sample_registry [asks_for tools] (new_plain_response "t1") asked_proxy
    = ((p', new_plain_response "t1"), Ret true)
    ∧ tool_call_entries tools = Ret entries
    ∧ history p'
      = Some ([system_message; restamp 2 (user_message "What is 2+2?")]
              ++ restamp (seconds_clock (ticks asked_proxy))
                   {[ "tool_calls" := PList entries; "role" := PStr "assistant" ]}
                 :: tool_answers seconds_clock Json.loads DispatchProps.sample_dumps
                      DispatchProps.sample_str DispatchProps.sample_config
                      DispatchProps.sample_registry (S (ticks asked_proxy)) tools)
    ∧ length (tool_answers seconds_clock Json.loads DispatchProps.sample_dumps
                DispatchProps.sample_str DispatchProps.sample_config
                DispatchProps.sample_registry (S (ticks asked_proxy)) tools)
      = length tools.
Proof.
  apply (tool_calls_are_answered_in_the_history seconds_clock Json.loads
           DispatchProps.sample_dumps DispatchProps.sample_str no_float_is_one
           DispatchProps.sample_config DispatchProps.sample_registry
           (asks_for [search_for "call_1" "x"; search_for "call_2" "y"])
           {| m_content := None; m_role := "assistant";
              m_tool_calls := Some [search_for "call_1" "x"; search_for "call_2" "y"] |}
           [search_for "call_1" "x"; search_for "call_2" "y"]
           (new_plain_response "t1") asked_proxy
           [system_message; restamp 2 (user_message "What is 2+2?")]);
    [reflexivity | reflexivity | reflexivity | reflexivity | done |].
  constructor; [eexists _, _; split; [reflexivity | by vm_compute] |].
  constructor; [eexists _, _; split; [reflexivity | by vm_compute] |].
  constructor.
Defined.

(** An answer of the data-source API that says the turn is over. *)
Definition data_source_answer : CompletionChoice :=
  {| c_index := Some 0;
     c_messages :=
       Some (PList [ PDict [ ("role", PStr "assistant"); ("content", PStr "4");
                             ("end_turn", PBool true) ] ]);
     c_message := None |}.

Definition always_data_source (n : nat) (request : Request)
  : outcome (list CompletionChoice) :=
  Ret [data_source_answer].

Lemma always_data_source_spec (n : nat) (request : Request)
    (choices : list CompletionChoice) :
  always_data_source n request = Ret choices → from_data_sources choices.
Proof. intros [= <-]. constructor; [by eexists|constructor]. Qed.

Lemma data_source_answers_use_the_whole_budget_witness :
  length (requests
            (converse seconds_clock 5 true always_data_source
               (process_choices seconds_clock Json.loads DispatchProps.sample_dumps
                  DispatchProps.sample_str no_float_is_one DispatchProps.sample_config
                  DispatchProps.sample_registry)
               (new_plain_response "t1") asked_proxy).1)
  = Z.to_nat 5.
Proof.
  apply (data_source_answers_use_the_whole_budget seconds_clock Json.loads
           DispatchProps.sample_dumps DispatchProps.sample_str no_float_is_one
           DispatchProps.sample_config DispatchProps.sample_registry 5 true
           always_data_source
           always_data_source_spec
           (new_plain_response "t1")
           (response
              (converse seconds_clock 5 true always_data_source
                 (process_choices seconds_clock Json.loads DispatchProps.sample_dumps
                    DispatchProps.sample_str no_float_is_one DispatchProps.sample_config
                    DispatchProps.sample_registry)
                 (new_plain_response "t1") asked_proxy).1)
           asked_proxy).
  by vm_compute.
Defined.

(** The messages of an answer of the data-source API with one citation. *)
Definition cited_messages : pyval :=
  PList [ PDict [ ("role", PStr "tool");
                  ("content",
                   PStr ("{" +:+ q "citations" +:+ ": [{" +:+ q "id" +:+ ": "
                         +:+ q "doc1" +:+ "}]}")) ];
          PDict [ ("role", PStr "assistant"); ("content", PStr "4 [doc1]");
                  ("end_turn", PBool true) ] ].

Lemma data_source_citations_break_the_rendering_witness :
  plain_response_to_api
    (process_data_source_api_response seconds_clock Json.loads no_float_is_one
       cited_messages (new_plain_response "t1") asked_proxy).1.2
  = Raise no_such_method.
Proof.
  eapply (data_source_citations_break_the_rendering seconds_clock Json.loads
            no_float_is_one cited_messages (new_plain_response "t1") _ asked_proxy
            (process_data_source_api_response seconds_clock Json.loads no_float_is_one
               cited_messages (new_plain_response "t1") asked_proxy).1.1).
  - by vm_compute.
  - done.
  - done.
  - by vm_compute.
Defined.

Definition says (text : string) : CompletionChoice :=
  {| c_index := Some 0; c_messages := None;
     c_message := Some {| m_content := Some text; m_role := "assistant";
                          m_tool_calls := None |} |}.

Lemma direct_answer_takes_one_step_witness :
  let answer := restamp (seconds_clock (S (ticks asked_proxy)))
                  {[ "content" := PStr "4"; "role" := PStr "assistant" ]} in
  let ms := [system_message; restamp 2 (user_message "What is 2+2?")] in
  ∃ s response,
    converse seconds_clock 5 false (fun _ _ => Ret [says "4"])
      (process_choices seconds_clock Json.loads DispatchProps.sample_dumps
         DispatchProps.sample_str no_float_is_one DispatchProps.sample_config
         DispatchProps.sample_registry)
      (new_plain_response "t1") asked_proxy = (s, Ret response)
    ∧ requests s = [request_of 5 false 1 asked_proxy ms]
    ∧ req_messages (request_of 5 false 1 asked_proxy ms) = map strip ms
    ∧ p_message response = PStr "4"
    ∧ p_thread_id response = Some "t1"
    ∧ history (proxy s) = Some (ms ++ [answer])
    ∧ saved s = [ms ++ [answer]].
Proof.
  apply (direct_answer_takes_one_step seconds_clock Json.loads DispatchProps.sample_dumps
           DispatchProps.sample_str no_float_is_one DispatchProps.sample_config
           DispatchProps.sample_registry 5 false (fun _ _ => Ret [says "4"]) (says "4")
           {| m_content := Some "4"; m_role := "assistant"; m_tool_calls := None |}
           "4" "t1" asked_proxy
           [system_message; restamp 2 (user_message "What is 2+2?")]);
    [reflexivity | lia | reflexivity | reflexivity | by left | reflexivity | reflexivity].
Defined.

Definition stop_choice : StreamChoice :=
  {| s_index := Some 0; s_finish_reason := Some "stop"; s_delta := None;
     s_messages := None |}.

Definition streaming_asked_proxy : Proxy :=
  {| stream_id := Some "stream-1"; stream_chunk := new_chunk; system_prompt := None;
     max_history := 20;
     history := Some [system_message; restamp 2 (user_message "What is 2+2?")];
     outbox := []; ticks := 3 |}.

Definition answer_deltas : list ChoiceDelta :=
  [ {| d_content := Some "The answer "; d_role := Some "assistant"; d_tool_calls := None |};
    content_delta "is 4" ].

Lemma final_chunk_without_choices_asks_for_another_step_witness :
  (handle_stream_result seconds_clock Json.loads DispatchProps.sample_dumps
     DispatchProps.sample_str DispatchProps.sample_config DispatchProps.sample_registry
     ((delta_chunks answer_deltas ++ [[stop_choice]]) ++ [[]])
     (new_chat_response "t1") streaming_asked_proxy).2
  = Ret true.
Proof.
  assert (∀ x : (Proxy * ChatResponse) * outcome bool,
            (∃ more, x = (x.1, Ret more) ∧ (x = (x.1, Ret more) → more = true)) →
            x.2 = Ret true) as Hshape.
  { intros [pr o] (more & Heq & Hmore). specialize (Hmore Heq). subst more.
    by injection Heq as ->. }
  apply Hshape. exists true. split; [by vm_compute|].
  apply (final_chunk_without_choices_asks_for_another_step seconds_clock Json.loads
           DispatchProps.sample_dumps DispatchProps.sample_str DispatchProps.sample_config
           DispatchProps.sample_registry (delta_chunks answer_deltas ++ [[stop_choice]])
           (new_chat_response "t1") streaming_asked_proxy).
Defined.

Lemma streamed_answer_is_the_concatenation_of_its_deltas_witness :
  let cd := (add_chunk_deltas new_chunk answer_deltas).1 in
  ∃ p' n,
    handle_stream_result seconds_clock Json.loads DispatchProps.sample_dumps
      DispatchProps.sample_str DispatchProps.sample_config DispatchProps.sample_registry
      (delta_chunks answer_deltas ++ [[stop_choice]]) (new_chat_response "t1")
      streaming_asked_proxy
    = ((p', {| r_thread_id := Some "t1"; r_message := content cd;
               r_citations := None; r_intent := None |}), Ret false)
    ∧ content cd = joined None (omap d_content answer_deltas)
    ∧ history p'
      = Some ([system_message; restamp 2 (user_message "What is 2+2?")]
              ++ [restamp (seconds_clock n)
                    {[ "content" := of_opt (content cd);
                       "role" := of_opt (Chunk.role cd) ]}]).
Proof.
  apply (streamed_answer_is_the_concatenation_of_its_deltas seconds_clock Json.loads
           DispatchProps.sample_dumps DispatchProps.sample_str DispatchProps.sample_config
           DispatchProps.sample_registry answer_deltas
           (add_chunk_deltas new_chunk answer_deltas).1 stop_choice
           (new_chat_response "t1") streaming_asked_proxy
           [system_message; restamp 2 (user_message "What is 2+2?")]);
    reflexivity.
Defined.

End TurnProps.

(** ** The responses built from thread messages *)

Module ResponsesProps.
Import Json Chunk Responses.

(** The annotations that make a citation. *)
Definition citable (annotations : list Annotation) : list ChatCitation :=
  omap citation_of_annotation annotations.

Lemma add_annotations_spec (annotations : list Annotation) :
  ∀ citations,
    add_annotations annotations citations
    = match last (citable annotations) with
      | None => citations
      | Some latest =>
          match citations with
          | None => if Nat.odd (length (citable annotations)) then Some [latest] else None
          | Some _ => if Nat.odd (length (citable annotations)) then None else Some [latest]
          end
      end.
Proof.
  unfold add_annotations, citable.
  induction annotations as [|a annotations IH] using rev_ind; intros citations; [done|].
  rewrite foldl_app, omap_app. simpl. rewrite IH.
  destruct (citation_of_annotation a) as [c|]; simpl.
  - rewrite last_snoc, length_app. simpl.
    rewrite Nat.add_1_r, Nat.odd_succ, <- Nat.negb_odd.
    destruct (last (omap citation_of_annotation annotations)) as [latest|] eqn:Hlast.
    + by destruct citations, (Nat.odd _).
    + apply last_None in Hlast. rewrite Hlast. by destruct citations.
  - by rewrite app_nil_r.
Qed.

(** X28.  Citations of an assistant message.  The assignment
    [resp.citations = ... else resp.citations.append(citation)] stores the
    [None] that [append] returns: for a message whose content is one text,
    the response carries the text, and of its file citations and file
    paths only the last one, and only when their number is odd; with an
    even number the response has no citations at all. *)
Theorem citations_survive_only_in_odd_number
    (assistant_msg : ThreadMessage) (value : string) (annotations : list Annotation) :
  tm_content assistant_msg = [TextPart value (Some annotations)] →
  ∃ resp,
    message_to_response assistant_msg = Ret resp
    ∧ ar_message resp = Some value
    ∧ ar_citations resp
      = match last (citable annotations) with
        | Some latest =>
            if Nat.odd (length (citable annotations)) then Some [latest] else None
        | None => None
        end.
Proof.
  intros Hcontent. unfold message_to_response. rewrite Hcontent. simpl.
  eexists. split_and!; [done..|]. simpl. by rewrite add_annotations_spec.
Qed.

Lemma add_part_keeps_message (part : Part) (resp resp' : AssistantResponse) (text : string) :
  ar_message resp = Some text →
  add_part part resp = Ret resp' →
  ∃ text', ar_message resp' = Some text'.
Proof.
  intros Hmessage. destruct part as [value annotations|file_id|type]; simpl.
  - by rewrite Hmessage.
  - destruct (match ar_metadata resp !! "image" with
              | Some (PList _) => _
              | Some _ => _
              | None => _
              end) as [images|e]; [|done].
    intros [= <-]. by exists text.
  - intros [= <-]. by exists text.
Qed.

Lemma add_parts_second_text (parts : list Part) :
  ∀ resp text,
    ar_message resp = Some text →
    (∃ value annotations, TextPart value annotations ∈ parts) →
    ∃ e, add_parts parts resp = Raise e.
Proof.
  induction parts as [|part parts IH]; intros resp text Hmessage (value & annotations & Hin).
  - by apply elem_of_nil in Hin.
  - simpl. destruct (add_part part resp) as [resp'|e] eqn:Hpart; [|by eexists].
    apply elem_of_cons in Hin as [<-|Hin].
    + simpl in Hpart. by rewrite Hmessage in Hpart.
    + destruct (add_part_keeps_message _ _ _ _ Hmessage Hpart) as [text' Htext'].
      simpl. eapply IH; [done|]. by exists value, annotations.
Qed.

(** X29.  A message with two texts.  The second text of a message is
    joined as [resp.message + "\n" + content.text], where [content.text]
    is the text object, not its value: for a list of messages one of which
    has two text parts, [__messages_to_response] raises and returns no
    response at all. *)
Theorem message_with_two_texts_raises
    (messages : list ThreadMessage) (assistant_msg : ThreadMessage)
    (before between after : list Part) (value1 value2 : string)
    (annotations1 annotations2 : option (list Annotation)) :
  assistant_msg ∈ messages →
  tm_content assistant_msg
  = before ++ [TextPart value1 annotations1] ++ between
    ++ [TextPart value2 annotations2] ++ after →
  ∃ e, messages_to_response messages = Raise e.
Proof.
  intros Hin Hcontent.
  assert (∃ e, message_to_response assistant_msg = Raise e) as [e He].
  { unfold message_to_response. rewrite Hcontent.
    generalize ({| ar_id := tm_id assistant_msg;
                   ar_assistant_id := tm_assistant_id assistant_msg;
                   ar_thread_id := tm_thread_id assistant_msg; ar_message := None;
                   ar_citations := None;
                   ar_metadata := match tm_file_ids assistant_msg with
                                  | Some (file_id :: file_ids) =>
                                      {[ "file_ids" := PList (map PStr (file_id :: file_ids)) ]}
                                  | _ => ∅
                                  end |}).
    clear Hcontent. induction before as [|part before IH]; intros resp.
    - cbn [app add_parts].
      destruct (add_part (TextPart value1 annotations1) resp) as [resp1|e1] eqn:Hfirst;
        [|by eexists].
      simpl. simpl in Hfirst. destruct (ar_message resp); [done|].
      injection Hfirst as <-.
      eapply add_parts_second_text; [done|].
      exists value2, annotations2. apply elem_of_app. right. by left.
    - cbn [app add_parts]. destruct (add_part part resp) as [resp1|e1]; [|by eexists].
      apply IH. }
  induction messages as [|m messages IH]; [by apply elem_of_nil in Hin|].
  simpl. apply elem_of_cons in Hin as [<-|Hin].
  - rewrite He. by eexists.
  - destruct (message_to_response m) as [resp|e']; [|by eexists].
    destruct (IH Hin) as [e' He']. simpl. rewrite He'. by eexists.
Qed.

(** An answer that cites one file twice. *)
Definition cited_twice : ThreadMessage :=
  {| tm_id := "msg_1"; tm_assistant_id := Some "asst_a"; tm_thread_id := "thread_1";
     tm_file_ids := None;
     tm_content :=
       [TextPart "See [1] and [2]."
          (Some [FileCitation "file_1" "first quote" 4 7 "[1]";
                 FileCitation "file_1" "second quote" 12 15 "[2]"])] |}.

Lemma citations_survive_only_in_odd_number_witness :
  ∃ resp,
    message_to_response cited_twice = Ret resp
    ∧ ar_message resp = Some "See [1] and [2]."
    ∧ ar_citations resp
      = match last (citable [FileCitation "file_1" "first quote" 4 7 "[1]";
                             FileCitation "file_1" "second quote" 12 15 "[2]"]) with
        | Some latest =>
            if Nat.odd (length (citable [FileCitation "file_1" "first quote" 4 7 "[1]";
                                         FileCitation "file_1" "second quote" 12 15 "[2]"]))
            then Some [latest] else None
        | None => None
        end.
Proof.
  apply (citations_survive_only_in_odd_number cited_twice "See [1] and [2]."
           [FileCitation "file_1" "first quote" 4 7 "[1]";
            FileCitation "file_1" "second quote" 12 15 "[2]"]).
  reflexivity.
Defined.

Definition two_texts : ThreadMessage :=
  {| tm_id := "msg_2"; tm_assistant_id := Some "asst_a"; tm_thread_id := "thread_1";
     tm_file_ids := None;
     tm_content := [TextPart "The answer is 4." None; TextPart "Anything else?" None] |}.

Lemma message_with_two_texts_raises_witness :
  ∃ e, messages_to_response [cited_twice; two_texts] = Raise e.
Proof.
  apply (message_with_two_texts_raises [cited_twice; two_texts] two_texts [] [] []
           "The answer is 4." "Anything else?" None None);
    [| reflexivity].
  apply elem_of_cons. right. apply elem_of_cons. by left.
Defined.

End ResponsesProps.

(** ** The system prompt file *)

Module SettingsProps.
Import Chunk Settings.

Section Files.
Variable curr_dir : string.
Variable path_exists : string -> bool.
Variable read_file : string -> string.

Lemma first_prompt_file_spec (sources : list (option string)) (path : string) :
  first_prompt_file curr_dir path_exists sources = Ret (Some path) →
  ∃ before after,
    sources = before ++ Some path :: after
    ∧ path_exists path = true
    ∧ refused curr_dir path = false
    ∧ Forall (fun source => ∀ earlier, source = Some earlier →
                path_exists earlier = false ∧ refused curr_dir earlier = false)
             before.
Proof.
  induction sources as [|[candidate|] sources IH]; simpl; [done| |].
  - destruct (refused curr_dir candidate) eqn:Hrefused; [done|].
    destruct (path_exists candidate) eqn:Hexists.
    + intros [= ->]. by exists [], sources.
    + intros Hrun. destruct (IH Hrun) as (before & after & -> & ? & ? & Hall).
      exists (Some candidate :: before), after. split_and!; [done..|].
      constructor; [|done]. by intros earlier [= <-].
  - intros Hrun. destruct (IH Hrun) as (before & after & -> & ? & ? & Hall).
    exists (None :: before), after. split_and!; [done..|].
    by constructor.
Qed.

(** X30.  The prompt file that is read.  Without a prompt in the
    configuration, whenever loading the system prompt succeeds, either a
    file was read, and then its path is one of the sources, exists, does
    not contain [..], and is relative or starts with the module's
    directory, every source tried before it being an acceptable path that
    does not exist; or no source names an existing file, and the prompt is
    the one of the environment.  A refused path met before an existing
    file makes the call raise instead. *)
Theorem prompt_file_read_is_an_accepted_existing_source
    (header body env_path env_prompt prompt : option string) :
  load_system_prompt curr_dir path_exists read_file None header body env_path env_prompt
  = Ret prompt →
  (∃ path before after,
      prompt = Some (read_file path)
      ∧ prompt_sources curr_dir header body env_path = before ++ Some path :: after
      ∧ path_exists path = true
      ∧ is_substring ".." path = false
      ∧ (String.prefix "/" path = true → String.prefix curr_dir path = true)
      ∧ Forall (fun source => ∀ earlier, source = Some earlier →
                  path_exists earlier = false ∧ refused curr_dir earlier = false)
               before)
  ∨ (prompt = env_prompt
     ∧ first_prompt_file curr_dir path_exists (prompt_sources curr_dir header body env_path)
       = Ret None).
Proof.
  unfold load_system_prompt.
  destruct (first_prompt_file _ _ _) as [[path|]|e] eqn:Hfound; simpl; [| |done].
  - intros [= <-]. left.
    destruct (first_prompt_file_spec _ _ Hfound) as (before & after & Hsplit & Hex & Href & Hall).
    exists path, before, after. unfold refused in Href.
    apply orb_false_iff in Href as [Habs Hdots].
    split_and!; [done..| |done].
    intros Hslash. rewrite Hslash in Habs. simpl in Habs.
    by apply negb_false_iff in Habs.
  - intros [= <-]. by right.
Qed.

(** A refused path.  Without a prompt in the configuration, when a
    source names a path that contains [..], or an absolute path outside
    the module's directory, and no source before it names an existing
    file, loading the system prompt raises [ValueError]: the request is
    rejected whether or not the refused path exists, and nothing is
    read. *)
Theorem refused_prompt_path_raises
    (header body env_path env_prompt : option string)
    (before after : list (option string)) (path : string) :
  prompt_sources curr_dir header body env_path = before ++ Some path :: after →
  refused curr_dir path = true →
  Forall (fun source => ∀ earlier, source = Some earlier →
            path_exists earlier = false ∧ refused curr_dir earlier = false)
         before →
  load_system_prompt curr_dir path_exists read_file None header body env_path env_prompt
  = Raise (ValueError ("Invalid path specified for system prompt: " +:+ path)).
Proof.
  intros Hsplit Hrefused Hbefore. unfold load_system_prompt. rewrite Hsplit.
  clear Hsplit. induction Hbefore as [|[earlier|] before Hearlier _ IH]; simpl.
  - by rewrite Hrefused.
  - destruct (Hearlier earlier eq_refl) as [-> ->]. exact IH.
  - exact IH.
Qed.

End Files.

(** A deployment whose module directory holds the default prompt file. *)
Definition module_dir : string := "/home/site/wwwroot/data".

Definition deployed (path : string) : bool :=
  String.eqb path "/home/site/wwwroot/data/system_prompt.txt".

Definition file_text (path : string) : string := "You answer questions about invoices.".

Lemma prompt_file_read_is_an_accepted_existing_source_witness :
  (∃ path before after,
      Some "You answer questions about invoices." = Some (file_text path)
      ∧ prompt_sources module_dir (Some "prompts/support.txt") None None
        = before ++ Some path :: after
      ∧ deployed path = true
      ∧ is_substring ".." path = false
      ∧ (String.prefix "/" path = true → String.prefix module_dir path = true)
      ∧ Forall (fun source => ∀ earlier, source = Some earlier →
                  deployed earlier = false ∧ refused module_dir earlier = false)
               before)
  ∨ (Some "You answer questions about invoices." = None
     ∧ first_prompt_file module_dir deployed
         (prompt_sources module_dir (Some "prompts/support.txt") None None)
       = Ret None).
Proof.
  apply (prompt_file_read_is_an_accepted_existing_source module_dir deployed file_text
           (Some "prompts/support.txt") None None None
           (Some "You answer questions about invoices.")).
  reflexivity.
Defined.

Lemma refused_prompt_path_raises_witness :
  load_system_prompt module_dir deployed file_text None (Some "../../etc/passwd") None
    None None
  = Raise (ValueError ("Invalid path specified for system prompt: " +:+ "../../etc/passwd")).
Proof.
  apply (refused_prompt_path_raises module_dir deployed file_text
           (Some "../../etc/passwd") None None None []
           [None; Some "system_prompt.txt"; Some (module_dir +:+ "/system_prompt.txt"); None]
           "../../etc/passwd");
    [reflexivity | reflexivity | constructor].
Defined.

End SettingsProps.
